(** * Taipy: typed-string configuration serializer, REST section, Markdown factory

    A shallow embedding of
    - [taipy/common/config/_serializer/_base_serializer.py]
      ([_BaseSerializer._stringify], [_pythonify], [_timedelta_to_str], [_register]),
    - [taipy/rest/config/rest_config.py] and [rest_checker.py]
      ([RestConfig._to_dict], [_from_dict], [_RestConfigChecker._check]),
    - [taipy/gui/_renderers/_markdown/factory.py]
      ([_MarkdownFactory.create_element]),
    together with the properties of these functions that the specification
    states, and with further properties of the same files read off the code:
    the registration of types, [_str], the dicts, lists and callables that
    [_stringify] and [_pythonify] handle, [RestConfig._update] and
    [__copy__], what the checker returns, and the properties dict that
    [create_element] builds.

    Python [str] values are strings of 8-bit characters, [int] is [Z], [float]
    is a binary64 datum ([spec_float]), a [dict] with string keys is a [gmap]
    where only lookups matter and an association list where it is iterated.
    A call returns a value or raises ([result]); an object that the code
    changes in place (the class attributes of the serializer, the issue
    collector of the checker) is threaded through the functions that change
    it.  What the sources call and do not define (built-ins of Python,
    [_TemplateHandler], [_Factory], the base class of the section) is a
    parameter of the functions that call it. *)

From Stdlib Require Import ZArith Ascii String List Bool Lia.
From Stdlib Require Import DecimalString DecimalZ DecimalPos SpecFloat.
From stdpp Require Import base option strings gmap.

Local Open Scope string_scope.
Local Open Scope Z_scope.

(** * Part I: the embedding *)

(** ** Python values and the built-ins the sources call *)

Module Py.

(** Exceptions the modelled code raises or lets through: two of
    [taipy.common.config.exceptions], whatever [_TemplateHandler] raises
    ([MissingEnvVariableError], [InconsistentEnvVariableError]), and the
    [TypeError] of a call that gives a parameter two values. *)
Inductive exn : Type :=
| LoadingError (msg : string)
| InvalidConfigurationType (msg : string)
| HandlerError (msg : string)
| TypeError.

(** The outcome of a call: a returned value or a raised exception. *)
Inductive result (A : Type) : Type :=
| Ok (a : A)
| Raise (e : exn).
Arguments Ok {A} a.
Arguments Raise {A} e.

(** Sequencing: an exception raised by the first call ends the computation.
    Written [x ← r; k] below. *)
#[export] Instance result_bind : MBind result := fun A B k r =>
  match r with
  | Ok a => k a
  | Raise e => Raise e
  end.

#[export] Instance result_ret : MRet result := @Ok.

(** [datetime.datetime]: the naive fields and the UTC offset (in seconds) of
    an aware value. *)
Record datetime : Type := {
  year : Z; month : Z; day : Z;
  hour : Z; minute : Z; second : Z; microsecond : Z;
  utcoffset : option Z
}.

(** [datetime.timedelta], normalised by Python to
    [0 <= seconds < 86400] and [0 <= microseconds < 1000000]. *)
Record timedelta : Type := {
  days : Z; seconds : Z; microseconds : Z
}.

(** The values the modelled code handles.  [VDict] keeps the insertion order
    of a dict whose keys are strings; [VSet] lists a set in its iteration
    order; [VStringifiable own] is an object with a callable [_stringify]
    attribute, [own] being what that method returns; [VObject] is any other
    object. *)
#[warnings="-register-all"]
Inductive PyVal : Type :=
| VNone
| VBool (b : bool)
| VInt (n : Z)
| VFloat (x : spec_float)
| VStr (s : string)
| VDatetime (d : datetime)
| VTimedelta (t : timedelta)
| VFunction (module name : string)
| VClass (module qualname : string)
| VEnum (module qualname name : string)
| VDict (items : list (string * PyVal))
| VList (xs : list PyVal)
| VTuple (xs : list PyVal)
| VSet (xs : list PyVal)
| VStringifiable (own : PyVal)
| VObject (ident : string).

(** [str(b)] for a [bool]. *)
Definition str_bool (b : bool) : string :=
  if b then "True" else "False".

(** [str(n)] for an [int]: decimal digits, a leading minus sign when negative. *)
Definition str_int (n : Z) : string :=
  NilZero.string_of_int (Z.to_int n).

(** [isinstance(v, int)]: [bool] is a subclass of [int]. *)
Definition isinstance_int (v : PyVal) : bool :=
  match v with
  | VInt _ | VBool _ => true
  | _ => false
  end.

(** The integer an [int] instance stands for ([True] is 1, [False] is 0). *)
Definition int_value (v : PyVal) : option Z :=
  match v with
  | VInt n => Some n
  | VBool b => Some (if b then 1 else 0)
  | _ => None
  end.

Definition isinstance_str (v : PyVal) : bool :=
  match v with
  | VStr _ => true
  | _ => false
  end.

Definition is_None (v : PyVal) : bool :=
  match v with
  | VNone => true
  | _ => false
  end.

(** Truth value testing ([bool(v)], [not v], [if v:]). *)
Definition truthy (v : PyVal) : bool :=
  match v with
  | VNone => false
  | VBool b => b
  | VInt n => negb (n =? 0)
  | VFloat x => match x with S754_zero _ => false | _ => true end
  | VStr s => negb (String.eqb s "")
  | VTimedelta t =>
      negb ((days t =? 0) && (seconds t =? 0) && (microseconds t =? 0))
  | VDict items => match items with [] => false | _ => true end
  | VList xs | VTuple xs | VSet xs => match xs with [] => false | _ => true end
  | _ => true
  end.

(** What the sources take from the Python runtime and do not define
    themselves: [float.__str__], [datetime.isoformat],
    [timedelta.total_seconds], the float operators [//] and [%] with an [int]
    right operand, [int(x)] of a float, and [str] of the remaining values. *)
Class Builtins : Type := {
  str_float : spec_float -> string;
  isoformat : datetime -> string;
  total_seconds : timedelta -> spec_float;
  float_floordiv : spec_float -> Z -> spec_float;
  float_mod : spec_float -> Z -> spec_float;
  int_of_float : spec_float -> Z;
  str_other : PyVal -> string
}.

(** [str(v)]. *)
Definition str `{Builtins} (v : PyVal) : string :=
  match v with
  | VNone => "None"
  | VBool b => str_bool b
  | VInt n => str_int n
  | VFloat x => str_float x
  | VStr s => s
  | _ => str_other v
  end.

End Py.

Import Py.

(** ** [_base_serializer.py] *)

Module Serializer.

Section Stringify.
Context `{Builtins}.

(** [_BaseSerializer._timedelta_to_str] *)
Definition _timedelta_to_str (obj : timedelta) : string :=
  let total_seconds := total_seconds obj in
  str_int (int_of_float (float_floordiv total_seconds 86400)) +:+ "d" +:+
  str_int (int_of_float (float_floordiv (float_mod total_seconds 86400) 3600)) +:+ "h" +:+
  str_int (int_of_float (float_floordiv (float_mod total_seconds 3600) 60)) +:+ "m" +:+
  str_int (int_of_float (float_mod total_seconds 60)) +:+ "s".

(** [_BaseSerializer._stringify].  The tests of the source are on disjoint
    classes of values except for [bool], a subclass of [int], which the
    source tests first. *)
Fixpoint _stringify (as_dict : PyVal) : PyVal :=
  match as_dict with
  | VNone => VNone
  | VStringifiable own => own
  | VBool b => VStr (str_bool b +:+ ":bool")
  | VInt n => VStr (str_int n +:+ ":int")
  | VFloat x => VStr (str_float x +:+ ":float")
  | VDatetime d => VStr (isoformat d +:+ ":datetime")
  | VTimedelta t => VStr (_timedelta_to_str t +:+ ":timedelta")
  | VFunction module name => VStr (module +:+ "." +:+ name +:+ ":function")
  | VClass module qualname => VStr (module +:+ "." +:+ qualname +:+ ":class")
  | VEnum module qualname name =>
      VStr (module +:+ "." +:+ qualname +:+ "." +:+ name +:+ ":enum")
  | VDict items => VDict (map (fun '(key, val) => (key, _stringify val)) items)
  | VList xs => VList (map _stringify xs)
  | VTuple xs => VList (map _stringify xs)
  | VSet xs => VList (map _stringify xs)
  | VStr _ | VObject _ => as_dict
  end.

End Stringify.

(** A [str] instance as [_stringify] tells it apart.  No class derives from
    [str] together with [bool], [int], [float], [datetime] or [timedelta]
    (Python refuses the bases: their layouts conflict, and [bool] is no base
    type), and an instance is neither a function nor a class; so the tests of
    [_stringify] that a [str] instance can pass are the first one, for a
    callable [_stringify] attribute, and the one for [Enum], which a member
    of a class such as [class Color(str, Enum)] passes.  [s] is the text of
    the string; [own] is what the [_stringify] attribute returns; the other
    fields are [__module__], [__class__.__qualname__] and [name]. *)
Inductive StrInstance : Type :=
| PlainStr (s : string)
| StrWithStringify (s : string) (own : PyVal)
| StrEnumMember (s : string) (module qualname name : string).

(** The value a [str] instance is to the modelled code, by the first test
    of [_stringify] it passes. *)
Definition str_value (x : StrInstance) : PyVal :=
  match x with
  | PlainStr s => VStr s
  | StrWithStringify _ own => VStringifiable own
  | StrEnumMember _ module qualname name => VEnum module qualname name
  end.

(** *** The regular expressions of [_pythonify] *)

(** [\w] on 8-bit characters: letters, digits and the underscore. *)
Definition is_word (c : ascii) : bool :=
  let n := nat_of_ascii c in
  ((48 <=? n) && (n <=? 57) || (65 <=? n) && (n <=? 90) ||
   (97 <=? n) && (n <=? 122) || (n =? 95))%nat.

(** The line feed, the one character [.] does not match. *)
Definition is_newline (c : ascii) : bool := Ascii.eqb c "010"%char.

Definition is_colon (c : ascii) : bool := Ascii.eqb c ":"%char.

Fixpoint last_char (s : string) : option ascii :=
  match s with
  | EmptyString => None
  | String c EmptyString => Some c
  | String _ rest => last_char rest
  end.

Definition first_char (s : string) : option ascii :=
  match s with
  | EmptyString => None
  | String c _ => Some c
  end.

Definition word_at (o : option ascii) : bool :=
  match o with
  | Some c => is_word c
  | None => false
  end.

(** One alternative [\bT\b] of [TYPE_PATTERN] against the text that follows
    the colon up to the end of the string: the text is [T], and [T] starts
    and ends with a word character (the colon before it and the end of the
    string after it are not).  A type identifier is read as literal text, as
    the ten of the class body are.  The source joins the identifiers into
    the pattern as they are, so this is the alternative for an identifier
    made of ASCII letters, digits and underscores ([literal_type] below); an
    identifier with other characters, which the pattern would read as
    regular-expression syntax, is outside what the function stands for, and
    the statements that depend on the identifiers of registered classes
    take the serializable types to be literal. *)
Definition alternative_matches (rest T : string) : bool :=
  String.eqb rest T && word_at (first_char T) && word_at (last_char T).

(** The optional group 2 of [TYPE_PATTERN] against the text after the colon:
    [Some None] when the group is skipped, [Some (Some T)] when an alternative
    consumes the text, [None] when neither reaches the end of the string. *)
Definition type_suffix (types : list string) (rest : string)
  : option (option string) :=
  if existsb (alternative_matches rest) types then Some (Some rest)
  else if String.eqb rest "" then Some None
  else None.

(** [re.fullmatch(TYPE_PATTERN, s)] with
    [TYPE_PATTERN = "^(.+):(\bT1\b|...|\bTn\b)?$"], the [Ti] being
    [_SERIALIZABLE_TYPES]: groups 1 and 2 of the match, if any.  [pre] is the
    part of the string already given to the greedy [.+], which is extended as
    far as possible before a colon is taken as the separator. *)
Fixpoint type_pattern_from (types : list string) (pre s : string)
  : option (string * option string) :=
  match s with
  | EmptyString => None
  | String c rest =>
      let longer :=
        if is_newline c then None
        else type_pattern_from types (pre +:+ String c EmptyString) rest in
      match longer with
      | Some groups => Some groups
      | None =>
          if is_colon c && negb (String.eqb pre "") then
            match type_suffix types rest with
            | Some dynamic_type => Some (pre, dynamic_type)
            | None => None
            end
          else None
      end
  end.

Definition TYPE_PATTERN_fullmatch (types : list string) (s : string)
  : option (string * option string) :=
  type_pattern_from types "" s.

(** *** The template handler *)

(** The converters of [_TemplateHandler] ([common/_template_handler.py],
    not among the sources) that [_pythonify] calls: each returns a value or
    raises. *)
Class TemplateHandler : Type := {
  _to_bool : string -> result PyVal;
  _to_int : string -> result PyVal;
  _to_float : string -> result PyVal;
  _to_datetime : string -> result PyVal;
  _to_timedelta : string -> result PyVal;
  _to_function : string -> result PyVal;
  _to_class : string -> result PyVal;
  _to_enum : string -> result PyVal
}.

(** Tail of an environment template after [ENV[] and the first character of
    the name: the rest of the name, the closing bracket and the optional
    type. *)
Fixpoint env_template_tail (s : string) : bool :=
  match s with
  | EmptyString => false
  | String c rest =>
      if is_word c then env_template_tail rest
      else Ascii.eqb c "]"%char &&
           existsb (String.eqb rest) [""; ":bool"; ":str"; ":float"; ":int"]
  end.

(** [pre] taken off the front of [s], when [s] starts with it. *)
Fixpoint strip_prefix (pre s : string) : option string :=
  match pre with
  | EmptyString => Some s
  | String c pre' =>
      match s with
      | EmptyString => None
      | String d s' => if Ascii.eqb c d then strip_prefix pre' s' else None
      end
  end.

(** [[a-zA-Z_]]: a word character that is not a digit. *)
Definition is_name_start (c : ascii) : bool :=
  is_word c && negb ((48 <=? nat_of_ascii c) && (nat_of_ascii c <=? 57))%nat.

(** Modelled from the spec: the constant [_TemplateHandler._PATTERN] is
    declared in [common/_template_handler.py], which is not among the
    sources at hand.  It is the environment-variable template that
    [tests/rest/test_rest_config.py] writes as [ENV[PORT]:int] and
    [ENV[HOST]]: [ENV[], a name that starts with a letter or an underscore
    and goes on with word characters, [], and optionally one of [:bool],
    [:str], [:float], [:int]. *)
Definition ENV_PATTERN (s : string) : bool :=
  match strip_prefix "ENV[" s with
  | Some (String c rest) => is_name_start c && env_template_tail rest
  | _ => false
  end.

(** *** Class attributes and [_register] *)

(** A class handed to [_register] by a section's [_types_to_register]:
    its [__name__] and the three attributes [_register] asks for
    ([None] when the class lacks the attribute). *)
Record Clazz : Type := {
  __name__ : string;
  _type_identifier : option string;
  has_stringify : bool;
  clazz_pythonify : option (PyVal -> result PyVal)
}.

(** A section as [_register] sees it. *)
Record SectionObj : Type := {
  section_name : string;
  section_class : string;
  _types_to_register : list Clazz
}.

(** The mutable class attributes of [_BaseSerializer]; a registered type is
    kept as its [_pythonify] class method. *)
Record Attributes : Type := {
  _SERIALIZABLE_TYPES : list string;
  _section_class : gmap string string;
  _registered_types : gmap string (PyVal -> result PyVal)
}.

Definition _GLOBAL_NODE_NAME : string := "TAIPY".

(** The attributes as the class body sets them. *)
Definition initial : Attributes := {|
  _SERIALIZABLE_TYPES :=
    ["bool"; "str"; "int"; "float"; "datetime"; "timedelta"; "function";
     "class"; "enum"; "SECTION"];
  _section_class := {[ _GLOBAL_NODE_NAME := "GlobalAppConfig" ]};
  _registered_types := ∅
|}.

(** One turn of the loop of [_register]. *)
Definition register_type (st : Attributes) (clazz : Clazz)
  : Attributes * result unit :=
  match _type_identifier clazz with
  | None =>
      (st, Raise (InvalidConfigurationType
         ("Type " +:+ __name__ clazz +:+ " must have a `_type_identifier` method.")))
  | Some ident =>
      if negb (has_stringify clazz) then
        (st, Raise (InvalidConfigurationType
           ("Type " +:+ __name__ clazz +:+ " must have a `_stringify` method.")))
      else
        match clazz_pythonify clazz with
        | None =>
            (st, Raise (InvalidConfigurationType
               ("Type " +:+ __name__ clazz +:+ " must have a `_pythonify` method.")))
        | Some pythonify =>
            let types := _SERIALIZABLE_TYPES st in
            ({| _SERIALIZABLE_TYPES :=
                  if bool_decide (ident ∈ types) then types else types ++ [ident];
                _section_class := _section_class st;
                _registered_types := <[ident := pythonify]> (_registered_types st) |},
             Ok tt)
        end
  end.

Fixpoint register_types (st : Attributes) (classes : list Clazz)
  : Attributes * result unit :=
  match classes with
  | [] => (st, Ok tt)
  | clazz :: more =>
      match register_type st clazz with
      | (st', Ok _) => register_types st' more
      | (st', Raise e) => (st', Raise e)
      end
  end.

(** [_BaseSerializer._register]: the attributes afterwards, and whether the
    call returned or raised (what was registered before the exception
    stays registered). *)
Definition _register (st : Attributes) (section : SectionObj)
  : Attributes * result unit :=
  register_types
    {| _SERIALIZABLE_TYPES := _SERIALIZABLE_TYPES st;
       _section_class :=
         <[section_name section := section_class section]> (_section_class st);
       _registered_types := _registered_types st |}
    (_types_to_register section).

(** *** [_pythonify] *)

Section Pythonify.
Context `{Builtins} `{TemplateHandler}.
(** [_PATTERN s] says whether [re.fullmatch(_TemplateHandler._PATTERN, s)]
    finds a match. *)
Variable _PATTERN : string -> bool.
Variable st : Attributes.

(** [dynamic_type == name], for the group 2 of the match ([None] when the
    group took no part in it). *)
Definition type_is (dynamic_type : option string) (name : string) : bool :=
  match dynamic_type with
  | Some T => String.eqb T name
  | None => false
  end.

(** [str(dynamic_type)] inside the error message. *)
Definition str_group (dynamic_type : option string) : string :=
  match dynamic_type with
  | Some T => T
  | None => "None"
  end.

Definition unsupported_type (val : string) (dynamic_type : option string) : exn :=
  LoadingError ("Error loading toml configuration at " +:+ val +:+ ". " +:+
                str_group dynamic_type +:+ " type is not supported.").

(** The body of [_pythonify] once [TYPE_PATTERN] has matched the string
    [val] with groups [actual_val] and [dynamic_type]. *)
Definition typed_value (val actual_val : string) (dynamic_type : option string)
  : result PyVal :=
  if type_is dynamic_type "SECTION" then Ok (VStr actual_val)
  else
    match dynamic_type ≫= (λ T, _registered_types st !! T) with
    | Some registered_pythonify => registered_pythonify (VStr actual_val)
    | None =>
        if type_is dynamic_type "bool" then _to_bool actual_val
        else if type_is dynamic_type "int" then _to_int actual_val
        else if type_is dynamic_type "float" then _to_float actual_val
        else if type_is dynamic_type "datetime" then _to_datetime actual_val
        else if type_is dynamic_type "timedelta" then _to_timedelta actual_val
        else if type_is dynamic_type "function" then _to_function actual_val
        else if type_is dynamic_type "class" then _to_class actual_val
        else if type_is dynamic_type "enum" then _to_enum actual_val
        else if type_is dynamic_type "str" then Ok (VStr actual_val)
        else Raise (unsupported_type val dynamic_type)
    end.

(** [_BaseSerializer._pythonify] *)
Fixpoint _pythonify (val : PyVal) : result PyVal :=
  if _PATTERN (str val) then Ok val
  else
    match val with
    | VStr s =>
        match TYPE_PATTERN_fullmatch (_SERIALIZABLE_TYPES st) s with
        | Some (actual_val, dynamic_type) => typed_value s actual_val dynamic_type
        | None => Ok val
        end
    | VDict items =>
        let plain :=
          items' ← (fix each (l : list (string * PyVal)) : result (list (string * PyVal)) :=
                      match l with
                      | [] => Ok []
                      | (k, v) :: l' =>
                          v' ← _pythonify v; r ← each l'; Ok ((k, v') :: r)
                      end) items;
          Ok (VDict items') in
        match items with
        | [(key, value)] =>
            match _registered_types st !! key with
            | Some registered_pythonify => registered_pythonify value
            | None => plain
            end
        | _ => plain
        end
    | VList xs =>
        xs' ← (fix each (l : list PyVal) : result (list PyVal) :=
                 match l with
                 | [] => Ok []
                 | v :: l' => v' ← _pythonify v; r ← each l'; Ok (v' :: r)
                 end) xs;
        Ok (VList xs')
    | _ => Ok val
    end.

End Pythonify.

(** *** Notions the statements about [_stringify] and [_pythonify] use *)

Fixpoint string_forall (P : ascii -> bool) (s : string) : bool :=
  match s with
  | EmptyString => true
  | String c rest => P c && string_forall P rest
  end.

(** No line feed in [s]: the greedy [.+] may run over all of it. *)
Definition newline_free (s : string) : bool :=
  string_forall (fun c => negb (is_newline c)) s.

Definition colon_free (s : string) : bool :=
  string_forall (fun c => negb (is_colon c)) s.

(** The string made of one line feed. *)
Definition line_feed : string := String "010"%char "".

(** The text group 2 stands for. *)
Definition group_text (dynamic_type : option string) : string :=
  match dynamic_type with
  | Some T => T
  | None => ""
  end.





(** Every registered type identifier is a serializable type. *)
Definition registered_serializable (st : Attributes) : Prop :=
  forall T, is_Some (_registered_types st !! T) -> In T (_SERIALIZABLE_TYPES st).

(** A type identifier that the pattern reads as the text it is: it is not
    empty and is made of ASCII letters, digits and underscores. *)
Definition literal_type (T : string) : Prop :=
  T <> "" /\ string_forall is_word T = true.

(** Every serializable type is literal. *)
Definition literal_types (st : Attributes) : Prop :=
  forall T, In T (_SERIALIZABLE_TYPES st) -> literal_type T.

(** A type identifier that an alternative [\bT\b] of [TYPE_PATTERN] can
    take after the last colon of a string: it has no colon, and starts and
    ends with a word character. *)
Definition well_formed_type (T : string) : Prop :=
  colon_free T = true /\ word_at (first_char T) = true /\
  word_at (last_char T) = true.

(** Every serializable type is one of the ten of the class body or the
    identifier of a registered type. *)
Definition known_types (st : Attributes) : Prop :=
  forall T, In T (_SERIALIZABLE_TYPES st) ->
            In T (_SERIALIZABLE_TYPES initial) \/ is_Some (_registered_types st !! T).

(** The converters of the template handler that [_pythonify] calls. *)
Definition converters `{TemplateHandler} : list (string -> result PyVal) :=
  [_to_bool; _to_int; _to_float; _to_datetime; _to_timedelta; _to_function;
   _to_class; _to_enum].

(** A class that has the three attributes [_register] asks for. *)
Definition complete (clazz : Clazz) : Prop :=
  is_Some (_type_identifier clazz) /\ has_stringify clazz = true /\
  is_Some (clazz_pythonify clazz).

(** The attributes [_register] asks for, in the order it asks. *)
Definition required_attributes : list string :=
  ["_type_identifier"; "_stringify"; "_pythonify"].

(** [hasattr(clazz, attribute)] for one of these attributes. *)
Definition has_attribute (clazz : Clazz) (attribute : string) : bool :=
  if String.eqb attribute "_type_identifier" then
    bool_decide (is_Some (_type_identifier clazz))
  else if String.eqb attribute "_stringify" then has_stringify clazz
  else if String.eqb attribute "_pythonify" then
    bool_decide (is_Some (clazz_pythonify clazz))
  else false.

(** The first of the required attributes that a class lacks, if any. *)
Definition missing_attribute (clazz : Clazz) : option string :=
  List.find (fun attribute => negb (has_attribute clazz attribute))
    required_attributes.

(** The section with other types to register. *)
Definition with_types (section : SectionObj) (classes : list Clazz) : SectionObj :=
  {| section_name := section_name section;
     section_class := section_class section;
     _types_to_register := classes |}.

(** No object inside [v] has a [_stringify] method of its own. *)
Fixpoint no_own_stringify (v : PyVal) : bool :=
  match v with
  | VStringifiable _ => false
  | VDict items => forallb (fun item => no_own_stringify item.2) items
  | VList xs | VTuple xs | VSet xs => forallb no_own_stringify xs
  | _ => true
  end.

(** What a configuration file can hold: [None], a string, an object that
    [_stringify] has no case for, and the dicts and lists of such values. *)
Fixpoint stringified (v : PyVal) : bool :=
  match v with
  | VNone | VStr _ | VObject _ => true
  | VDict items => forallb (fun item => stringified item.2) items
  | VList xs => forallb stringified xs
  | _ => false
  end.

(** The floats of the runtime are exact on the integers below [2^53]:
    [float n] being the float that holds the integer [n], the total of a
    [timedelta] of whole seconds is the float of its seconds, and [//], [%]
    with a positive [int] and [int()] give on such floats what they give on
    the integers. *)
Definition exact_on_integers `{Builtins} (float : Z -> spec_float) : Prop :=
  (forall t, microseconds t = 0 ->
             Z.abs (days t * 86400 + seconds t) < 2 ^ 53 ->
             total_seconds t = float (days t * 86400 + seconds t)) /\
  (forall n k, Z.abs n < 2 ^ 53 -> 0 < k < 2 ^ 53 ->
               float_floordiv (float n) k = float (n / k)) /\
  (forall n k, Z.abs n < 2 ^ 53 -> 0 < k < 2 ^ 53 ->
               float_mod (float n) k = float (n mod k)) /\
  (forall n, Z.abs n < 2 ^ 53 -> int_of_float (float n) = n).

(** A [timedelta] as Python normalises it, with no fraction of a second. *)
Definition whole_seconds (t : timedelta) : Prop :=
  -999999999 <= days t <= 999999999 /\ 0 <= seconds t < 86400 /\
  microseconds t = 0.

(** *** [_str] *)

(** [d[key] = val] on a dict kept in insertion order: the value of a key
    that is there is replaced where it stands, a new key goes to the end. *)
Fixpoint setitem (d : list (string * PyVal)) (key : string) (val : PyVal)
  : list (string * PyVal) :=
  match d with
  | [] => [(key, val)]
  | (k, v) :: rest =>
      if String.eqb k key then (k, val) :: rest
      else (k, v) :: setitem rest key val
  end.

(** [d.get(key)] *)
Fixpoint getitem (d : list (string * PyVal)) (key : string) : option PyVal :=
  match d with
  | [] => None
  | (k, v) :: rest => if String.eqb k key then Some v else getitem rest key
  end.

Section Str.
Context `{Builtins}.
(** The section objects of a configuration and their method [_to_dict],
    which [_str] calls on each of them. *)
Variable SectionT : Type.
Variable _to_dict : SectionT -> PyVal.

(** The attributes of a [_Config] that [_str] reads; the two dicts are in
    their iteration order. *)
Record _Config : Type := {
  _global_config : SectionT;
  _unique_sections : list (string * SectionT);
  _sections : list (string * list (string * SectionT))
}.

(** [_BaseSerializer.__to_dict] *)
Definition __to_dict (sections : list (string * SectionT)) : PyVal :=
  VDict (foldl (fun d '(section_id, section) =>
                  setitem d section_id (_to_dict section)) [] sections).

(** The dict [_str] builds before it hands it to [_stringify]. *)
Definition config_as_dict (configuration : _Config) : list (string * PyVal) :=
  let config_as_dict :=
    [(_GLOBAL_NODE_NAME, _to_dict (_global_config configuration))] in
  let config_as_dict :=
    foldl (fun d '(u_sect_name, u_sect) => setitem d u_sect_name (_to_dict u_sect))
      config_as_dict (_unique_sections configuration) in
  foldl (fun d '(sect_name, sections) => setitem d sect_name (__to_dict sections))
    config_as_dict (_sections configuration).

(** [_BaseSerializer._str] *)
Definition _str (configuration : _Config) : PyVal :=
  _stringify (VDict (config_as_dict configuration)).

End Str.

Arguments _global_config {SectionT} _.
Arguments _unique_sections {SectionT} _.
Arguments _sections {SectionT} _.

(** *** A runtime for the closed instances *)

(** The float that holds the integer [n], written with the exponent 0. *)
Definition whole (n : Z) : spec_float :=
  match n with
  | 0 => S754_zero false
  | Z.pos p => S754_finite false p 0
  | Z.neg p => S754_finite true p 0
  end.

(** The integer part of a float, towards zero. *)
Definition whole_part (x : spec_float) : Z :=
  match x with
  | S754_finite s m e =>
      let magnitude := Z.shiftl (Z.pos m) e in
      if s then - magnitude else magnitude
  | _ => 0
  end.

(** [n] in decimal with at least [width] digits, for [n >= 0]. *)
Definition zero_padded (width : nat) (n : Z) : string :=
  let digits := str_int n in
  string_of_list_ascii (repeat "0"%char (width - String.length digits)) +:+ digits.

(** [datetime.isoformat()] of a naive value with no microsecond. *)
Definition isoformat_seconds (d : datetime) : string :=
  zero_padded 4 (year d) +:+ "-" +:+ zero_padded 2 (month d) +:+ "-" +:+
  zero_padded 2 (day d) +:+ "T" +:+ zero_padded 2 (hour d) +:+ ":" +:+
  zero_padded 2 (minute d) +:+ ":" +:+ zero_padded 2 (second d).

(** The built-ins on the values the closed instances use: the floats that
    hold an integer (below [10^16] for [str]), the [timedelta] values of
    whole seconds, the naive [datetime] values of whole seconds; of what
    [str] gives for a list or a dict only the bracket it starts with is
    kept, and any other object stands for one whose [str] is [<object>]. *)
Definition whole_runtime : Builtins := {|
  str_float := fun x => str_int (whole_part x) +:+ ".0";
  isoformat := isoformat_seconds;
  total_seconds := fun t => whole (days t * 86400 + seconds t);
  float_floordiv := fun x k => whole (whole_part x / k);
  float_mod := fun x k => whole (whole_part x mod k);
  int_of_float := whole_part;
  str_other := fun v =>
    match v with
    | VList _ => "[...]"
    | VDict _ => "{...}"
    | _ => "<object>"
    end
|}.




(** *** Sample data for the closed instances *)

(** A class that has the three attributes, with the identifier [SCOPE]:
    its [_pythonify] makes the member of the enum [Scope] of that name. *)
Definition scope_class : Clazz := {|
  __name__ := "Scope";
  _type_identifier := Some "SCOPE";
  has_stringify := true;
  clazz_pythonify := Some (fun v =>
    match v with
    | VStr member => Ok (VEnum "scope" "Scope" member)
    | _ => Raise TypeError
    end)
|}.

(** A class that has an identifier and neither [_stringify] nor
    [_pythonify]. *)
Definition bare_class : Clazz := {|
  __name__ := "Frequency";
  _type_identifier := Some "FREQUENCY";
  has_stringify := false;
  clazz_pythonify := None
|}.

(** A section that registers [scope_class]. *)
Definition data_node_section : SectionObj := {|
  section_name := "DATA_NODE";
  section_class := "DataNodeConfig";
  _types_to_register := [scope_class]
|}.

(** The attributes of the class body with a class registered under the
    built-in name [int]. *)
Definition int_overridden : Attributes := {|
  _SERIALIZABLE_TYPES := _SERIALIZABLE_TYPES initial;
  _section_class := _section_class initial;
  _registered_types := {[ "int" := fun v => Ok (VList [v]) ]}
|}.

(** A configuration whose sections are given by the dict their
    [_to_dict()] returns: a unique section [REST] and one data node. *)
Definition sample_configuration : _Config (list (string * PyVal)) := {|
  _global_config := [];
  _unique_sections := [("REST", [("port", VInt 5000); ("use_https", VBool false)])];
  _sections := [("DATA_NODE", [("d1", [("storage_type", VStr "pickle")])])]
|}.

End Serializer.

(** ** [rest_config.py] and [rest_checker.py] *)

Module Rest.

Definition name : string := "REST".
Definition _PORT_KEY : string := "port".
Definition _DEFAULT_PORT : PyVal := VInt 5000.
Definition _HOST_KEY : string := "host".
Definition _DEFAULT_HOST : PyVal := VStr "127.0.0.1".
Definition _USE_HTTPS_KEY : string := "use_https".
Definition _DEFAULT_USE_HTTPS : PyVal := VBool false.
Definition _SSL_CERT_KEY : string := "ssl_cert".
Definition _DEFAULT_SSL_CERT : PyVal := VNone.
Definition _SSL_KEY_KEY : string := "ssl_key".
Definition _DEFAULT_SSL_KEY : PyVal := VNone.

(** A [RestConfig] object: the five attributes [__init__] sets and the
    [_properties] dict of the section.  The annotations of [__init__] are
    not enforced, so an attribute holds any value. *)
Record RestConfig : Type := {
  _port : PyVal;
  _host : PyVal;
  _use_https : PyVal;
  _ssl_cert : PyVal;
  _ssl_key : PyVal;
  _properties : gmap string PyVal
}.

(** The names a keyword argument cannot have in a call that gives the five
    settings by position: the parameter is already bound. *)
Definition parameter_names : list string :=
  ["self"; "port"; "host"; "use_https"; "ssl_cert"; "ssl_key"].

Definition pop (key : string) (default : PyVal) (d : gmap string PyVal)
  : PyVal * gmap string PyVal :=
  (match d !! key with Some v => v | None => default end, delete key d).

Section Config.
(** The call [super().__init__] with the keyword arguments [properties],
    which [RestConfig.__init__] ends with: the dict the section has as
    [_properties] afterwards, or the exception raised. *)
Variable UniqueSection__init__ : gmap string PyVal -> result (gmap string PyVal).

(** [RestConfig.__init__] called with the five settings by position and
    the items of [properties] as keywords. *)
Definition __init__ (port host use_https ssl_cert ssl_key : PyVal)
    (properties : gmap string PyVal) : result RestConfig :=
  if existsb (fun parameter => bool_decide (is_Some (properties !! parameter)))
       parameter_names
  then Raise TypeError
  else
    kept ← UniqueSection__init__ properties;
    Ok {| _port := port; _host := host; _use_https := use_https;
          _ssl_cert := ssl_cert; _ssl_key := ssl_key; _properties := kept |}.

(** [RestConfig.__copy__] *)
Definition __copy__ (self : RestConfig) : result RestConfig :=
  __init__ (_port self) (_host self) (_use_https self) (_ssl_cert self)
    (_ssl_key self) (_properties self).

(** [RestConfig._clean] *)
Definition _clean (self : RestConfig) : RestConfig :=
  {| _port := _DEFAULT_PORT; _host := _DEFAULT_HOST;
     _use_https := _DEFAULT_USE_HTTPS; _ssl_cert := _DEFAULT_SSL_CERT;
     _ssl_key := _DEFAULT_SSL_KEY; _properties := ∅ |}.

(** The dict literal of [_to_dict], in its order. *)
Definition settings (self : RestConfig) : list (string * PyVal) :=
  [(_PORT_KEY, _port self); (_HOST_KEY, _host self);
   (_USE_HTTPS_KEY, _use_https self); (_SSL_CERT_KEY, _ssl_cert self);
   (_SSL_KEY_KEY, _ssl_key self)].

(** [RestConfig._to_dict]: the settings that are not [None], updated with
    the properties. *)
Definition _to_dict (self : RestConfig) : gmap string PyVal :=
  let as_dict : gmap string PyVal :=
    list_to_map (List.filter (fun item => negb (is_None item.2)) (settings self)) in
  _properties self ∪ as_dict.

(** [RestConfig._from_dict] *)
Definition _from_dict (as_dict : gmap string PyVal) : result RestConfig :=
  let '(port, as_dict) := pop _PORT_KEY VNone as_dict in
  let '(host, as_dict) := pop _HOST_KEY VNone as_dict in
  let '(use_https, as_dict) := pop _USE_HTTPS_KEY VNone as_dict in
  let '(ssl_cert, as_dict) := pop _SSL_CERT_KEY VNone as_dict in
  let '(ssl_key, as_dict) := pop _SSL_KEY_KEY VNone as_dict in
  __init__ port host use_https ssl_cert ssl_key as_dict.

(** [RestConfig.default_config] *)
Definition default_config : result RestConfig :=
  __init__ _DEFAULT_PORT _DEFAULT_HOST _DEFAULT_USE_HTTPS _DEFAULT_SSL_CERT
    _DEFAULT_SSL_KEY ∅.

End Config.

Section Properties.
(** [_TemplateHandler._replace_templates], through which every property of
    the section is read. *)
Variable _replace_templates : PyVal -> result PyVal.

Definition port (self : RestConfig) : result PyVal := _replace_templates (_port self).
Definition host (self : RestConfig) : result PyVal := _replace_templates (_host self).
Definition use_https (self : RestConfig) : result PyVal :=
  _replace_templates (_use_https self).
Definition ssl_cert (self : RestConfig) : result PyVal :=
  _replace_templates (_ssl_cert self).
Definition ssl_key (self : RestConfig) : result PyVal :=
  _replace_templates (_ssl_key self).

(** [RestConfig.ssl_context]: [Some (cert, key)] is the tuple, [None] is
    Python's [None]. *)
Definition ssl_context (self : RestConfig) : result (option (PyVal * PyVal)) :=
  https ← use_https self;
  if truthy https then
    cert ← ssl_cert self; key ← ssl_key self; Ok (Some (cert, key))
  else Ok None.

(** [RestConfig._update]: the section afterwards; the defaults of the five
    [pop] calls are read through the properties before the dict is looked
    at. *)
Definition _update (self : RestConfig) (config_as_dict : gmap string PyVal)
  : result RestConfig :=
  default ← port self;
  let '(port', config_as_dict) := pop _PORT_KEY default config_as_dict in
  default ← host self;
  let '(host', config_as_dict) := pop _HOST_KEY default config_as_dict in
  default ← use_https self;
  let '(use_https', config_as_dict) := pop _USE_HTTPS_KEY default config_as_dict in
  default ← ssl_cert self;
  let '(ssl_cert', config_as_dict) := pop _SSL_CERT_KEY default config_as_dict in
  default ← ssl_key self;
  let '(ssl_key', config_as_dict) := pop _SSL_KEY_KEY default config_as_dict in
  Ok {| _port := port'; _host := host'; _use_https := use_https';
        _ssl_cert := ssl_cert'; _ssl_key := ssl_key';
        _properties := config_as_dict ∪ _properties self |}.

(** *** The checker *)

(** An issue as [_ConfigChecker._error(field, value, message)] records it. *)
Record Issue : Type := {
  field : string;
  value : PyVal;
  message : string
}.

(** The [IssueCollector]: the issues of each level in the order they were
    added. *)
Record IssueCollector : Type := {
  errors : list Issue;
  warnings : list Issue;
  infos : list Issue
}.

(** A method of the checker: from the collector the checker holds to that
    collector afterwards, with the value returned or the exception raised.
    The collector is one object that every method changes in place: what was
    added to it before an exception stays in it. *)
Definition Checker (A : Type) : Type := IssueCollector -> IssueCollector * result A.

#[export] Instance checker_ret : MRet Checker := fun A a collector => (collector, Ok a).

#[export] Instance checker_bind : MBind Checker := fun A B k m collector =>
  match m collector with
  | (collector', Ok a) => k a collector'
  | (collector', Raise e) => (collector', Raise e)
  end.

(** Reading a property of the section leaves the collector as it is. *)
Definition read {A : Type} (r : result A) : Checker A :=
  fun collector => (collector, r).

(** Modelled from the spec: [_ConfigChecker._error] and [IssueCollector]
    ([taipy/common/config/checker]) are not among the sources;
    [tests/rest/test_rest_config.py] reads [errors] as the list of the
    issues in the order the checker reported them, each with the [field] it
    was reported for. *)
Definition _error (field : string) (value : PyVal) (message : string) : Checker unit :=
  fun collector =>
    ({| errors := errors collector ++
                  [{| field := field; value := value; message := message |}];
        warnings := warnings collector;
        infos := infos collector |}, Ok tt).

(** The part of a [_Config] the checker reads: the unique section stored
    under each name (only the [RestConfig] ones are kept). *)
Record _Config : Type := {
  _unique_sections : gmap string RestConfig
}.

(** [1 <= v <= 65535] for an [int] instance [v]. *)
Definition in_port_range (v : PyVal) : bool :=
  match int_value v with
  | Some n => (1 <=? n) && (n <=? 65535)
  | None => false
  end.

(** [_RestConfigChecker._check_port] *)
Definition _check_port (rest_config : RestConfig) : Checker unit :=
  v ← read (port rest_config);
  bad ← (if negb (isinstance_int v) then mret true
         else v' ← read (port rest_config); mret (negb (in_port_range v')));
  if bad : bool then
    v ← read (port rest_config);
    _error "port" v
      "The port of the RestConfig must be an integer between 1 and 65535."
  else mret tt.

(** [_RestConfigChecker._check_host] *)
Definition _check_host (rest_config : RestConfig) : Checker unit :=
  v ← read (host rest_config);
  bad ← (if negb (isinstance_str v) then mret true
         else v' ← read (host rest_config); mret (negb (truthy v')));
  if bad : bool then
    v ← read (host rest_config);
    _error "host" v "The host of the RestConfig must be a non-empty string."
  else mret tt.

(** The two branches on one of [ssl_cert] and [ssl_key] in
    [_check_https_settings]; [setting] reads the property. *)
Definition check_ssl_setting (key : string) (setting : result PyVal) : Checker unit :=
  v ← read setting;
  if negb (truthy v) then
    v ← read setting;
    _error key v
      ("When HTTPS is enabled in the RestConfig " +:+ key +:+ " must be set.")
  else
    v ← read setting;
    if negb (isinstance_str v) then
      v ← read setting;
      _error key v ("The " +:+ key +:+ " of the RestConfig must be valid string.")
    else mret tt.

(** [_RestConfigChecker._check_https_settings] *)
Definition _check_https_settings (rest_config : RestConfig) : Checker unit :=
  https ← read (use_https rest_config);
  if truthy https then
    check_ssl_setting "ssl_cert" (ssl_cert rest_config);;
    check_ssl_setting "ssl_key" (ssl_key rest_config)
  else mret tt.

(** [self._collector] *)
Definition _collector : Checker IssueCollector :=
  fun collector => (collector, Ok collector).

(** [_RestConfigChecker._check], from the [_config] and the [_collector]
    the checker was built with.  A section object is true, so the three
    checks run whenever there is a section under [REST]. *)
Definition _check (config : _Config) : Checker IssueCollector :=
  match _unique_sections config !! name with
  | Some rest_config =>
      _check_port rest_config;;
      _check_host rest_config;;
      _check_https_settings rest_config
  | None => mret tt
  end;;
  _collector.

(** *** What the checker reports *)

(** The collector with more errors at its end. *)
Definition with_errors (collector : IssueCollector) (added : list Issue)
  : IssueCollector :=
  {| errors := errors collector ++ added;
     warnings := warnings collector;
     infos := infos collector |}.

(** The check that took the collector from [before] to [after] reported an
    error for the field [f]. *)
Definition reported (before after : IssueCollector) (f : string) : Prop :=
  exists added,
    after = with_errors before added /\ exists issue, In issue added /\ field issue = f.

Definition port_issues (v : PyVal) : list Issue :=
  if negb (isinstance_int v) || negb (in_port_range v) then
    [{| field := "port"; value := v;
        message := "The port of the RestConfig must be an integer between 1 and 65535." |}]
  else [].

Definition host_issues (v : PyVal) : list Issue :=
  if negb (isinstance_str v) || negb (truthy v) then
    [{| field := "host"; value := v;
        message := "The host of the RestConfig must be a non-empty string." |}]
  else [].

Definition ssl_issues (key : string) (v : PyVal) : list Issue :=
  if negb (truthy v) then
    [{| field := key; value := v;
        message := "When HTTPS is enabled in the RestConfig " +:+ key +:+ " must be set." |}]
  else if negb (isinstance_str v) then
    [{| field := key; value := v;
        message := "The " +:+ key +:+ " of the RestConfig must be valid string." |}]
  else [].

(** Whether a step that reads a property first returns: it raises what the
    read raises. *)
Definition outcome (r : result PyVal) : result unit :=
  match r with
  | Ok _ => Ok tt
  | Raise e => Raise e
  end.

(** The issues of a step that reads a property first: none when the read
    raises. *)
Definition when_read (r : result PyVal) (issues : PyVal -> list Issue) : list Issue :=
  match r with
  | Ok v => issues v
  | Raise _ => []
  end.

(** What [_check_https_settings] adds. *)
Definition https_issues (rest_config : RestConfig) : list Issue :=
  when_read (use_https rest_config) (fun https =>
    if truthy https then
      when_read (ssl_cert rest_config) (fun cert =>
        (ssl_issues "ssl_cert" cert ++
         when_read (ssl_key rest_config) (ssl_issues "ssl_key"))%list)
    else []).

(** What [_check] adds for the section: each step runs when the reads
    before it have returned. *)
Definition section_issues (rest_config : RestConfig) : list Issue :=
  when_read (port rest_config) (fun p =>
    (port_issues p ++
     when_read (host rest_config) (fun h =>
       host_issues h ++ https_issues rest_config))%list).

(** The five properties of the section can be read as far as the checker
    reads them: the certificate and the key only when HTTPS is on. *)
Definition readable (rest_config : RestConfig) : Prop :=
  exists p h u,
    port rest_config = Ok p /\ host rest_config = Ok h /\
    use_https rest_config = Ok u /\
    (truthy u = true ->
     exists c k, ssl_cert rest_config = Ok c /\ ssl_key rest_config = Ok k).

End Properties.

(** The keys [_from_dict] pops. *)
Definition reserved_keys : list string :=
  [_PORT_KEY; _HOST_KEY; _USE_HTTPS_KEY; _SSL_CERT_KEY; _SSL_KEY_KEY].

(** Modelled from the spec: [_TemplateHandler._replace_templates] is not
    among the sources.  This is the function while no environment variable is
    set, as [tests/rest/test_rest_config.py] shows it: a value that is not an
    [ENV[...]] template is returned as it is, a template raises
    [MissingEnvVariableError]. *)
Definition replace_templates_unset (template : PyVal) : result PyVal :=
  match template with
  | VStr s =>
      if Serializer.ENV_PATTERN s then Raise (HandlerError "MissingEnvVariableError")
      else Ok template
  | _ => Ok template
  end.

(** Modelled from the spec: [UniqueSection.__init__] and [Section.__init__]
    ([taipy/common/config]) are not among the sources; the section keeps the
    keyword arguments it is given as [_properties], the dict that [__copy__],
    [_clean], [_update] and [_to_dict] of [RestConfig] read and change. *)
Definition keep_properties (properties : gmap string PyVal)
  : result (gmap string PyVal) :=
  Ok properties.

(** The five properties of the section can be read. *)
Definition all_readable (_replace_templates : PyVal -> result PyVal)
    (self : RestConfig) : Prop :=
  exists p h u c k,
    port _replace_templates self = Ok p /\ host _replace_templates self = Ok h /\
    use_https _replace_templates self = Ok u /\
    ssl_cert _replace_templates self = Ok c /\ ssl_key _replace_templates self = Ok k.

(** A [str] with at least one character. *)
Definition non_empty_str (v : PyVal) : Prop :=
  exists s : string, v = VStr s /\ s <> "".

(** The dict after the five [pop] calls of [_from_dict] and [_update]. *)
Definition without_settings (d : gmap string PyVal) : gmap string PyVal :=
  delete _SSL_KEY_KEY (delete _SSL_CERT_KEY (delete _USE_HTTPS_KEY
    (delete _HOST_KEY (delete _PORT_KEY d)))).

(** *** The configurations of [tests/rest/test_rest_config.py] *)

Definition no_issue : IssueCollector :=
  {| errors := []; warnings := []; infos := [] |}.

(** A configuration whose unique section under [REST] is [rest_config]. *)
Definition with_rest (rest_config : RestConfig) : _Config :=
  {| _unique_sections := {[ name := rest_config ]} |}.

(** [test_rest_config_checker_valid_config] *)
Definition valid_config : RestConfig :=
  {| _port := VInt 8080; _host := VStr "0.0.0.0"; _use_https := VBool true;
     _ssl_cert := VStr "cert.pem"; _ssl_key := VStr "key.pem"; _properties := ∅ |}.

(** [test_rest_config_checker_invalid_port_and_host] *)
Definition invalid_port_and_host : RestConfig :=
  {| _port := VInt 70000; _host := VStr ""; _use_https := VBool false;
     _ssl_cert := VNone; _ssl_key := VNone; _properties := ∅ |}.

(** [test_rest_config_checker_https_missing_cert_and_key] *)
Definition https_missing_cert_and_key : RestConfig :=
  {| _port := VInt 5000; _host := VStr "127.0.0.1"; _use_https := VBool true;
     _ssl_cert := VNone; _ssl_key := VNone; _properties := ∅ |}.

(** [test_rest_config_checker_https_invalid_cert_and_key] *)
Definition https_invalid_cert_and_key : RestConfig :=
  {| _port := VInt 5000; _host := VStr "127.0.0.1"; _use_https := VBool true;
     _ssl_cert := VInt 123; _ssl_key := VInt 456; _properties := ∅ |}.

(** A section whose port is the template of an environment variable, as
    [test_rest_config_custom_values_and_missing_env_var_override] configures
    it, with an empty host, HTTPS on and neither certificate nor key. *)
Definition unset_port_section : RestConfig :=
  {| _port := VStr "ENV[PORT]:int"; _host := VStr ""; _use_https := VBool true;
     _ssl_cert := VNone; _ssl_key := VNone; _properties := ∅ |}.

(** The default section after [_update] with the dict [{"self": 1}]. *)
Definition with_self_property : RestConfig :=
  {| _port := VInt 5000; _host := VStr "127.0.0.1"; _use_https := VBool false;
     _ssl_cert := VNone; _ssl_key := VNone;
     _properties := {[ "self" := VInt 1 ]} |}.

End Rest.

(** ** [_markdown/factory.py] *)

Module Markdown.

Definition _TAIPY_START : string := "TaIpY:".
Definition _TAIPY_END : string := ":tAiPy".
Definition _TAIPY_BLOCK_TAGS : list string :=
  ["layout"; "part"; "expandable"; "dialog"; "pane"].

Section Factory.
(** The [gui] object and what a builder makes of an element. *)
Variables Gui Element : Type.
(** [_Factory._PROPERTY_RE.findall]: the pairs of groups 1 and 2 of the
    matches, from left to right. *)
Variable _PROPERTY_RE_findall : string -> list (string * string).
(** [_Factory.call_builder]: what the builder of the element type returns,
    [None] being Python's [None], or the exception raised. *)
Variable call_builder : Gui -> string -> gmap string string -> result (option Element).

(** A dict comprehension over pairs: a later pair replaces an earlier one
    with the same key. *)
Definition dict_of_pairs (pairs : list (string * string)) : gmap string string :=
  foldl (fun d property => <[property.1 := property.2]> d) ∅ pairs.

(** [_MarkdownFactory.create_element]: the builder's result ([inl]) or the
    text for an unknown element type ([inr]). *)
Definition create_element (gui : Gui) (element_type all_properties : string)
  : result (Element + string) :=
  let property_pairs := _PROPERTY_RE_findall all_properties in
  let properties := dict_of_pairs property_pairs in
  builder_md ← call_builder gui element_type properties;
  match builder_md with
  | None => Ok (inr ("<|UNKNOWN ELEMENT TYPE '" +:+ element_type +:+ "'|>"))
  | Some md => Ok (inl md)
  end.

End Factory.

(** A factory in which no builder is registered: the lookup returns [None]
    for every element type. *)
Definition no_builder {Gui Element : Type} (gui : Gui) (element_type : string)
    (properties : gmap string string) : result (option Element) :=
  Ok None.

End Markdown.

(** * Part II: properties *)

(** ** The serializer *)

Module SerializerFacts.
Import Serializer.

(** *** Strings *)

(** [append] is never unfolded by [simpl]; its two equations. *)
Lemma append_nil_l (s : string) : "" +:+ s = s.
Proof. reflexivity. Qed.

Lemma append_cons (c : ascii) (s1 s2 : string) :
  String c s1 +:+ s2 = String c (s1 +:+ s2).
Proof. reflexivity. Qed.

Ltac norm_append :=
  repeat first [ rewrite append_cons | rewrite append_nil_l ].

Lemma append_nil_r (s : string) : s +:+ "" = s.
Proof. induction s as [|c s IH]; norm_append; [reflexivity | now rewrite IH]. Qed.

Lemma append_assoc (s1 s2 s3 : string) :
  (s1 +:+ s2) +:+ s3 = s1 +:+ (s2 +:+ s3).
Proof. induction s1 as [|c s1 IH]; norm_append; [reflexivity | now rewrite IH]. Qed.

Lemma append_eq_nil (s1 s2 : string) : s1 +:+ s2 = "" -> s1 = "" /\ s2 = "".
Proof. destruct s1; norm_append; [auto | discriminate]. Qed.

Lemma string_forall_app P (s1 s2 : string) :
  string_forall P (s1 +:+ s2) = string_forall P s1 && string_forall P s2.
Proof.
  induction s1 as [|c s1 IH]; norm_append; simpl; [reflexivity |].
  now rewrite IH, andb_assoc.
Qed.

Lemma last_char_cons (c d : ascii) (s : string) :
  last_char (String c (String d s)) = last_char (String d s).
Proof. reflexivity. Qed.

Lemma last_char_app_cons (s t : string) (c : ascii) :
  last_char (s +:+ String c t) = last_char (String c t).
Proof.
  induction s as [|d s IH]; [reflexivity |].
  rewrite append_cons. destruct s as [|e s].
  - now rewrite append_nil_l, last_char_cons.
  - rewrite append_cons in *. now rewrite last_char_cons.
Qed.

Lemma append_cancel_last (s1 s2 : string) (c : ascii) :
  s1 +:+ String c "" = s2 +:+ String c "" -> s1 = s2.
Proof.
  revert s2. induction s1 as [|d s1 IH]; intros [|e s2]; norm_append.
  - reflexivity.
  - intros [= _ E]. symmetry in E. apply append_eq_nil in E as [_ E].
    discriminate.
  - intros [= _ E]. apply append_eq_nil in E as [_ E]. discriminate.
  - intros [= -> E]. now rewrite (IH _ E).
Qed.

Lemma string_forall_impl (P Q : ascii -> bool) (s : string) :
  (forall c, P c = true -> Q c = true) ->
  string_forall P s = true -> string_forall Q s = true.
Proof.
  intros HPQ. induction s as [|c s IH]; simpl; [reflexivity |].
  intros E. apply andb_prop in E as [Hc Hs]. now rewrite (HPQ _ Hc), IH.
Qed.

(** *** The regular expression [TYPE_PATTERN] *)

(** A colon is not a word character, so no alternative ends with one. *)
Lemma alternative_ends_with_word (rest T : string) :
  alternative_matches rest T = true ->
  rest = T /\ word_at (last_char rest) = true.
Proof.
  unfold alternative_matches. intros E.
  apply andb_prop in E as [E Hlast]. apply andb_prop in E as [E _].
  apply String.eqb_eq in E. subst. now split.
Qed.

Lemma alternative_matches_nil (T : string) : alternative_matches "" T = false.
Proof. destruct T; reflexivity. Qed.

Lemma type_suffix_nil (types : list string) : type_suffix types "" = Some None.
Proof.
  unfold type_suffix.
  replace (existsb (alternative_matches "") types) with false; [reflexivity |].
  symmetry. induction types as [|T types IH]; simpl; [reflexivity |].
  now rewrite alternative_matches_nil.
Qed.

(** A serializable type made of word characters at both ends is taken by
    group 2. *)
Lemma type_suffix_member (types : list string) (T : string) :
  In T types ->
  word_at (first_char T) = true -> word_at (last_char T) = true ->
  type_suffix types T = Some (Some T).
Proof.
  intros HIn Hf Hl. unfold type_suffix.
  replace (existsb (alternative_matches T) types) with true; [reflexivity |].
  symmetry. apply existsb_exists. exists T. split; [assumption |].
  unfold alternative_matches. now rewrite String.eqb_refl, Hf, Hl.
Qed.

Lemma type_suffix_sound (types : list string) (rest : string) g :
  type_suffix types rest = Some g ->
  rest = group_text g /\
  match g with
  | Some T => In T types /\ word_at (last_char T) = true
  | None => True
  end.
Proof.
  unfold type_suffix.
  destruct (existsb (alternative_matches rest) types) eqn:E.
  - intros [= <-]. split; [reflexivity |].
    apply existsb_exists in E as (T & HIn & HT).
    apply alternative_ends_with_word in HT as [-> Hl]. now split.
  - destruct (String.eqb rest "") eqn:E0; [| discriminate].
    intros [= <-]. apply String.eqb_eq in E0. now split.
Qed.

(** Without a colon there is no separator to stop at. *)
Lemma type_pattern_from_colon_free (types : list string) (s pre : string) :
  colon_free s = true -> type_pattern_from types pre s = None.
Proof.
  revert pre. induction s as [|c s IH]; intros pre Hs; [reflexivity |].
  simpl in Hs. apply andb_prop in Hs as [Hc Hs]. simpl.
  rewrite (IH _ Hs). apply negb_true_iff in Hc. rewrite Hc.
  now destruct (is_newline c).
Qed.

(** The greedy [.+] stops at the last colon when what follows it fits
    group 2. *)
Lemma type_pattern_from_last_colon (types : list string) (body pre T : string) g :
  newline_free body = true ->
  colon_free T = true ->
  pre +:+ body <> "" ->
  type_suffix types T = Some g ->
  type_pattern_from types pre (body +:+ ":" +:+ T) = Some (pre +:+ body, g).
Proof.
  revert pre. induction body as [|c body IH]; intros pre Hnl Hcf Hne Hg.
  - norm_append. simpl. rewrite (type_pattern_from_colon_free _ _ _ Hcf).
    rewrite append_nil_r in *. rewrite Hg.
    apply eqb_neq in Hne. now rewrite Hne.
  - simpl in Hnl. apply andb_prop in Hnl as [Hc Hnl].
    apply negb_true_iff in Hc. rewrite append_cons. simpl. rewrite Hc.
    rewrite (IH (pre +:+ String c "") Hnl Hcf).
    + now rewrite append_assoc.
    + rewrite append_assoc. exact Hne.
    + exact Hg.
Qed.

(** What a match of [TYPE_PATTERN] says about the string. *)
Lemma type_pattern_from_sound (types : list string) (s pre a : string) g :
  type_pattern_from types pre s = Some (a, g) ->
  exists body,
    a = pre +:+ body /\ a <> "" /\ newline_free body = true /\
    s = body +:+ ":" +:+ group_text g /\
    match g with
    | Some T => In T types /\ word_at (last_char T) = true
    | None => True
    end.
Proof.
  revert pre. induction s as [|c s IH]; intros pre; [discriminate |].
  simpl. destruct (is_newline c) eqn:Hnl.
  - destruct (is_colon c && negb (String.eqb pre "")) eqn:Hc; [| discriminate].
    apply andb_prop in Hc as [Hc _]. unfold is_colon, is_newline in *.
    apply Ascii.eqb_eq in Hc, Hnl. congruence.
  - destruct (type_pattern_from types (pre +:+ String c "") s) as [[a' g']|] eqn:E.
    + intros [= -> ->]. apply IH in E as (body & Ha & Hne & Hb & Hs & Hg).
      exists (String c body). rewrite append_assoc in Ha.
      repeat split; try assumption.
      * unfold newline_free in *. cbn [string_forall]. now rewrite Hnl, Hb.
      * rewrite append_cons. now rewrite Hs.
    + destruct (is_colon c && negb (String.eqb pre "")) eqn:Hc; [| discriminate].
      apply andb_prop in Hc as [Hc Hpre].
      destruct (type_suffix types s) as [g'|] eqn:Hg; [| discriminate].
      intros [= -> ->]. apply type_suffix_sound in Hg as [Hs Hg].
      exists "". rewrite append_nil_r.
      apply negb_true_iff, eqb_neq in Hpre. apply Ascii.eqb_eq in Hc.
      repeat split; try assumption. norm_append. now rewrite Hc, Hs.
Qed.

(** *** The rendering of integers *)






(** *** [_stringify] and [_pythonify] *)

Section Properties.
Context `{Builtins} `{TemplateHandler}.
Variable _PATTERN : string -> bool.
Variable st : Attributes.






(** C10, as the code has it.  For every [str] value [s] that is not a
    member of an [Enum] class and has no callable [_stringify] attribute,
    [_stringify(s)] is [s] itself: such a string gets no type tag, whereas a
    [bool], [int], [float], [datetime] or [timedelta] value becomes a string
    that ends with a colon and the name of its type. *)
Theorem stringify_str_unchanged :
  (forall s : string, _stringify (str_value (PlainStr s)) = VStr s) /\
  (forall b, exists body, _stringify (VBool b) = VStr (body +:+ ":bool")) /\
  (forall n, exists body, _stringify (VInt n) = VStr (body +:+ ":int")) /\
  (forall x, exists body, _stringify (VFloat x) = VStr (body +:+ ":float")) /\
  (forall d, exists body, _stringify (VDatetime d) = VStr (body +:+ ":datetime")) /\
  (forall t, exists body, _stringify (VTimedelta t) = VStr (body +:+ ":timedelta")).
Proof. repeat split; intros; eexists; reflexivity. Qed.




Lemma pythonify_section_suffix (body : string) :
  body <> "" -> newline_free body = true ->
  _PATTERN (body +:+ ":SECTION") = false ->
  In "SECTION" (_SERIALIZABLE_TYPES st) ->
  _pythonify _PATTERN st (_stringify (VStr (body +:+ ":SECTION"))) = Ok (VStr body).
Proof.
  intros Hne Hnl Hpat Hin. cbn [_stringify _pythonify str]. rewrite Hpat.
  unfold TYPE_PATTERN_fullmatch.
  rewrite (type_pattern_from_last_colon _ body "" "SECTION" (Some "SECTION"));
    try assumption; try reflexivity.
  now apply type_suffix_member.
Qed.

(** C8, as the code has it.  For every non-empty string [p] without a line
    feed such that [p + ":"] does not match the template pattern,
    [_pythonify(p + ":")] raises [LoadingError]: the type suffix matches
    empty, the dynamic type is [None] and the unsupported-type branch is
    taken. *)
Theorem pythonify_trailing_colon (p : string) :
  p <> "" -> newline_free p = true ->
  _PATTERN (p +:+ ":") = false ->
  _pythonify _PATTERN st (VStr (p +:+ ":")) =
  Raise (LoadingError ("Error loading toml configuration at " +:+ (p +:+ ":") +:+
                       ". None type is not supported.")).
Proof.
  intros Hne Hnl Hpat. cbn [_pythonify str]. rewrite Hpat.
  unfold TYPE_PATTERN_fullmatch.
  rewrite (type_pattern_from_last_colon _ p "" "" None);
    [reflexivity | assumption | reflexivity | assumption | apply type_suffix_nil].
Qed.

(** A line feed in [p] keeps [TYPE_PATTERN] from matching [p + ":"], which
    [_pythonify] then returns as it is, whatever the template pattern. *)
Lemma pythonify_trailing_colon_newline (p : string) :
  newline_free p = false ->
  _pythonify _PATTERN st (VStr (p +:+ ":")) = Ok (VStr (p +:+ ":")).
Proof.
  intros Hnl. cbn [_pythonify str].
  destruct (_PATTERN (p +:+ ":")); [reflexivity |].
  unfold TYPE_PATTERN_fullmatch.
  destruct (type_pattern_from _ "" (p +:+ ":")) as [[a g]|] eqn:E; [| reflexivity].
  exfalso. apply type_pattern_from_sound in E as (body & _ & _ & Hb & Hs & Hg).
  destruct g as [T|]; cbn [group_text] in Hs;
    rewrite append_cons, append_nil_l in Hs.
  - destruct Hg as [_ Hw]. destruct T as [|c T]; [discriminate |].
    assert (Hl : last_char (p +:+ ":") = last_char (String c T)).
    { rewrite Hs. rewrite (last_char_app_cons body (String c T) ":").
      apply last_char_cons. }
    rewrite (last_char_app_cons p "" ":") in Hl. rewrite <- Hl in Hw.
    discriminate.
  - apply append_cancel_last in Hs. subst. congruence.
Qed.

End Properties.

(** *** The environment template *)

Lemma strip_prefix_last_char (pre s r : string) (c : ascii) :
  strip_prefix pre s = Some (String c r) ->
  last_char s = last_char (String c r).
Proof.
  revert s. induction pre as [|a pre IH]; intros s; simpl.
  - now intros [= ->].
  - destruct s as [|d s]; [discriminate |].
    destruct (Ascii.eqb a d); [| discriminate].
    intros E. specialize (IH _ E). destruct s as [|e s].
    + destruct pre; discriminate.
    + now rewrite last_char_cons.
Qed.

Lemma env_template_tail_last_char (s : string) :
  env_template_tail s = true ->
  exists c, last_char s = Some c /\ is_colon c = false.
Proof.
  induction s as [|c s IH]; [discriminate |].
  cbn [env_template_tail]. destruct (is_word c) eqn:Hw.
  - intros E. destruct (IH E) as (d & Hd & Hcolon). exists d. split; [| assumption].
    destruct s; [discriminate | now rewrite last_char_cons].
  - intros E. apply andb_prop in E as [Hc E]. apply Ascii.eqb_eq in Hc. subst c.
    apply existsb_exists in E as (T & HT & E). apply String.eqb_eq in E. subst s.
    simpl in HT.
    destruct HT as [<- | [<- | [<- | [<- | [<- | []]]]]]; eexists; split; reflexivity.
Qed.

(** A string the template pattern matches does not end with a colon. *)
Lemma ENV_PATTERN_last_char (s : string) :
  ENV_PATTERN s = true -> exists c, last_char s = Some c /\ is_colon c = false.
Proof.
  unfold ENV_PATTERN. destruct (strip_prefix "ENV[" s) as [[|c rest]|] eqn:E;
    try discriminate.
  intros H. apply andb_prop in H as [_ H].
  apply env_template_tail_last_char in H as (d & Hd & Hcolon).
  exists d. split; [| assumption].
  rewrite (strip_prefix_last_char _ _ _ _ E).
  destruct rest; [discriminate | now rewrite last_char_cons].
Qed.

Lemma ENV_PATTERN_trailing_colon (p : string) : ENV_PATTERN (p +:+ ":") = false.
Proof.
  destruct (ENV_PATTERN (p +:+ ":")) eqn:E; [| reflexivity].
  apply ENV_PATTERN_last_char in E as (c & Hc & Hcolon).
  rewrite (last_char_app_cons p "" ":") in Hc. injection Hc as <-. discriminate.
Qed.

(** *** [_register] *)

Lemma register_type_keeps_types (st : Attributes) (clazz : Clazz) (T : string) :
  In T (_SERIALIZABLE_TYPES st) ->
  In T (_SERIALIZABLE_TYPES (register_type st clazz).1).
Proof.
  intros HIn. unfold register_type.
  destruct (_type_identifier clazz) as [ident|]; [| exact HIn].
  destruct (has_stringify clazz); [| exact HIn].
  destruct (clazz_pythonify clazz); [| exact HIn].
  cbn. case_bool_decide; [exact HIn | apply in_or_app; now left].
Qed.

Lemma register_type_invariant (st : Attributes) (clazz : Clazz) :
  registered_serializable st ->
  registered_serializable (register_type st clazz).1.
Proof.
  intros Hinv. unfold register_type.
  destruct (_type_identifier clazz) as [ident|]; [| exact Hinv].
  destruct (has_stringify clazz); [| exact Hinv].
  destruct (clazz_pythonify clazz) as [pythonify|]; [| exact Hinv].
  intros T. cbn. destruct (decide (ident = T)) as [<- | Hne].
  - intros _. case_bool_decide as Hin.
    + now apply list_elem_of_In.
    + apply in_or_app. right. now left.
  - rewrite lookup_insert_ne by assumption. intros HT.
    case_bool_decide; [now apply Hinv | apply in_or_app; left; now apply Hinv].
Qed.

Lemma register_types_invariant (classes : list Clazz) (st : Attributes) :
  registered_serializable st ->
  registered_serializable (register_types st classes).1 /\
  forall T, In T (_SERIALIZABLE_TYPES st) ->
            In T (_SERIALIZABLE_TYPES (register_types st classes).1).
Proof.
  revert st. induction classes as [|clazz classes IH]; intros st Hinv; [now split |].
  cbn [register_types].
  pose proof (register_type_invariant st clazz Hinv) as Hinv'.
  pose proof (register_type_keeps_types st clazz) as Hkeep.
  destruct (register_type st clazz) as [st' [[]|e]]; cbn in *.
  - destruct (IH st' Hinv') as [H1 H2]. split; [exact H1 | auto].
  - split; [exact Hinv' | exact Hkeep].
Qed.

(** Whether [_register] returns or raises, the serializable types it found
    are still there, and every registered type is one of them. *)
Lemma register_invariant (st : Attributes) (section : SectionObj) :
  registered_serializable st ->
  registered_serializable (_register st section).1 /\
  forall T, In T (_SERIALIZABLE_TYPES st) ->
            In T (_SERIALIZABLE_TYPES (_register st section).1).
Proof.
  intros Hinv. unfold _register.
  match goal with
  | |- context [register_types ?st' ?classes] =>
      exact (register_types_invariant classes st' Hinv)
  end.
Qed.

Lemma initial_invariant : registered_serializable initial.
Proof. intros T [f Hf]. cbn in Hf. now rewrite lookup_empty in Hf. Qed.

(** *** Closed instances *)

(** [TYPE_PATTERN] on sample strings, as [re.fullmatch] answers in Python
    3.11 with the serializable types of the class body. *)
Example TYPE_PATTERN_samples :
  map (TYPE_PATTERN_fullmatch (_SERIALIZABLE_TYPES initial))
    ["abc:"; "a:str"; "a:b:int"; "a:int:"; "::"; "a:b:"; "5:int";
     ":int"; "x:y"; "ab"; ""; "a:int" +:+ line_feed;
     "a" +:+ line_feed +:+ "b:"; line_feed +:+ ":";
     "a" +:+ line_feed +:+ ":int"; "a:" +:+ line_feed +:+ "int"] =
    [Some ("abc", None); Some ("a", Some "str"); Some ("a:b", Some "int");
     Some ("a:int", None); Some (":", None); Some ("a:b", None);
     Some ("5", Some "int");
     None; None; None; None; None; None; None; None; None].
Proof. vm_compute. reflexivity. Qed.

(** The templates of [tests/rest/test_rest_config.py] and some strings that
    are no template. *)
Example ENV_PATTERN_samples :
  map ENV_PATTERN
    ["ENV[PORT]:int"; "ENV[HOST]"; "ENV[USE_HTTPS]:bool"; "ENV[SSL_CERT]";
     "ENV[1x]"; "ENV[]"; "ENV[A]:"; "ENV[A]:datetime"; "xENV[A]"; "ENV[A]]";
     "cert.pem"; "8080:int"] =
    [true; true; true; true;
     false; false; false; false; false; false; false; false].
Proof. vm_compute. reflexivity. Qed.






(** With a class registered under the name [int], the tagged string of an
    integer goes to that class and not to [_to_int]: the integer 5 comes
    back as what the class makes of the text [5]. *)
Example int_overridden_back :
  forall (B : Builtins) (T : TemplateHandler) (_PATTERN : string -> bool),
    _PATTERN "5:int" = false ->
    _pythonify _PATTERN int_overridden (_stringify (VInt 5)) = Ok (VList [VStr "5"]).
Proof.
  intros B T _PATTERN Hpat. cbn [_stringify].
  change (str_int 5 +:+ ":int") with "5:int".
  cbn [_pythonify str]. rewrite Hpat. reflexivity.
Qed.

(** C10 fails on the member [RED] of a class [Color(str, Enum)] of a
    module [colors], a [str] instance whose text is [red]: [_stringify]
    returns the tagged name of the member, not the string; and on a [str]
    instance with a [_stringify] method, whose result is returned. *)
Lemma stringify_str_unchanged_counterexample :
  let red := StrEnumMember "red" "colors" "Color" "RED" in
  VStr "colors.Color.RED:enum" <> VStr "red" /\
  forall B : Builtins,
    _stringify (str_value red) = VStr "colors.Color.RED:enum" /\
    forall s own, _stringify (str_value (StrWithStringify s own)) = own.
Proof.
  intros red. split; [discriminate |]. intros B. split; reflexivity.
Qed.

(** The theorem for C8 at [p = "abc"]. *)
Lemma pythonify_trailing_colon_witness :
  "abc" <> "" /\ newline_free "abc" = true /\ ENV_PATTERN ("abc" +:+ ":") = false /\
  forall (B : Builtins) (T : TemplateHandler),
    _pythonify ENV_PATTERN initial (VStr "abc:") =
    Raise (LoadingError
             "Error loading toml configuration at abc:. None type is not supported.").
Proof.
  split; [discriminate |]. split; [reflexivity |]. split; [reflexivity |].
  intros B T.
  exact (pythonify_trailing_colon ENV_PATTERN initial "abc"
           ltac:(discriminate) eq_refl eq_refl).
Defined.

(** C8 fails on [p = "a\nb"]: [p] is not empty and is no environment
    template, and [_pythonify(p + ":")] returns the string unchanged,
    whatever the template pattern and the registered types. *)
Lemma pythonify_trailing_colon_counterexample :
  let p := "a" +:+ line_feed +:+ "b" in
  p <> "" /\ ENV_PATTERN p = false /\
  forall (B : Builtins) (T : TemplateHandler) (_PATTERN : string -> bool)
         (st : Attributes),
    _pythonify _PATTERN st (VStr (p +:+ ":")) = Ok (VStr (p +:+ ":")).
Proof.
  split; [discriminate |]. split; [reflexivity |].
  intros B T _PATTERN st. now apply pythonify_trailing_colon_newline.
Qed.

(** *** The last colon of a string *)

Lemma colon_free_app_colon (s1 s2 : string) :
  colon_free (s1 +:+ String ":" s2) = false.
Proof.
  unfold colon_free. rewrite string_forall_app. cbn [string_forall].
  now rewrite andb_false_r.
Qed.

(** A string is cut in one way only into a text, a colon and a text without
    colon. *)
Lemma last_colon_unique (b1 r1 b2 r2 : string) :
  colon_free r1 = true -> colon_free r2 = true ->
  b1 +:+ ":" +:+ r1 = b2 +:+ ":" +:+ r2 -> b1 = b2 /\ r1 = r2.
Proof.
  intros H1 H2. revert b2. induction b1 as [|c b1 IH]; intros [|d b2]; norm_append.
  - intros [= E]. now split.
  - intros [= <- E]. rewrite E, colon_free_app_colon in H1. discriminate.
  - intros [= -> E]. rewrite <- E, colon_free_app_colon in H2. discriminate.
  - intros [= -> E]. destruct (IH b2) as [-> ->]; [now norm_append | now split].
Qed.

Lemma type_suffix_well_formed (types : list string) (rest T : string) :
  type_suffix types rest = Some (Some T) ->
  rest = T /\ In T types /\
  word_at (first_char T) = true /\ word_at (last_char T) = true.
Proof.
  unfold type_suffix.
  destruct (existsb (alternative_matches rest) types) eqn:E.
  - intros [= <-]. apply existsb_exists in E as (T & HIn & HT).
    unfold alternative_matches in HT.
    apply andb_prop in HT as [HT Hl]. apply andb_prop in HT as [HT Hf].
    apply String.eqb_eq in HT. subst rest. now repeat split.
  - destruct (String.eqb rest ""); discriminate.
Qed.

Lemma type_pattern_from_first_char (types : list string) (s pre a T : string) :
  type_pattern_from types pre s = Some (a, Some T) ->
  word_at (first_char T) = true.
Proof.
  revert pre. induction s as [|c s IH]; intros pre; [discriminate |].
  simpl. destruct (if is_newline c then None
                   else type_pattern_from types (pre +:+ String c "") s)
    as [[a' g']|] eqn:E.
  - intros [= -> ->]. destruct (is_newline c); [discriminate |].
    now apply IH in E.
  - destruct (is_colon c && negb (String.eqb pre "")); [| discriminate].
    destruct (type_suffix types s) as [g'|] eqn:Hg; [| discriminate].
    intros [= -> ->]. now apply type_suffix_well_formed in Hg.
Qed.

(** A word character is no colon. *)
Lemma word_not_colon (c : ascii) : is_word c = true -> negb (is_colon c) = true.
Proof.
  destruct c as [[] [] [] [] [] [] [] []]; try reflexivity; discriminate.
Qed.

Lemma literal_last_char (T : string) :
  T <> "" -> string_forall is_word T = true -> word_at (last_char T) = true.
Proof.
  induction T as [|c T IH]; [now intros [] |]. intros _ Hall.
  cbn [string_forall] in Hall. apply andb_prop in Hall as [Hc Hall].
  destruct T as [|d T]; [exact Hc |].
  rewrite last_char_cons. now apply IH.
Qed.

(** A literal type identifier has no colon, and starts and ends with a
    word character. *)
Lemma literal_well_formed (T : string) : literal_type T -> well_formed_type T.
Proof.
  intros [Hne Hall]. repeat split.
  - exact (string_forall_impl _ _ T word_not_colon Hall).
  - destruct T as [|c T]; [now destruct Hne |].
    cbn [string_forall] in Hall. now apply andb_prop in Hall as [Hc _].
  - now apply literal_last_char.
Qed.

(** X1.  When every serializable type is made of ASCII letters, digits and
    underscores, [TYPE_PATTERN] matches a string in one way only, cut at
    its last colon: group 1 is the text before that colon, not empty and
    without line feed, and group 2 is the text after it, which is empty
    (the group is then [None]) or a serializable type. *)
Theorem type_pattern_last_colon (types : list string) (s a : string)
    (g : option string) :
  (forall T, In T types -> literal_type T) ->
  TYPE_PATTERN_fullmatch types s = Some (a, g) <->
  a <> "" /\ newline_free a = true /\ s = a +:+ ":" +:+ group_text g /\
  match g with
  | Some T => In T types
  | None => True
  end.
Proof.
  intros Htypes. unfold TYPE_PATTERN_fullmatch. split.
  - intros E. pose proof (type_pattern_from_sound _ _ _ _ _ E)
      as (body & Ha & Hne & Hnl & Hs & Hg).
    rewrite append_nil_l in Ha. subst body.
    repeat split; try assumption.
    destruct g as [T|]; [| exact I]. now destruct Hg.
  - intros (Hne & Hnl & -> & Hg).
    rewrite (type_pattern_from_last_colon types a "" (group_text g) g);
      try assumption.
    + now rewrite append_nil_l.
    + destruct g as [T|]; [| reflexivity].
      now destruct (literal_well_formed T (Htypes T Hg)).
    + destruct g as [T|]; cbn [group_text].
      * destruct (literal_well_formed T (Htypes T Hg)) as (_ & Hf & Hl).
        now apply type_suffix_member.
      * apply type_suffix_nil.
Qed.

(** No match for a string whose text after the last colon is neither empty
    nor a serializable type. *)
Lemma type_pattern_unknown_suffix (types : list string) (body rest : string) :
  (forall T, In T types -> colon_free T = true) ->
  colon_free rest = true -> rest <> "" -> ~ In rest types ->
  TYPE_PATTERN_fullmatch types (body +:+ ":" +:+ rest) = None.
Proof.
  intros Htypes Hcf Hne Hnot. unfold TYPE_PATTERN_fullmatch.
  destruct (type_pattern_from types "" (body +:+ ":" +:+ rest)) as [[a g]|] eqn:E;
    [| reflexivity].
  exfalso. apply type_pattern_from_sound in E as (body' & _ & _ & _ & Hs & Hg).
  destruct g as [T|]; cbn [group_text] in Hs.
  - destruct Hg as [HIn _].
    apply last_colon_unique in Hs as [_ ->]; auto.
  - apply last_colon_unique in Hs as [_ ->]; auto.
Qed.

Section Dispatch.
Context `{Builtins} `{TemplateHandler}.
Variable _PATTERN : string -> bool.
Variable st : Attributes.

(** X2.  When every serializable type is made of ASCII letters, digits and
    underscores, [_pythonify] returns unchanged every string that has no
    colon and every string whose text after the last colon is neither empty
    nor a serializable type. *)
Theorem pythonify_leaves_untyped :
  literal_types st ->
  (forall s : string,
     colon_free s = true -> _pythonify _PATTERN st (VStr s) = Ok (VStr s)) /\
  (forall body rest : string,
     colon_free rest = true -> rest <> "" -> ~ In rest (_SERIALIZABLE_TYPES st) ->
     _pythonify _PATTERN st (VStr (body +:+ ":" +:+ rest)) =
     Ok (VStr (body +:+ ":" +:+ rest))).
Proof.
  intros Hliteral. split.
  - intros s Hs. cbn [_pythonify str]. destruct (_PATTERN s); [reflexivity |].
    unfold TYPE_PATTERN_fullmatch. now rewrite type_pattern_from_colon_free.
  - intros body rest Hcf Hne Hnot. cbn [_pythonify str].
    destruct (_PATTERN _); [reflexivity |].
    rewrite type_pattern_unknown_suffix; try assumption; [reflexivity |].
    intros T HT. now destruct (literal_well_formed T (Hliteral T HT)).
Qed.

(** A string [body:T] that the template pattern does not match, [T] being
    a serializable type, is handled as the value [body] of type [T]. *)
Lemma pythonify_typed (body T : string) :
  body <> "" -> newline_free body = true -> well_formed_type T ->
  In T (_SERIALIZABLE_TYPES st) ->
  _PATTERN (body +:+ ":" +:+ T) = false ->
  _pythonify _PATTERN st (VStr (body +:+ ":" +:+ T)) =
  typed_value st (body +:+ ":" +:+ T) body (Some T).
Proof.
  intros Hne Hnl (Hcf & Hf & Hl) HIn Hpat. cbn [_pythonify str]. rewrite Hpat.
  unfold TYPE_PATTERN_fullmatch.
  rewrite (type_pattern_from_last_colon _ body "" T (Some T)); try assumption.
  - now rewrite append_nil_l.
  - now apply type_suffix_member.
Qed.

(** X3.  A function, a class or an enum member that [_stringify] has
    written as [module.name:function], [module.qualname:class] or
    [module.qualname.name:enum] comes back from [_pythonify] as whatever
    [_TemplateHandler._to_function], [_to_class] or [_to_enum] makes of the
    dotted name, when the dotted name has no line feed, the tagged string
    does not match the template pattern, and the type name is a serializable
    type that no registered class has taken. *)
Theorem pythonify_stringify_callable :
  (forall module name : string,
     newline_free (module +:+ "." +:+ name) = true ->
     _PATTERN (module +:+ "." +:+ name +:+ ":function") = false ->
     In "function" (_SERIALIZABLE_TYPES st) ->
     _registered_types st !! "function" = None ->
     _pythonify _PATTERN st (_stringify (VFunction module name)) =
     _to_function (module +:+ "." +:+ name)) /\
  (forall module qualname : string,
     newline_free (module +:+ "." +:+ qualname) = true ->
     _PATTERN (module +:+ "." +:+ qualname +:+ ":class") = false ->
     In "class" (_SERIALIZABLE_TYPES st) ->
     _registered_types st !! "class" = None ->
     _pythonify _PATTERN st (_stringify (VClass module qualname)) =
     _to_class (module +:+ "." +:+ qualname)) /\
  (forall module qualname name : string,
     newline_free (module +:+ "." +:+ qualname +:+ "." +:+ name) = true ->
     _PATTERN (module +:+ "." +:+ qualname +:+ "." +:+ name +:+ ":enum") = false ->
     In "enum" (_SERIALIZABLE_TYPES st) ->
     _registered_types st !! "enum" = None ->
     _pythonify _PATTERN st (_stringify (VEnum module qualname name)) =
     _to_enum (module +:+ "." +:+ qualname +:+ "." +:+ name)).
Proof.
  assert (Hdot : forall s1 s2, s1 +:+ "." +:+ s2 <> "").
  { intros s1 s2 E. apply append_eq_nil in E as [_ E]. discriminate. }
  split; [| split].
  - intros module name Hnl Hpat HIn Hreg. cbn [_stringify].
    replace (module +:+ "." +:+ name +:+ ":function")
      with ((module +:+ "." +:+ name) +:+ ":" +:+ "function") in *
      by now rewrite !append_assoc.
    rewrite pythonify_typed; try assumption; [| apply Hdot | now repeat split].
    unfold typed_value. cbn [mbind option_bind type_is]. now rewrite Hreg.
  - intros module qualname Hnl Hpat HIn Hreg. cbn [_stringify].
    replace (module +:+ "." +:+ qualname +:+ ":class")
      with ((module +:+ "." +:+ qualname) +:+ ":" +:+ "class") in *
      by now rewrite !append_assoc.
    rewrite pythonify_typed; try assumption; [| apply Hdot | now repeat split].
    unfold typed_value. cbn [mbind option_bind type_is]. now rewrite Hreg.
  - intros module qualname name Hnl Hpat HIn Hreg. cbn [_stringify].
    replace (module +:+ "." +:+ qualname +:+ "." +:+ name +:+ ":enum")
      with ((module +:+ "." +:+ qualname +:+ "." +:+ name) +:+ ":" +:+ "enum") in *
      by now rewrite !append_assoc.
    rewrite pythonify_typed; try assumption; [| apply Hdot | now repeat split].
    unfold typed_value. cbn [mbind option_bind type_is]. now rewrite Hreg.
Qed.

(** X4.  When every serializable type is made of ASCII letters, digits and
    underscores, a string [body:T] whose [body] is not empty and has no
    line feed, whose [T] is a serializable type, and which the template
    pattern does not match, is handled by the type [T] in this order:
    [SECTION] first, which gives [body] whatever is registered under that
    name; then the registered types, whose [_pythonify] gets [body] even
    when [T] is one of the built-in names such as [int]. *)
Theorem pythonify_dispatch_order (body T : string) :
  literal_types st ->
  body <> "" -> newline_free body = true ->
  In T (_SERIALIZABLE_TYPES st) ->
  _PATTERN (body +:+ ":" +:+ T) = false ->
  (T = "SECTION" ->
   _pythonify _PATTERN st (VStr (body +:+ ":" +:+ T)) = Ok (VStr body)) /\
  (T <> "SECTION" ->
   forall registered_pythonify,
     _registered_types st !! T = Some registered_pythonify ->
     _pythonify _PATTERN st (VStr (body +:+ ":" +:+ T)) =
     registered_pythonify (VStr body)).
Proof.
  intros Hliteral Hne Hnl HIn Hpat.
  rewrite pythonify_typed; try assumption;
    [| exact (literal_well_formed T (Hliteral T HIn))].
  unfold typed_value. cbn [type_is mbind option_bind]. split.
  - now intros ->.
  - intros HT f Hf. apply eqb_neq in HT. now rewrite HT, Hf.
Qed.

End Dispatch.

(** *** More on [_register] *)

Lemma register_types_app (st : Attributes) (l1 l2 : list Clazz) :
  register_types st (l1 ++ l2) =
  match register_types st l1 with
  | (st', Ok _) => register_types st' l2
  | (st', Raise e) => (st', Raise e)
  end.
Proof.
  revert st. induction l1 as [|clazz l1 IH]; intros st; [reflexivity |].
  cbn [register_types app].
  destruct (register_type st clazz) as [st' [[]|e]]; [apply IH | reflexivity].
Qed.

(** One turn of the loop for a class that has the three attributes. *)
Lemma register_type_complete (st : Attributes) (clazz : Clazz) :
  complete clazz ->
  exists T f,
    _type_identifier clazz = Some T /\ clazz_pythonify clazz = Some f /\
    register_type st clazz =
    ({| _SERIALIZABLE_TYPES :=
          if bool_decide (T ∈ _SERIALIZABLE_TYPES st) then _SERIALIZABLE_TYPES st
          else (_SERIALIZABLE_TYPES st ++ [T])%list;
        _section_class := _section_class st;
        _registered_types := <[T := f]> (_registered_types st) |}, Ok tt).
Proof.
  intros ([T HT] & Hs & [f Hf]). exists T, f. unfold register_type.
  now rewrite HT, Hs, Hf.
Qed.

(** One turn of the loop for a class that lacks one of them: the message
    names the first one it lacks. *)
Lemma register_type_incomplete (st : Attributes) (clazz : Clazz) :
  ~ complete clazz ->
  exists attribute,
    missing_attribute clazz = Some attribute /\
    register_type st clazz =
    (st, Raise (InvalidConfigurationType
                  ("Type " +:+ __name__ clazz +:+ " must have a `" +:+ attribute +:+
                   "` method."))).
Proof.
  intros Hbad. unfold register_type, missing_attribute, has_attribute, complete in *.
  cbn [List.find required_attributes String.eqb Ascii.eqb Bool.eqb].
  destruct (_type_identifier clazz) as [T|].
  - rewrite bool_decide_eq_true_2 by eauto. cbn [negb].
    destruct (has_stringify clazz); cbn [negb].
    + destruct (clazz_pythonify clazz) as [f|].
      * exfalso. apply Hbad. repeat split; eauto.
      * exists "_pythonify". split; [| reflexivity].
        rewrite bool_decide_eq_false_2; [reflexivity |]. now intros [? ?].
    + exists "_stringify". now split.
  - exists "_type_identifier". split; [| reflexivity].
    rewrite bool_decide_eq_false_2; [reflexivity |]. now intros [? ?].
Qed.

Lemma register_type_returns (st : Attributes) (clazz : Clazz) :
  (register_type st clazz).2 = Ok tt <-> complete clazz.
Proof.
  split.
  - intros E. destruct (decide (is_Some (_type_identifier clazz))) as [HT | HT].
    + destruct (has_stringify clazz) eqn:Hs.
      * destruct (decide (is_Some (clazz_pythonify clazz))) as [Hf | Hf];
          [now repeat split |].
        exfalso. unfold register_type in E. destruct HT as [T HT].
        rewrite HT, Hs in E. cbn in E.
        destruct (clazz_pythonify clazz); [apply Hf; eauto | discriminate].
      * exfalso. unfold register_type in E. destruct HT as [T HT].
        rewrite HT, Hs in E. discriminate.
    + exfalso. unfold register_type in E.
      destruct (_type_identifier clazz); [apply HT; eauto | discriminate].
  - intros Hc. destruct (register_type_complete st clazz Hc) as (T & f & _ & _ & E).
    now rewrite E.
Qed.

Lemma register_types_returns (classes : list Clazz) (st : Attributes) :
  (register_types st classes).2 = Ok tt <-> Forall complete classes.
Proof.
  revert st. induction classes as [|clazz classes IH]; intros st.
  - split; [constructor | reflexivity].
  - cbn [register_types]. pose proof (register_type_returns st clazz) as Hone.
    destruct (register_type st clazz) as [st' [[]|e]]; cbn [snd] in *.
    + rewrite IH. split.
      * intros Hall. constructor; [now apply Hone | exact Hall].
      * intros Hall. now apply Forall_cons in Hall as [_ Hall].
    + split; [discriminate |].
      intros Hall. apply Forall_cons in Hall as [Hc _]. now apply Hone in Hc.
Qed.

(** The attributes a turn of the loop keeps or extends. *)
Lemma register_type_keeps (st : Attributes) (clazz : Clazz) :
  let st' := (register_type st clazz).1 in
  (exists added, _SERIALIZABLE_TYPES st' = (_SERIALIZABLE_TYPES st ++ added)%list) /\
  (NoDup (_SERIALIZABLE_TYPES st) -> NoDup (_SERIALIZABLE_TYPES st')) /\
  (forall T, is_Some (_registered_types st !! T) ->
             is_Some (_registered_types st' !! T)) /\
  _section_class st' = _section_class st.
Proof.
  assert (Hsame :
    (exists added, _SERIALIZABLE_TYPES st = (_SERIALIZABLE_TYPES st ++ added)%list) /\
    (NoDup (_SERIALIZABLE_TYPES st) -> NoDup (_SERIALIZABLE_TYPES st)) /\
    (forall T, is_Some (_registered_types st !! T) ->
               is_Some (_registered_types st !! T)) /\
    _section_class st = _section_class st).
  { split; [exists []; now rewrite app_nil_r | tauto]. }
  unfold register_type.
  destruct (_type_identifier clazz) as [ident|]; [| exact Hsame].
  destruct (has_stringify clazz); [| exact Hsame].
  destruct (clazz_pythonify clazz) as [f|]; [| exact Hsame].
  cbn. repeat split.
  - case_bool_decide; [exists []; now rewrite app_nil_r | now exists [ident]].
  - intros Hnd. case_bool_decide as Hin; [exact Hnd |].
    apply NoDup_app. repeat split; [exact Hnd | | apply NoDup_singleton].
    intros x Hx Hx'. apply list_elem_of_singleton in Hx'. now subst.
  - intros T HT. destruct (decide (ident = T)) as [-> | Hne].
    + rewrite lookup_insert_eq. eauto.
    + now rewrite lookup_insert_ne.
Qed.

Lemma register_types_keeps (classes : list Clazz) (st : Attributes) :
  let st' := (register_types st classes).1 in
  (exists added, _SERIALIZABLE_TYPES st' = (_SERIALIZABLE_TYPES st ++ added)%list) /\
  (NoDup (_SERIALIZABLE_TYPES st) -> NoDup (_SERIALIZABLE_TYPES st')) /\
  (forall T, is_Some (_registered_types st !! T) ->
             is_Some (_registered_types st' !! T)) /\
  _section_class st' = _section_class st.
Proof.
  revert st. induction classes as [|clazz classes IH]; intros st.
  - cbn. split; [exists []; now rewrite app_nil_r | tauto].
  - cbn [register_types].
    pose proof (register_type_keeps st clazz) as Hone. cbv zeta in Hone.
    destruct (register_type st clazz) as [st1 [[]|e]]; cbn [fst] in *;
      [| exact Hone].
    specialize (IH st1). cbv zeta in IH.
    destruct Hone as ([a1 H1] & Hnd1 & Hreg1 & Hsc1).
    destruct IH as ([a2 H2] & Hnd2 & Hreg2 & Hsc2).
    repeat split.
    + exists (a1 ++ a2)%list. now rewrite H2, H1, app_assoc.
    + auto.
    + auto.
    + congruence.
Qed.

Lemma register_type_known (st : Attributes) (clazz : Clazz) :
  known_types st -> known_types (register_type st clazz).1.
Proof.
  intros Hknown. unfold register_type.
  destruct (_type_identifier clazz) as [ident|]; [| exact Hknown].
  destruct (has_stringify clazz); [| exact Hknown].
  destruct (clazz_pythonify clazz) as [f|]; [| exact Hknown].
  unfold known_types in *. intros T.
  cbn [negb fst _SERIALIZABLE_TYPES _registered_types].
  destruct (decide (ident = T)) as [<- | Hne].
  - intros _. right. rewrite lookup_insert_eq. eauto.
  - rewrite lookup_insert_ne by assumption. intros HT. apply Hknown.
    case_bool_decide; [exact HT |].
    apply in_app_or in HT as [HT | [HT | []]]; [exact HT | congruence].
Qed.

Lemma register_types_known (classes : list Clazz) (st : Attributes) :
  known_types st -> known_types (register_types st classes).1.
Proof.
  revert st. induction classes as [|clazz classes IH]; intros st Hknown;
    [exact Hknown |].
  cbn [register_types]. pose proof (register_type_known st clazz Hknown) as Hone.
  destruct (register_type st clazz) as [st1 [[]|e]]; cbn [fst] in *;
    [now apply IH | exact Hone].
Qed.

Lemma initial_known : known_types initial.
Proof. intros T HT. now left. Qed.

(** X5.  Whether [_register] returns or raises, it only adds to the end of
    [_SERIALIZABLE_TYPES] and never puts a type there twice, keeps every
    registered type registered and serializable, keeps every serializable
    type one of the ten of the class body or a registered one, and records
    the class of the section under its name. *)
Theorem register_keeps (st : Attributes) (section : SectionObj) :
  let st' := (_register st section).1 in
  (exists added, _SERIALIZABLE_TYPES st' = (_SERIALIZABLE_TYPES st ++ added)%list) /\
  (NoDup (_SERIALIZABLE_TYPES st) -> NoDup (_SERIALIZABLE_TYPES st')) /\
  (registered_serializable st -> registered_serializable st') /\
  (known_types st -> known_types st') /\
  (forall T, is_Some (_registered_types st !! T) ->
             is_Some (_registered_types st' !! T)) /\
  _section_class st' =
  <[section_name section := section_class section]> (_section_class st).
Proof.
  intros st'. subst st'. unfold _register.
  match goal with
  | |- context [register_types ?st0 ?classes] =>
      pose proof (register_types_keeps classes st0) as (Hadd & Hnd & Hreg & Hsc);
      pose proof (register_types_invariant classes st0) as Hinv;
      pose proof (register_types_known classes st0) as Hknown
  end.
  cbn [_SERIALIZABLE_TYPES _registered_types _section_class] in *.
  repeat split; try assumption.
  intros Hser. now apply Hinv.
Qed.

(** X6.  [_register] returns exactly when every class of the section has
    the three attributes [_type_identifier], [_stringify] and [_pythonify].
    Otherwise it raises [InvalidConfigurationType] for the first class that
    lacks one, naming the class and the first attribute it lacks, in the
    order [_type_identifier], [_stringify], [_pythonify]; and it leaves the
    attributes as the registration of the classes before that one left
    them. *)
Theorem register_incomplete (st : Attributes) (section : SectionObj) :
  ((_register st section).2 = Ok tt <->
   Forall complete (_types_to_register section)) /\
  (forall (good : list Clazz) (bad : Clazz) (rest : list Clazz),
     _types_to_register section = (good ++ bad :: rest)%list ->
     Forall complete good -> ~ complete bad ->
     exists attribute,
       missing_attribute bad = Some attribute /\
       _register st section =
       ((_register st (with_types section good)).1,
        Raise (InvalidConfigurationType
                 ("Type " +:+ __name__ bad +:+ " must have a `" +:+ attribute +:+
                  "` method.")))).
Proof.
  split; [apply register_types_returns |].
  intros good bad rest Hclasses Hgood Hbad. unfold _register.
  rewrite Hclasses. cbn [with_types _types_to_register section_name section_class].
  rewrite register_types_app.
  apply register_types_returns with (st :=
    {| _SERIALIZABLE_TYPES := _SERIALIZABLE_TYPES st;
       _section_class :=
         <[section_name section := section_class section]> (_section_class st);
       _registered_types := _registered_types st |}) in Hgood.
  destruct (register_types _ good) as [st1 [[]|e]]; [| discriminate].
  cbn [register_types fst].
  destruct (register_type_incomplete st1 bad Hbad) as (attribute & HIn & E).
  exists attribute. split; [exact HIn |]. now rewrite E.
Qed.

(** The registered types after the classes of a section have been taken:
    those of the section, over those that were there. *)
Lemma register_types_registered (classes : list Clazz) :
  Forall complete classes ->
  exists L : gmap string (PyVal -> result PyVal),
    forall st, _registered_types (register_types st classes).1 =
               L ∪ _registered_types st.
Proof.
  induction classes as [|clazz classes IH]; intros Hall.
  - exists ∅. intros st. cbn. now rewrite (left_id_L ∅ (∪)).
  - apply Forall_cons in Hall as [Hc Hall]. destruct (IH Hall) as [L HL].
    destruct (register_type_complete initial clazz Hc) as (T & f & HT & Hf & _).
    exists (L ∪ {[ T := f ]}). intros st. cbn [register_types].
    destruct (register_type_complete st clazz Hc) as (T' & f' & HT' & Hf' & E).
    rewrite E. rewrite HL. cbn [_registered_types].
    rewrite HT in HT'. rewrite Hf in Hf'. injection HT' as <-. injection Hf' as <-.
    now rewrite insert_union_singleton_l, (assoc_L (∪)).
Qed.

(** Classes whose identifiers are all serializable add no type. *)
Lemma register_types_absorbed (classes : list Clazz) (st : Attributes) :
  Forall complete classes ->
  (forall clazz T, In clazz classes -> _type_identifier clazz = Some T ->
                   In T (_SERIALIZABLE_TYPES st)) ->
  _SERIALIZABLE_TYPES (register_types st classes).1 = _SERIALIZABLE_TYPES st.
Proof.
  revert st. induction classes as [|clazz classes IH]; intros st Hall Hin;
    [reflexivity |].
  apply Forall_cons in Hall as [Hc Hall]. cbn [register_types].
  destruct (register_type_complete st clazz Hc) as (T & f & HT & Hf & E).
  rewrite E. rewrite IH; cbn [_SERIALIZABLE_TYPES].
  - rewrite bool_decide_eq_true_2; [reflexivity |].
    apply list_elem_of_In. apply (Hin clazz); [now left | exact HT].
  - exact Hall.
  - intros c T' Hc' HT'. rewrite bool_decide_eq_true_2.
    + apply (Hin c); [now right | exact HT'].
    + apply list_elem_of_In. apply (Hin clazz); [now left | exact HT].
Qed.

(** The identifier of every class taken is serializable afterwards. *)
Lemma register_types_identifiers (classes : list Clazz) (st : Attributes)
    (clazz : Clazz) (T : string) :
  (register_types st classes).2 = Ok tt ->
  In clazz classes -> _type_identifier clazz = Some T ->
  In T (_SERIALIZABLE_TYPES (register_types st classes).1).
Proof.
  revert st. induction classes as [|c classes IH]; intros st Hok HIn HT;
    [destruct HIn |].
  cbn [register_types] in *.
  assert (Hc : complete c).
  { apply register_type_returns with (st := st).
    destruct (register_type st c) as [st1 [[]|e]]; [reflexivity | discriminate]. }
  destruct (register_type_complete st c Hc) as (T' & f & HT' & Hf & E).
  rewrite E in *. destruct HIn as [-> | HIn].
  - rewrite HT in HT'. injection HT' as <-.
    match goal with
    | |- context [register_types ?st1 classes] =>
        destruct (register_types_keeps classes st1) as ([added Hadd] & _)
    end.
    rewrite Hadd. cbn [_SERIALIZABLE_TYPES]. apply in_or_app. left.
    case_bool_decide as Hin; [now apply list_elem_of_In |].
    apply in_or_app. right. now left.
  - now apply IH.
Qed.

Lemma Attributes_eq (st1 st2 : Attributes) :
  _SERIALIZABLE_TYPES st1 = _SERIALIZABLE_TYPES st2 ->
  _section_class st1 = _section_class st2 ->
  _registered_types st1 = _registered_types st2 ->
  st1 = st2.
Proof. destruct st1, st2. cbn. now intros -> -> ->. Qed.

(** X7.  Registering a section a second time changes nothing: when
    [_register] has returned, the same call on the attributes it left
    returns and leaves them as they are. *)
Theorem register_idempotent (st st1 : Attributes) (section : SectionObj) :
  _register st section = (st1, Ok tt) ->
  _register st1 section = (st1, Ok tt).
Proof.
  unfold _register. set (classes := _types_to_register section).
  set (st0 := {| _SERIALIZABLE_TYPES := _SERIALIZABLE_TYPES st;
                 _section_class := _; _registered_types := _registered_types st |}).
  intros Hfirst.
  assert (Hall : Forall complete classes).
  { apply register_types_returns with (st := st0). now rewrite Hfirst. }
  assert (Hst1 : (register_types st0 classes).1 = st1) by now rewrite Hfirst.
  destruct (register_types_keeps classes st0) as (_ & _ & _ & Hsc).
  cbv zeta in Hsc. rewrite Hst1 in Hsc. cbn [_section_class st0] in Hsc.
  rewrite Hsc, insert_insert_eq, <- Hsc.
  replace {| _SERIALIZABLE_TYPES := _SERIALIZABLE_TYPES st1;
             _section_class := _section_class st1;
             _registered_types := _registered_types st1 |}
    with st1 by now destruct st1.
  rewrite (surjective_pairing (register_types st1 classes)). f_equal.
  - apply Attributes_eq.
    + apply register_types_absorbed; [exact Hall |].
      intros clazz T HIn HT. rewrite <- Hst1.
      apply (register_types_identifiers classes st0 clazz T);
        [now rewrite Hfirst | exact HIn | exact HT].
    + now destruct (register_types_keeps classes st1) as (_ & _ & _ & E).
    + destruct (register_types_registered classes Hall) as [L HL].
      rewrite HL. rewrite <- Hst1 at 1 2. rewrite HL.
      now rewrite (assoc_L (∪)), (idemp_L (∪)).
  - now apply register_types_returns.
Qed.

(** A class with another identifier leaves what is registered under [T]. *)
Lemma register_types_other (classes : list Clazz) (st : Attributes) (T : string) :
  (forall clazz, In clazz classes -> _type_identifier clazz <> Some T) ->
  _registered_types (register_types st classes).1 !! T = _registered_types st !! T.
Proof.
  revert st. induction classes as [|clazz classes IH]; intros st Hother;
    [reflexivity |].
  cbn [register_types].
  assert (Hone : _registered_types (register_type st clazz).1 !! T =
                 _registered_types st !! T).
  { unfold register_type.
    destruct (_type_identifier clazz) as [ident|] eqn:Hid; [| reflexivity].
    destruct (has_stringify clazz); [| reflexivity].
    destruct (clazz_pythonify clazz); [| reflexivity].
    cbn. apply lookup_insert_ne. intros ->.
    apply (Hother clazz); [now left | exact Hid]. }
  destruct (register_type st clazz) as [st1 [[]|e]]; cbn [fst] in *;
    [| exact Hone].
  rewrite IH; [exact Hone |]. intros c Hc. apply Hother. now right.
Qed.

(** The last class of a section with the identifier [T] is the one
    registered under [T]. *)
Lemma register_types_last (before after : list Clazz) (clazz : Clazz)
    (st st' : Attributes) (T : string) (f : PyVal -> result PyVal) :
  register_types st (before ++ clazz :: after) = (st', Ok tt) ->
  _type_identifier clazz = Some T -> clazz_pythonify clazz = Some f ->
  (forall c, In c after -> _type_identifier c <> Some T) ->
  _registered_types st' !! T = Some f /\ In T (_SERIALIZABLE_TYPES st').
Proof.
  intros Hreg HT Hf Hafter. rewrite register_types_app in Hreg.
  destruct (register_types st before) as [st1 [[]|e]]; [| discriminate].
  cbn [register_types] in Hreg. unfold register_type in Hreg.
  rewrite HT, Hf in Hreg. destruct (has_stringify clazz); [| discriminate].
  cbn [negb] in Hreg.
  match type of Hreg with
  | register_types ?st2 after = _ =>
      pose proof (register_types_other after st2 T Hafter) as Hlookup;
      destruct (register_types_keeps after st2) as ([added Hadd] & _)
  end.
  rewrite Hreg in Hlookup, Hadd. cbn [fst _registered_types _SERIALIZABLE_TYPES] in *.
  split.
  - now rewrite Hlookup, lookup_insert_eq.
  - rewrite Hadd. apply in_or_app. left.
    case_bool_decide as Hin; [now apply list_elem_of_In |].
    apply in_or_app. right. now left.
Qed.

(** X8.  After [_register] has returned for a section and left only
    serializable types made of ASCII letters, digits and underscores, a
    string [body:T] that the template pattern does not match, whose [body]
    is not empty and has no line feed, and whose type [T] is the identifier
    of one of the classes of the section, and of none of the classes after
    that one, and is not [SECTION], is handed by [_pythonify] to the
    [_pythonify] method of that class, which gets [body]. *)
Theorem pythonify_after_register `{Builtins} `{TemplateHandler}
    (_PATTERN : string -> bool) (st st' : Attributes) (section : SectionObj)
    (before after : list Clazz) (clazz : Clazz) (T body : string)
    (f : PyVal -> result PyVal) :
  _register st section = (st', Ok tt) ->
  literal_types st' ->
  _types_to_register section = (before ++ clazz :: after)%list ->
  _type_identifier clazz = Some T -> clazz_pythonify clazz = Some f ->
  (forall c, In c after -> _type_identifier c <> Some T) ->
  T <> "SECTION" ->
  body <> "" -> newline_free body = true ->
  _PATTERN (body +:+ ":" +:+ T) = false ->
  _pythonify _PATTERN st' (VStr (body +:+ ":" +:+ T)) = f (VStr body).
Proof.
  intros Hreg Hliteral Hclasses HT Hf Hafter Hsection Hne Hnl Hpat.
  unfold _register in Hreg. rewrite Hclasses in Hreg.
  apply (register_types_last _ _ _ _ _ T f) in Hreg as [Hlookup HIn];
    try assumption.
  rewrite pythonify_typed; try assumption;
    [| exact (literal_well_formed T (Hliteral T HIn))].
  unfold typed_value. cbn [type_is mbind option_bind].
  apply eqb_neq in Hsection. now rewrite Hsection, Hlookup.
Qed.

(** X9.  When every serializable type is made of ASCII letters, digits and
    underscores, and is one of the ten of the class body or a registered
    type, as it is after any number of calls of [_register], an exception
    that [_pythonify] raises for a string is
    either the [LoadingError] for a string that ends with a colon (its type
    is [None]), or the exception that a converter of the template handler or
    the [_pythonify] of a registered type raised for the text before the
    last colon: no string with a type after its last colon gets the
    [type is not supported] error from [_pythonify] itself. *)
Theorem pythonify_raises `{Builtins} `{TemplateHandler}
    (_PATTERN : string -> bool) (st : Attributes) (s : string) (e : exn) :
  literal_types st -> known_types st ->
  _pythonify _PATTERN st (VStr s) = Raise e ->
  (exists p, s = p +:+ ":" /\
             e = LoadingError ("Error loading toml configuration at " +:+ s +:+
                               ". None type is not supported.")) \/
  (exists body T,
     s = body +:+ ":" +:+ T /\
     ((exists convert, In convert converters /\ convert body = Raise e) \/
      (exists registered_pythonify,
         _registered_types st !! T = Some registered_pythonify /\
         registered_pythonify (VStr body) = Raise e))).
Proof.
  intros _ Hknown. cbn [_pythonify str].
  destruct (_PATTERN s); [discriminate |]. unfold TYPE_PATTERN_fullmatch.
  destruct (type_pattern_from (_SERIALIZABLE_TYPES st) "" s) as [[a g]|] eqn:E;
    [| discriminate].
  apply type_pattern_from_sound in E as (body & Ha & _ & _ & Hs & Hg).
  rewrite append_nil_l in Ha. subst body.
  destruct g as [T|]; cbn [group_text] in Hs.
  - destruct Hg as [HIn _]. unfold typed_value. cbn [type_is mbind option_bind].
    destruct (String.eqb T "SECTION") eqn:Hsection; [discriminate |].
    destruct (_registered_types st !! T) as [f|] eqn:Hreg.
    + intros Hf. right. exists a, T. split; [exact Hs |]. right. now exists f.
    + assert (Hten : In T (_SERIALIZABLE_TYPES initial)).
      { destruct (Hknown T HIn) as [Hten | [f Hf]]; [exact Hten | congruence]. }
      intros Hraise. right. exists a, T. split; [exact Hs |]. left.
      cbn in Hten.
      destruct Hten as [<- | [<- | [<- | [<- | [<- | [<- | [<- | [<- | [<- | [<- | []]]]]]]]]]];
        cbn in Hraise; try discriminate;
        (eexists; split; [| exact Hraise]); cbn; tauto.
  - intros Hraise. left. exists a. rewrite append_nil_r in Hs. split; [exact Hs |].
    unfold typed_value in Hraise. cbn in Hraise. now injection Hraise as <-.
Qed.

(** *** [_stringify] and [_pythonify] on dicts, lists, tuples and sets *)

(** Induction on a value, the items of a dict and the elements of a list,
    a tuple or a set being values themselves. *)
Lemma PyVal_nested_ind (P : PyVal -> Prop) :
  (forall v,
     match v with
     | VDict _ | VList _ | VTuple _ | VSet _ | VStringifiable _ => False
     | _ => True
     end -> P v) ->
  (forall items, Forall (fun item => P item.2) items -> P (VDict items)) ->
  (forall xs, Forall P xs -> P (VList xs)) ->
  (forall xs, Forall P xs -> P (VTuple xs)) ->
  (forall xs, Forall P xs -> P (VSet xs)) ->
  (forall own, P own -> P (VStringifiable own)) ->
  forall v, P v.
Proof.
  intros Hleaf HDict HList HTuple HSet Hown. fix IH 1.
  intros [ | b | n | x | s | d | t | m n | m q | m q n | items | xs | xs | xs
         | own | ident ]; try (apply Hleaf; exact I).
  - apply HDict. induction items as [|[key val] items IHitems]; constructor;
      [apply IH | exact IHitems].
  - apply HList. induction xs as [|x xs IHxs]; constructor; [apply IH | exact IHxs].
  - apply HTuple. induction xs as [|x xs IHxs]; constructor; [apply IH | exact IHxs].
  - apply HSet. induction xs as [|x xs IHxs]; constructor; [apply IH | exact IHxs].
  - apply Hown. apply IH.
Qed.

Section Containers.
Context `{Builtins}.

Lemma stringify_elements (xs : list PyVal) :
  Forall (fun v => no_own_stringify v = true ->
                   stringified (_stringify v) = true /\
                   _stringify (_stringify v) = _stringify v) xs ->
  forallb no_own_stringify xs = true ->
  forallb stringified (map _stringify xs) = true /\
  map _stringify (map _stringify xs) = map _stringify xs.
Proof.
  induction 1 as [|x xs Hx _ IH]; cbn [forallb map]; [now split |].
  intros Hall. apply andb_prop in Hall as [Hx' Hall].
  destruct (Hx Hx') as [H1 H2]. destruct (IH Hall) as [H3 H4].
  now rewrite H1, H2, H3, H4.
Qed.

(** X10.  On a value that holds no object with a [_stringify] method of its
    own, [_stringify] gives a value made of [None], strings, dicts, lists
    and the objects it has no case for: no [bool], number, date, function,
    class, enum member, tuple or set is left.  Applying [_stringify] to its
    result changes nothing. *)
Theorem stringify_idempotent (v : PyVal) :
  no_own_stringify v = true ->
  stringified (_stringify v) = true /\
  _stringify (_stringify v) = _stringify v.
Proof.
  induction v as [v Hv | items IH | xs IH | xs IH | xs IH | own IH]
    using PyVal_nested_ind.
  - destruct v; try destruct Hv; intros _; now split.
  - cbn [no_own_stringify _stringify stringified]. intros Hall.
    assert (Hitems :
      forallb (fun item => stringified item.2)
        (map (fun '(key, val) => (key, _stringify val)) items) = true /\
      map (fun '(key, val) => (key, _stringify val))
        (map (fun '(key, val) => (key, _stringify val)) items) =
      map (fun '(key, val) => (key, _stringify val)) items).
    { induction IH as [|[key val] items Hval _ IHitems]; cbn [forallb map];
        [now split |].
      cbn [forallb] in Hall. apply andb_prop in Hall as [Hval' Hall].
      destruct (Hval Hval') as [H1 H2]. destruct (IHitems Hall) as [H3 H4].
      cbn [snd] in *. now rewrite H1, H2, H3, H4. }
    destruct Hitems as [H1 H2]. now rewrite H1, H2.
  - cbn [no_own_stringify _stringify stringified]. intros Hall.
    destruct (stringify_elements xs IH Hall) as [H1 H2]. now rewrite H1, H2.
  - cbn [no_own_stringify _stringify stringified]. intros Hall.
    destruct (stringify_elements xs IH Hall) as [H1 H2]. now rewrite H1, H2.
  - cbn [no_own_stringify _stringify stringified]. intros Hall.
    destruct (stringify_elements xs IH Hall) as [H1 H2]. now rewrite H1, H2.
  - discriminate.
Qed.

End Containers.

Section ContainersBack.
Context `{Builtins} `{TemplateHandler}.
Variable _PATTERN : string -> bool.
Variable st : Attributes.

(** X11.  A list whose elements each come back from
    [_pythonify(_stringify(x))] as they were comes back as it was, and a
    tuple or a set of such elements comes back as the list of its elements;
    a dict whose keys are strings and whose values each come back comes
    back as it was, unless its one key is a registered type identifier.  The template pattern is taken not
    to match what [str] gives for the stringified list or dict. *)
Theorem pythonify_stringify_containers :
  (forall xs : list PyVal,
     Forall (fun x => _pythonify _PATTERN st (_stringify x) = Ok x) xs ->
     _PATTERN (str (VList (map _stringify xs))) = false ->
     _pythonify _PATTERN st (_stringify (VList xs)) = Ok (VList xs) /\
     _pythonify _PATTERN st (_stringify (VTuple xs)) = Ok (VList xs) /\
     _pythonify _PATTERN st (_stringify (VSet xs)) = Ok (VList xs)) /\
  (forall items : list (string * PyVal),
     Forall (fun item => _pythonify _PATTERN st (_stringify item.2) = Ok item.2)
       items ->
     _PATTERN (str (_stringify (VDict items))) = false ->
     (forall key val, items = [(key, val)] -> _registered_types st !! key = None) ->
     _pythonify _PATTERN st (_stringify (VDict items)) = Ok (VDict items)).
Proof.
  split.
  - intros xs Hall Hpat.
    assert (E : _pythonify _PATTERN st (VList (map _stringify xs)) = Ok (VList xs)).
    { cbn [_pythonify]. rewrite Hpat.
      match goal with
      | |- mbind _ (?each (map _stringify xs)) = _ =>
          assert (Heach : each (map _stringify xs) = Ok xs)
      end.
      { clear Hpat. induction Hall as [|x xs Hx _ IH]; [reflexivity |].
        cbn [map]. rewrite Hx. cbn [mbind result_bind]. now rewrite IH. }
      now rewrite Heach. }
    now repeat split.
  - intros items Hall Hpat Hone. cbn [_stringify] in *. cbn [_pythonify].
    rewrite Hpat.
    match goal with
    | |- context [mbind _ (?each (map ?g items))] =>
        assert (Heach : each (map g items) = Ok items)
    end.
    { clear Hpat Hone. induction Hall as [|[key val] items Hval _ IH];
        [reflexivity |].
      cbn [map snd] in *. rewrite Hval. cbn [mbind result_bind]. now rewrite IH. }
    rewrite Heach. cbn [mbind result_bind].
    destruct items as [|[key val] [|item items]]; try reflexivity.
    cbn [map]. now rewrite (Hone key val eq_refl).
Qed.

End ContainersBack.

(** *** The fields of [_timedelta_to_str] *)

(** X12.  With floats that are exact on the integers below [2^53], the
    rendering of a [timedelta] of whole seconds is [<d>d<h>h<m>m<s>s] with
    [d] its days (negative for a negative duration), and [h], [m], [s] the
    hours, minutes and seconds of its [seconds] field: [0 <= h < 24],
    [0 <= m < 60], [0 <= s < 60], and the four fields add up to the total
    of seconds. *)
Theorem timedelta_to_str_fields `{Builtins} (float : Z -> spec_float)
    (t : timedelta) :
  exact_on_integers float -> whole_seconds t ->
  let h := seconds t / 3600 in
  let m := seconds t mod 3600 / 60 in
  let s := seconds t mod 60 in
  _timedelta_to_str t =
    str_int (days t) +:+ "d" +:+ str_int h +:+ "h" +:+ str_int m +:+ "m" +:+
    str_int s +:+ "s" /\
  0 <= h < 24 /\ 0 <= m < 60 /\ 0 <= s < 60 /\
  days t * 86400 + h * 3600 + m * 60 + s = days t * 86400 + seconds t.
Proof.
  intros (Htotal & Hdiv & Hmod & Hint) (Hdays & Hseconds & Hmicro) h m s.
  assert (Hpow : 2 ^ 53 = 9007199254740992) by reflexivity.
  rewrite Hpow in *.
  set (total := days t * 86400 + seconds t).
  assert (Hbound : Z.abs total < 9007199254740992) by (unfold total; lia).
  assert (Hd : total / 86400 = days t).
  { symmetry. apply (Z.div_unique_pos total 86400 (days t) (seconds t));
      unfold total; lia. }
  assert (H86400 : total mod 86400 = seconds t).
  { symmetry. apply (Z.mod_unique_pos total 86400 (days t) (seconds t));
      unfold total; lia. }
  pose proof (Z.div_mod (seconds t) 3600 ltac:(lia)) as E3600.
  pose proof (Z.mod_pos_bound (seconds t) 3600 ltac:(lia)) as B3600.
  pose proof (Z.div_mod (seconds t) 60 ltac:(lia)) as E60.
  pose proof (Z.mod_pos_bound (seconds t) 60 ltac:(lia)) as B60.
  pose proof (Z.div_mod (seconds t mod 3600) 60 ltac:(lia)) as E3660.
  pose proof (Z.mod_pos_bound (seconds t mod 3600) 60 ltac:(lia)) as B3660.
  assert (H3600 : total mod 3600 = seconds t mod 3600).
  { symmetry.
    apply (Z.mod_unique_pos total 3600 (days t * 24 + seconds t / 3600));
      unfold total; lia. }
  assert (H60 : total mod 60 = seconds t mod 60).
  { symmetry.
    apply (Z.mod_unique_pos total 60 (days t * 1440 + seconds t / 60));
      unfold total; lia. }
  assert (Hh : 0 <= h < 24) by (unfold h; lia).
  assert (Hm : 0 <= m < 60) by (unfold m; lia).
  assert (Hmm : seconds t mod 3600 mod 60 = seconds t mod 60).
  { symmetry.
    apply (Z.mod_unique_pos (seconds t mod 3600) 60
             (seconds t / 60 - 60 * (seconds t / 3600))); lia. }
  repeat split; try (unfold h, m, s; lia).
  unfold _timedelta_to_str. rewrite (Htotal t Hmicro Hbound). fold total.
  rewrite (Hdiv total 86400), (Hmod total 86400), (Hmod total 3600),
    (Hmod total 60) by lia.
  rewrite Hd, H86400, H3600, H60.
  rewrite (Hdiv (seconds t) 3600), (Hdiv (seconds t mod 3600) 60) by lia.
  rewrite !Hint by (fold h; fold m; lia).
  reflexivity.
Qed.

(** *** [_str] *)

Lemma getitem_setitem (d : list (string * PyVal)) (key key' : string) (val : PyVal) :
  getitem (setitem d key val) key' =
  if String.eqb key key' then Some val else getitem d key'.
Proof.
  induction d as [|[k v] d IH]; cbn [setitem getitem].
  - reflexivity.
  - destruct (String.eqb k key) eqn:E; cbn [getitem].
    + apply String.eqb_eq in E. subst k. now destruct (String.eqb key key').
    + rewrite IH. destruct (String.eqb k key') eqn:E'; [| reflexivity].
      apply String.eqb_eq in E'. subst k. now rewrite String.eqb_sym, E.
Qed.

(** The first key of a dict stays the first, whatever is assigned. *)
Lemma setitem_first (d : list (string * PyVal)) (k key : string) (v val : PyVal) :
  exists v' rest, setitem ((k, v) :: d) key val = (k, v') :: rest.
Proof. cbn [setitem]. destruct (String.eqb k key); eauto. Qed.

Section Assignments.
Variable A : Type.
Variable node : A -> PyVal.

(** A loop [for name, x in xs.items(): d[name] = node(x)]. *)
Local Abbreviation assign_all :=
  (foldl (fun d '(name, x) => setitem d name (node x))).

Lemma assign_all_first (xs : list (string * A)) (d : list (string * PyVal))
    (k : string) (v : PyVal) :
  exists v' rest, assign_all ((k, v) :: d) xs = (k, v') :: rest.
Proof.
  revert d v. induction xs as [|[name x] xs IH]; intros d v; cbn [foldl]; [eauto |].
  destruct (setitem_first d k name v (node x)) as (v' & rest & ->). apply IH.
Qed.

Lemma assign_all_other (xs : list (string * A)) (d : list (string * PyVal))
    (key : string) :
  ~ In key xs.*1 -> getitem (assign_all d xs) key = getitem d key.
Proof.
  revert d. induction xs as [|[name x] xs IH]; intros d Hkey; [reflexivity |].
  cbn [foldl]. rewrite IH by (intros HIn; apply Hkey; now right).
  rewrite getitem_setitem. destruct (String.eqb name key) eqn:E; [| reflexivity].
  apply String.eqb_eq in E. exfalso. apply Hkey. now left.
Qed.

Lemma assign_all_member (xs : list (string * A)) (d : list (string * PyVal))
    (key : string) (x : A) :
  NoDup xs.*1 -> In (key, x) xs ->
  getitem (assign_all d xs) key = Some (node x).
Proof.
  revert d. induction xs as [|[name y] xs IH]; intros d Hnd HIn; [destruct HIn |].
  apply NoDup_cons in Hnd as [Hname Hnd]. cbn [foldl]. destruct HIn as [[= -> ->] | HIn].
  - rewrite assign_all_other by (now rewrite <- list_elem_of_In).
    now rewrite getitem_setitem, String.eqb_refl.
  - now apply IH.
Qed.

End Assignments.

Lemma getitem_stringify `{Builtins} (d : list (string * PyVal)) (key : string) :
  getitem (map (fun '(k, v) => (k, _stringify v)) d) key =
  _stringify <$> getitem d key.
Proof.
  induction d as [|[k v] d IH]; [reflexivity |]. cbn [map getitem].
  now destruct (String.eqb k key).
Qed.

(** X13.  The dict that [_str] gives has the node [TAIPY] first.  Under
    the name of a section it holds the stringified dict of the sections of
    that name by id; under the name of a unique section, when no section
    has that name, the stringified [_to_dict()] of the unique section; and
    under [TAIPY] that of the global configuration, when nothing else has
    that name.  It holds no other key.  The names of the unique sections,
    and those of the sections, are the keys of a dict: each is there once. *)
Theorem str_nodes `{Builtins} (SectionT : Type) (_to_dict : SectionT -> PyVal)
    (configuration : _Config SectionT) :
  NoDup (_unique_sections configuration).*1 ->
  NoDup (_sections configuration).*1 ->
  exists items,
    _str SectionT _to_dict configuration = VDict items /\
    (exists v rest, items = (_GLOBAL_NODE_NAME, v) :: rest) /\
    (forall name sections,
       In (name, sections) (_sections configuration) ->
       getitem items name =
       Some (_stringify (__to_dict SectionT _to_dict sections))) /\
    (forall name section,
       In (name, section) (_unique_sections configuration) ->
       ~ In name (_sections configuration).*1 ->
       getitem items name = Some (_stringify (_to_dict section))) /\
    (~ In _GLOBAL_NODE_NAME (_unique_sections configuration).*1 ->
     ~ In _GLOBAL_NODE_NAME (_sections configuration).*1 ->
     getitem items _GLOBAL_NODE_NAME =
     Some (_stringify (_to_dict (_global_config configuration)))) /\
    (forall name,
       name <> _GLOBAL_NODE_NAME ->
       ~ In name (_unique_sections configuration).*1 ->
       ~ In name (_sections configuration).*1 ->
       getitem items name = None).
Proof.
  intros Hunique Hsections.
  exists (map (fun '(k, v) => (k, _stringify v))
            (config_as_dict SectionT _to_dict configuration)).
  split; [reflexivity |].
  unfold config_as_dict. repeat split.
  - match goal with
    | |- context [foldl ?f (foldl ?g [(?k, ?v)] ?us) ?ss] =>
        destruct (assign_all_first _ _to_dict us [] k v) as (v1 & rest1 & E1);
        rewrite E1;
        destruct (assign_all_first _ (__to_dict SectionT _to_dict) ss rest1 k v1)
          as (v2 & rest2 & E2);
        rewrite E2
    end.
    cbn [map]. eauto.
  - intros name sections HIn. rewrite getitem_stringify.
    now rewrite (assign_all_member _ (__to_dict SectionT _to_dict) _ _ name sections).
  - intros name section HIn Hnot. rewrite getitem_stringify.
    rewrite (assign_all_other _ (__to_dict SectionT _to_dict)) by assumption.
    now rewrite (assign_all_member _ _to_dict _ _ name section).
  - intros Hu Hs. rewrite getitem_stringify.
    rewrite (assign_all_other _ (__to_dict SectionT _to_dict)) by assumption.
    rewrite (assign_all_other _ _to_dict) by assumption.
    cbn [getitem]. now rewrite String.eqb_refl.
  - intros name Hname Hu Hs. rewrite getitem_stringify.
    rewrite (assign_all_other _ (__to_dict SectionT _to_dict)) by assumption.
    rewrite (assign_all_other _ _to_dict) by assumption.
    cbn [getitem]. apply not_eq_sym in Hname. apply eqb_neq in Hname.
    now rewrite Hname.
Qed.

(** *** Closed instances of the properties above *)

Lemma initial_literal : literal_types initial.
Proof.
  intros T HT. cbn in HT.
  repeat (destruct HT as [<- | HT]; [split; [discriminate | reflexivity] |]).
  destruct HT.
Qed.

(** The registration of [data_node_section] leaves literal types. *)
Lemma data_node_literal : literal_types (_register initial data_node_section).1.
Proof.
  intros T HT. cbn in HT.
  repeat (destruct HT as [<- | HT]; [split; [discriminate | reflexivity] |]).
  destruct HT.
Qed.

Lemma whole_part_whole (n : Z) : whole_part (whole n) = n.
Proof. destruct n; reflexivity. Qed.

Lemma whole_runtime_exact : @exact_on_integers whole_runtime whole.
Proof.
  repeat split; intros; cbn; now rewrite ?whole_part_whole.
Qed.

(** [type_pattern_last_colon] at the string [a:b:int]. *)
Lemma type_pattern_last_colon_witness :
  (forall T, In T (_SERIALIZABLE_TYPES initial) -> literal_type T) /\
  (TYPE_PATTERN_fullmatch (_SERIALIZABLE_TYPES initial) "a:b:int"
     = Some ("a:b", Some "int") <->
   "a:b" <> "" /\ newline_free "a:b" = true /\
   "a:b:int" = "a:b" +:+ ":" +:+ group_text (Some "int") /\
   In "int" (_SERIALIZABLE_TYPES initial)).
Proof.
  split; [exact initial_literal |].
  exact (type_pattern_last_colon (_SERIALIZABLE_TYPES initial) "a:b:int" "a:b"
           (Some "int") initial_literal).
Defined.

(** [pythonify_leaves_untyped] at a host name and at a URL. *)
Lemma pythonify_leaves_untyped_witness :
  literal_types initial /\
  colon_free "localhost" = true /\
  colon_free "//host" = true /\ "//host" <> "" /\
  ~ In "//host" (_SERIALIZABLE_TYPES initial) /\
  forall (B : Builtins) (T : TemplateHandler),
    _pythonify ENV_PATTERN initial (VStr "localhost") = Ok (VStr "localhost") /\
    _pythonify ENV_PATTERN initial (VStr "http://host") = Ok (VStr "http://host").
Proof.
  assert (Hnot : ~ In "//host" (_SERIALIZABLE_TYPES initial)).
  { cbn. intros HIn. repeat (destruct HIn as [? | HIn]; [discriminate |]).
    destruct HIn. }
  split; [exact initial_literal |].
  split; [reflexivity |]. split; [reflexivity |]. split; [discriminate |].
  split; [exact Hnot |]. intros B T.
  destruct (pythonify_leaves_untyped ENV_PATTERN initial initial_literal)
    as [Hplain Hsuffix].
  split.
  - now apply Hplain.
  - apply (Hsuffix "http" "//host"); [reflexivity | discriminate | exact Hnot].
Defined.

(** [pythonify_stringify_callable] at the function [os.path.join]. *)
Lemma pythonify_stringify_callable_witness :
  newline_free ("os.path" +:+ "." +:+ "join") = true /\
  ENV_PATTERN ("os.path" +:+ "." +:+ "join" +:+ ":function") = false /\
  In "function" (_SERIALIZABLE_TYPES initial) /\
  _registered_types initial !! "function" = None /\
  forall (B : Builtins) (T : TemplateHandler),
    _pythonify ENV_PATTERN initial (_stringify (VFunction "os.path" "join")) =
    _to_function "os.path.join".
Proof.
  assert (HIn : In "function" (_SERIALIZABLE_TYPES initial)) by (cbn; tauto).
  split; [reflexivity |]. split; [reflexivity |]. split; [exact HIn |].
  split; [reflexivity |]. intros B T.
  destruct (pythonify_stringify_callable ENV_PATTERN initial) as [Hfunction _].
  exact (Hfunction "os.path" "join" eq_refl eq_refl HIn eq_refl).
Defined.

(** [pythonify_dispatch_order] at the string [5:int] when a class is
    registered under [int]: the class gets it, not [_to_int]. *)
Lemma pythonify_dispatch_order_witness :
  literal_types int_overridden /\
  "5" <> "" /\ newline_free "5" = true /\
  In "int" (_SERIALIZABLE_TYPES int_overridden) /\
  ENV_PATTERN ("5" +:+ ":" +:+ "int") = false /\ "int" <> "SECTION" /\
  forall (B : Builtins) (T : TemplateHandler),
    _pythonify ENV_PATTERN int_overridden (VStr "5:int") = Ok (VList [VStr "5"]).
Proof.
  assert (HIn : In "int" (_SERIALIZABLE_TYPES int_overridden)) by (cbn; tauto).
  split; [exact initial_literal |].
  split; [discriminate |]. split; [reflexivity |].
  split; [exact HIn |]. split; [reflexivity |]. split; [discriminate |].
  intros B T.
  destruct (pythonify_dispatch_order ENV_PATTERN int_overridden "5" "int"
              initial_literal ltac:(discriminate) eq_refl HIn eq_refl)
    as [_ Hregistered].
  exact (Hregistered ltac:(discriminate) _ eq_refl).
Defined.

(** [register_keeps] at the attributes of the class body and a section
    with one class: [SCOPE] goes to the end of the serializable types. *)
Lemma register_keeps_witness :
  NoDup (_SERIALIZABLE_TYPES initial) /\ registered_serializable initial /\
  known_types initial /\
  let st' := (_register initial data_node_section).1 in
  _SERIALIZABLE_TYPES st' = (_SERIALIZABLE_TYPES initial ++ ["SCOPE"])%list /\
  NoDup (_SERIALIZABLE_TYPES st') /\ registered_serializable st' /\
  known_types st' /\
  _section_class st' !! "DATA_NODE" = Some "DataNodeConfig".
Proof.
  assert (Hnd : NoDup (_SERIALIZABLE_TYPES initial)).
  { apply (bool_decide_unpack _). vm_compute. exact I. }
  split; [exact Hnd |]. split; [exact initial_invariant |].
  split; [exact initial_known |]. intros st'.
  destruct (register_keeps initial data_node_section)
    as (_ & Hnd' & Hser & Hknown & _ & Hsc).
  split; [reflexivity |]. split; [exact (Hnd' Hnd) |].
  split; [exact (Hser initial_invariant) |].
  split; [exact (Hknown initial_known) |].
  unfold st'. rewrite Hsc. apply lookup_insert_eq.
Defined.

(** [register_incomplete] at a section whose second class lacks
    [_stringify] and [_pythonify]: the message names [_stringify], and the
    first class is registered when the call raises. *)
Lemma register_incomplete_witness :
  let section := with_types data_node_section [scope_class; bare_class] in
  Forall complete [scope_class] /\ ~ complete bare_class /\
  missing_attribute bare_class = Some "_stringify" /\
  (_register initial section).2 =
    Raise (InvalidConfigurationType "Type Frequency must have a `_stringify` method.") /\
  (_register initial section).1 = (_register initial data_node_section).1 /\
  is_Some (_registered_types (_register initial section).1 !! "SCOPE").
Proof.
  intros section.
  assert (Hgood : Forall complete [scope_class]).
  { constructor; [| constructor]. repeat split; cbn; eauto. }
  assert (Hbad : ~ complete bare_class) by (intros (_ & Hs & _); discriminate).
  split; [exact Hgood |]. split; [exact Hbad |].
  destruct (register_incomplete initial section) as [_ Hraise].
  destruct (Hraise [scope_class] bare_class [] eq_refl Hgood Hbad)
    as (attribute & Hmissing & E).
  split; [reflexivity |]. split; [reflexivity |]. split; [now rewrite E |].
  rewrite E. cbn [fst]. unfold _register. cbn. rewrite lookup_insert_eq. eauto.
Defined.

(** [register_idempotent] at the same section. *)
Lemma register_idempotent_witness :
  let st1 := (_register initial data_node_section).1 in
  _register initial data_node_section = (st1, Ok tt) /\
  _register st1 data_node_section = (st1, Ok tt).
Proof.
  intros st1. split; [reflexivity |].
  exact (register_idempotent initial st1 data_node_section eq_refl).
Defined.

(** [pythonify_after_register] at the string [GLOBAL:SCOPE]. *)
Lemma pythonify_after_register_witness :
  let st1 := (_register initial data_node_section).1 in
  _register initial data_node_section = (st1, Ok tt) /\
  literal_types st1 /\ "SCOPE" <> "SECTION" /\
  "GLOBAL" <> "" /\ newline_free "GLOBAL" = true /\
  ENV_PATTERN ("GLOBAL" +:+ ":" +:+ "SCOPE") = false /\
  forall (B : Builtins) (T : TemplateHandler),
    _pythonify ENV_PATTERN st1 (VStr "GLOBAL:SCOPE") =
    Ok (VEnum "scope" "Scope" "GLOBAL").
Proof.
  intros st1.
  split; [reflexivity |]. split; [exact data_node_literal |].
  split; [discriminate |].
  split; [discriminate |]. split; [reflexivity |]. split; [reflexivity |].
  intros B T.
  exact (pythonify_after_register ENV_PATTERN initial st1 data_node_section
           [] [] scope_class "SCOPE" "GLOBAL" _ eq_refl data_node_literal
           eq_refl eq_refl eq_refl
           ltac:(intros c []) ltac:(discriminate) ltac:(discriminate)
           eq_refl eq_refl).
Defined.

(** [pythonify_raises] at the string [abc:], after a section has been
    registered. *)
Lemma pythonify_raises_witness :
  let st1 := (_register initial data_node_section).1 in
  let e := LoadingError
             "Error loading toml configuration at abc:. None type is not supported." in
  literal_types st1 /\ known_types st1 /\
  forall (B : Builtins) (T : TemplateHandler),
    _pythonify ENV_PATTERN st1 (VStr "abc:") = Raise e /\
    ((exists p, "abc:" = p +:+ ":" /\
                e = LoadingError ("Error loading toml configuration at " +:+ "abc:" +:+
                                  ". None type is not supported.")) \/
     (exists body type,
        "abc:" = body +:+ ":" +:+ type /\
        ((exists convert, In convert converters /\ convert body = Raise e) \/
         (exists registered_pythonify,
            _registered_types st1 !! type = Some registered_pythonify /\
            registered_pythonify (VStr body) = Raise e)))).
Proof.
  intros st1 e.
  assert (Hknown : known_types st1).
  { unfold st1, _register. apply register_types_known. exact initial_known. }
  split; [exact data_node_literal |]. split; [exact Hknown |]. intros B T.
  assert (E : _pythonify ENV_PATTERN st1 (VStr "abc:") = Raise e) by reflexivity.
  split; [exact E |].
  exact (pythonify_raises ENV_PATTERN st1 "abc:" e data_node_literal Hknown E).
Defined.

(** [stringify_idempotent] at a dict that holds a tuple. *)
Lemma stringify_idempotent_witness :
  let v := VDict [("ports", VTuple [VInt 80; VInt 443]); ("debug", VBool true);
                  ("log", VNone)] in
  no_own_stringify v = true /\
  forall B : Builtins,
    _stringify v =
      VDict [("ports", VList [VStr "80:int"; VStr "443:int"]);
             ("debug", VStr "True:bool"); ("log", VNone)] /\
    stringified (_stringify v) = true /\
    _stringify (_stringify v) = _stringify v.
Proof.
  intros v. split; [reflexivity |]. intros B.
  split; [reflexivity |]. exact (stringify_idempotent v eq_refl).
Defined.

(** [pythonify_stringify_containers] at a tuple and at a dict of plain
    strings, with the runtime of the closed instances. *)
Lemma pythonify_stringify_containers_witness :
  let xs := [VStr "in.csv"; VStr "out.csv"] in
  let items := [("path", VStr "in.csv"); ("mode", VStr "r")] in
  let B := whole_runtime in
  ENV_PATTERN (str (VList (map _stringify xs))) = false /\
  ENV_PATTERN (str (_stringify (VDict items))) = false /\
  forall T : TemplateHandler,
    Forall (fun x => _pythonify ENV_PATTERN initial (_stringify x) = Ok x) xs /\
    Forall (fun item => _pythonify ENV_PATTERN initial (_stringify item.2) = Ok item.2)
      items /\
    _pythonify ENV_PATTERN initial (_stringify (VTuple xs)) = Ok (VList xs) /\
    _pythonify ENV_PATTERN initial (_stringify (VDict items)) = Ok (VDict items).
Proof.
  intros xs items B. split; [reflexivity |]. split; [reflexivity |]. intros T.
  assert (Hxs : Forall (fun x => _pythonify ENV_PATTERN initial (_stringify x) = Ok x) xs).
  { repeat constructor. }
  assert (Hitems : Forall (fun item =>
            _pythonify ENV_PATTERN initial (_stringify item.2) = Ok item.2) items).
  { repeat constructor. }
  destruct (pythonify_stringify_containers ENV_PATTERN initial) as [Hlist Hdict].
  split; [exact Hxs |]. split; [exact Hitems |]. split.
  - exact (proj1 (proj2 (Hlist xs Hxs eq_refl))).
  - apply (Hdict items Hitems eq_refl). intros key val [=].
Defined.

(** [timedelta_to_str_fields] at [timedelta(seconds=-1)], which Python
    holds as minus one day and 86399 seconds. *)
Lemma timedelta_to_str_fields_witness :
  let t := {| days := -1; seconds := 86399; microseconds := 0 |} in
  @exact_on_integers whole_runtime whole /\ whole_seconds t /\
  @_timedelta_to_str whole_runtime t = "-1d23h59m59s".
Proof.
  intros t.
  assert (Ht : whole_seconds t) by (repeat split; cbn; lia).
  split; [exact whole_runtime_exact |]. split; [exact Ht |].
  destruct (@timedelta_to_str_fields whole_runtime whole t whole_runtime_exact Ht)
    as [E _].
  rewrite E. reflexivity.
Defined.

(** [str_nodes] at a configuration with a unique section and a section. *)
Lemma str_nodes_witness :
  NoDup (_unique_sections sample_configuration).*1 /\
  NoDup (_sections sample_configuration).*1 /\
  forall B : Builtins,
    exists items,
      _str _ VDict sample_configuration = VDict items /\
      getitem items "REST" =
        Some (VDict [("port", VStr "5000:int"); ("use_https", VStr "False:bool")]) /\
      getitem items "DATA_NODE" =
        Some (VDict [("d1", VDict [("storage_type", VStr "pickle")])]) /\
      getitem items "TAIPY" = Some (VDict []) /\
      getitem items "JOB" = None.
Proof.
  assert (Hu : NoDup (_unique_sections sample_configuration).*1).
  { apply (bool_decide_unpack _). vm_compute. exact I. }
  assert (Hs : NoDup (_sections sample_configuration).*1).
  { apply (bool_decide_unpack _). vm_compute. exact I. }
  split; [exact Hu |]. split; [exact Hs |]. intros B.
  destruct (str_nodes _ VDict sample_configuration Hu Hs)
    as (items & E & _ & Hsections & Hunique & Hglobal & Hnone).
  exists items. split; [exact E |]. split; [| split; [| split]].
  - rewrite (Hunique "REST" [("port", VInt 5000); ("use_https", VBool false)]);
      [reflexivity | cbn; tauto |].
    cbn. intros [? | []]. discriminate.
  - rewrite (Hsections "DATA_NODE" [("d1", [("storage_type", VStr "pickle")])]);
      [reflexivity | cbn; tauto].
  - etransitivity; [apply Hglobal | reflexivity];
      cbn; intros [? | []]; discriminate.
  - apply Hnone; [discriminate | |]; cbn; intros [? | []]; discriminate.
Defined.

End SerializerFacts.

(** ** The REST section and its checker *)

Module RestFacts.
Import Rest.

Section Checker.
Variable _replace_templates : PyVal -> result PyVal.

Local Abbreviation port := (Rest.port _replace_templates).
Local Abbreviation host := (Rest.host _replace_templates).
Local Abbreviation use_https := (Rest.use_https _replace_templates).
Local Abbreviation ssl_cert := (Rest.ssl_cert _replace_templates).
Local Abbreviation ssl_key := (Rest.ssl_key _replace_templates).
Local Abbreviation _check_port := (Rest._check_port _replace_templates).
Local Abbreviation _check_host := (Rest._check_host _replace_templates).
Local Abbreviation _check_https_settings := (Rest._check_https_settings _replace_templates).
Local Abbreviation _check := (Rest._check _replace_templates).
Local Abbreviation https_issues := (Rest.https_issues _replace_templates).
Local Abbreviation section_issues := (Rest.section_issues _replace_templates).
Local Abbreviation readable := (Rest.readable _replace_templates).

Lemma with_errors_nil (collector : IssueCollector) :
  with_errors collector [] = collector.
Proof. destruct collector. unfold with_errors. simpl. now rewrite app_nil_r. Qed.

Lemma with_errors_app (collector : IssueCollector) (l1 l2 : list Issue) :
  with_errors (with_errors collector l1) l2 = with_errors collector (l1 ++ l2).
Proof. unfold with_errors. simpl. now rewrite app_assoc. Qed.

Lemma with_errors_inj (collector : IssueCollector) (l1 l2 : list Issue) :
  with_errors collector l1 = with_errors collector l2 -> l1 = l2.
Proof. unfold with_errors. intros [= E]. now apply app_inv_head in E. Qed.

(** Sequencing two steps, the first of which adds [l1] and returns. *)
Lemma bind_run {A B : Type} (m : Checker A) (k : A -> Checker B)
    (collector collector' : IssueCollector) (a : A) :
  m collector = (collector', Ok a) ->
  (m ≫= k) collector = k a collector'.
Proof. intros E. unfold mbind, checker_bind. now rewrite E. Qed.

Lemma bind_raise {A B : Type} (m : Checker A) (k : A -> Checker B)
    (collector collector' : IssueCollector) (e : exn) :
  m collector = (collector', Raise e) ->
  (m ≫= k) collector = (collector', Raise e).
Proof. intros E. unfold mbind, checker_bind. now rewrite E. Qed.

(** [_check_port]: the collector afterwards and the outcome. *)
Lemma check_port_run (rest_config : RestConfig) (collector : IssueCollector) :
  _check_port rest_config collector =
  (with_errors collector (when_read (port rest_config) port_issues),
   outcome (port rest_config)).
Proof.
  unfold Rest._check_port, port_issues, when_read, outcome, read, mbind, checker_bind, mret, checker_ret.
  destruct (port rest_config) as [v|e]; [| now rewrite with_errors_nil].
  destruct (isinstance_int v); cbn.
  - destruct (in_port_range v); cbn; [now rewrite with_errors_nil | reflexivity].
  - reflexivity.
Qed.

Lemma check_host_run (rest_config : RestConfig) (collector : IssueCollector) :
  _check_host rest_config collector =
  (with_errors collector (when_read (host rest_config) host_issues),
   outcome (host rest_config)).
Proof.
  unfold Rest._check_host, host_issues, when_read, outcome, read, mbind, checker_bind, mret, checker_ret.
  destruct (host rest_config) as [v|e]; [| now rewrite with_errors_nil].
  destruct (isinstance_str v); cbn.
  - destruct (truthy v); cbn; [now rewrite with_errors_nil | reflexivity].
  - reflexivity.
Qed.

Lemma check_ssl_setting_run (key : string) (setting : result PyVal)
    (collector : IssueCollector) :
  check_ssl_setting key setting collector =
  (with_errors collector (when_read setting (ssl_issues key)), outcome setting).
Proof.
  unfold check_ssl_setting, ssl_issues, when_read, outcome, read, mbind, checker_bind, mret, checker_ret.
  destruct setting as [v|e]; [| now rewrite with_errors_nil].
  destruct (truthy v); cbn; [| reflexivity].
  destruct (isinstance_str v); cbn; [now rewrite with_errors_nil | reflexivity].
Qed.

Lemma check_https_settings_added (rest_config : RestConfig) (collector : IssueCollector) :
  (_check_https_settings rest_config collector).1 =
  with_errors collector (https_issues rest_config).
Proof.
  unfold Rest._check_https_settings, Rest.https_issues.
  unfold mbind at 1. unfold checker_bind, read.
  destruct (use_https rest_config) as [u|e]; cbn [when_read fst];
    [| now rewrite with_errors_nil].
  destruct (truthy u); [| cbn; now rewrite with_errors_nil].
  unfold mbind, checker_bind. rewrite check_ssl_setting_run.
  destruct (ssl_cert rest_config) as [c|e]; cbn [when_read outcome fst].
  - rewrite check_ssl_setting_run. cbn [fst]. now rewrite with_errors_app.
  - reflexivity.
Qed.

(** The collector after [m] and [return self._collector] is the collector
    after [m]. *)
Lemma then_collector_added (m : Checker unit) (collector : IssueCollector) :
  ((m;; _collector) collector).1 = (m collector).1.
Proof.
  unfold mbind, checker_bind, _collector. now destruct (m collector) as [after [[]|e]].
Qed.

Lemma then_collector_returns (m : Checker unit) (collector : IssueCollector) :
  (m collector).2 = Ok tt ->
  ((m;; _collector) collector).2 = Ok (m collector).1.
Proof.
  unfold mbind, checker_bind, _collector.
  destruct (m collector) as [after [[]|e]]; [reflexivity | discriminate].
Qed.

(** What the check leaves in the collector, whether it returns or raises. *)
Lemma check_added (config : _Config) (collector : IssueCollector)
    (rest_config : RestConfig) :
  _unique_sections config !! name = Some rest_config ->
  (_check config collector).1 = with_errors collector (section_issues rest_config).
Proof.
  intros Hrest. unfold Rest._check, Rest.section_issues.
  rewrite then_collector_added, Hrest.
  unfold mbind at 1. unfold checker_bind. rewrite check_port_run.
  destruct (port rest_config) as [p|e]; cbn [when_read outcome fst];
    [| reflexivity].
  unfold mbind at 1. unfold checker_bind. rewrite check_host_run.
  destruct (host rest_config) as [h|e]; cbn [when_read outcome fst].
  - rewrite check_https_settings_added. now rewrite !with_errors_app.
  - now rewrite with_errors_app, !app_nil_r.
Qed.

(** No section under [REST]: nothing is checked. *)
Lemma check_without_section (config : _Config) (collector : IssueCollector) :
  _unique_sections config !! name = None ->
  _check config collector = (collector, Ok collector).
Proof. intros E. unfold Rest._check. now rewrite E. Qed.

(** The check returns the collector when the properties can be read. *)
Lemma check_returns (config : _Config) (collector : IssueCollector)
    (rest_config : RestConfig) :
  _unique_sections config !! name = Some rest_config ->
  readable rest_config ->
  _check config collector =
  (with_errors collector (section_issues rest_config),
   Ok (with_errors collector (section_issues rest_config))).
Proof.
  intros Hrest (p & h & u & Hp & Hh & Hu & Hssl).
  rewrite <- (check_added _ _ _ Hrest).
  rewrite (surjective_pairing (_check config collector)) at 1. f_equal.
  unfold Rest._check at 1. rewrite then_collector_returns.
  - unfold Rest._check. now rewrite then_collector_added.
  - rewrite Hrest.
    unfold mbind at 1. unfold checker_bind. rewrite check_port_run, Hp.
    cbn [outcome]. unfold mbind at 1. unfold checker_bind.
    rewrite check_host_run, Hh. cbn [outcome].
    unfold Rest._check_https_settings. unfold mbind at 1. unfold checker_bind, read.
    rewrite Hu. destruct (truthy u); [| reflexivity].
    destruct (Hssl eq_refl) as (c & k & Hc & Hk).
    unfold mbind, checker_bind. rewrite check_ssl_setting_run, Hc. cbn [outcome].
    now rewrite check_ssl_setting_run, Hk.
Qed.

Lemma reported_with_errors (collector : IssueCollector) (added : list Issue) f :
  reported collector (with_errors collector added) f <->
  exists issue, In issue added /\ field issue = f.
Proof.
  split.
  - intros (added' & E & H). apply with_errors_inj in E. now subst.
  - intros H. now exists added.
Qed.

Lemma port_issues_field v issue : In issue (port_issues v) -> field issue = "port".
Proof.
  unfold port_issues. destruct (_ || _); simpl; [| tauto].
  now intros [<- | []].
Qed.

Lemma host_issues_field v issue : In issue (host_issues v) -> field issue = "host".
Proof.
  unfold host_issues. destruct (_ || _); simpl; [| tauto].
  now intros [<- | []].
Qed.

Lemma ssl_issues_field key v issue : In issue (ssl_issues key v) -> field issue = key.
Proof.
  unfold ssl_issues. destruct (negb (truthy v)); simpl; [now intros [<- | []] |].
  destruct (negb (isinstance_str v)); simpl; [now intros [<- | []] | tauto].
Qed.

(** An issue of [_check_https_settings]: HTTPS is on, and the issue is
    about the certificate or, the certificate being readable, the key. *)
Lemma https_issues_inv (rest_config : RestConfig) (issue : Issue) :
  In issue (https_issues rest_config) ->
  exists u c,
    use_https rest_config = Ok u /\ truthy u = true /\
    ssl_cert rest_config = Ok c /\
    (In issue (ssl_issues "ssl_cert" c) \/
     exists k, ssl_key rest_config = Ok k /\ In issue (ssl_issues "ssl_key" k)).
Proof.
  unfold Rest.https_issues, when_read.
  destruct (use_https rest_config) as [u|]; [| intros []].
  destruct (truthy u) eqn:Hu; [| intros []].
  destruct (ssl_cert rest_config) as [c|]; [| intros []].
  intros H. exists u, c. repeat split; try reflexivity; try assumption.
  apply in_app_or in H as [H | H]; [now left | right].
  destruct (ssl_key rest_config) as [k|]; [| destruct H]. now exists k.
Qed.

(** An issue of the check of a section, by the step that added it. *)
Lemma section_issues_inv (rest_config : RestConfig) (issue : Issue) :
  In issue (section_issues rest_config) ->
  exists p,
    port rest_config = Ok p /\
    (In issue (port_issues p) \/
     exists h, host rest_config = Ok h /\
               (In issue (host_issues h) \/ In issue (https_issues rest_config))).
Proof.
  unfold Rest.section_issues, when_read.
  destruct (port rest_config) as [p|]; [| intros []].
  intros H. exists p. split; [reflexivity |].
  apply in_app_or in H as [H | H]; [now left | right].
  destruct (host rest_config) as [h|]; [| destruct H].
  exists h. split; [reflexivity |]. apply in_app_or in H. tauto.
Qed.

Lemma https_issues_field (rest_config : RestConfig) (issue : Issue) :
  In issue (https_issues rest_config) ->
  field issue = "ssl_cert" \/ field issue = "ssl_key".
Proof.
  intros H. apply https_issues_inv in H as (u & c & _ & _ & _ & [H | (k & _ & H)]);
    apply ssl_issues_field in H; auto.
Qed.

Lemma port_in_range_iff (p : PyVal) :
  negb (isinstance_int p) || negb (in_port_range p) = false <->
  exists n : Z, int_value p = Some n /\ 1 <= n <= 65535.
Proof.
  unfold in_port_range. split.
  - intros E. apply orb_false_elim in E as [_ E]. apply negb_false_iff in E.
    destruct (int_value p) as [n|]; [| discriminate].
    exists n. split; [reflexivity | lia].
  - intros (n & E & Hn). rewrite E.
    replace (isinstance_int p) with true by (destruct p; try discriminate; reflexivity).
    simpl. apply negb_false_iff. apply andb_true_intro. split; lia.
Qed.

Lemma host_non_empty_iff (h : PyVal) :
  negb (isinstance_str h) || negb (truthy h) = false <->
  exists s : string, h = VStr s /\ s <> "".
Proof.
  split.
  - intros E. apply orb_false_elim in E as [E1 E2].
    destruct h; try discriminate. exists s. split; [reflexivity |].
    simpl in E2. apply negb_false_iff, negb_true_iff in E2.
    now apply eqb_neq in E2.
  - intros (s & -> & Hs). simpl. apply eqb_neq in Hs. now rewrite Hs.
Qed.


(** C5, as the code has it.  For a configuration with a unique section
    under [REST], the check leaves an error for the field [host] in the
    collector if and only if the port and the host of the section can be
    read (the port is read first, and a read that raises ends the check)
    and the host read is not a non-empty string. *)
Theorem check_reports_host (config : _Config) (collector : IssueCollector)
    (rest_config : RestConfig) :
  _unique_sections config !! name = Some rest_config ->
  reported collector (_check config collector).1 "host" <->
  exists p h : PyVal,
    port rest_config = Ok p /\ host rest_config = Ok h /\
    ~ exists s : string, h = VStr s /\ s <> "".
Proof.
  intros Hrest. rewrite (check_added _ _ _ Hrest).
  rewrite reported_with_errors. split.
  - intros (issue & HIn & Hf).
    apply section_issues_inv in HIn as (p & Hp & [H | (h & Hh & [H | H])]).
    + apply port_issues_field in H. congruence.
    + exists p, h. split; [exact Hp |]. split; [exact Hh |].
      rewrite <- host_non_empty_iff.
      unfold host_issues in H. now destruct (_ || _).
    + apply https_issues_field in H as [H | H]; congruence.
  - intros (p & h & Hp & Hh & E). rewrite <- host_non_empty_iff in E.
    apply not_false_is_true in E.
    eexists. split.
    + unfold Rest.section_issues. rewrite Hp, Hh. cbn [when_read].
      apply in_or_app. right. apply in_or_app. left.
      unfold host_issues. rewrite E. now left.
    + reflexivity.
Qed.

(** C4, as the code has it.  For a configuration with a unique section
    under [REST] whose [use_https] reads as [u]: when [u] is true and the
    port and the host can be read (they are checked first), the check leaves
    an error for [ssl_cert] in the collector if [ssl_cert] reads as unset
    ([None], or another false value), and one for [ssl_key] if [ssl_cert]
    can be read and [ssl_key] reads as unset; when [u] is false, it leaves
    no error for [ssl_cert] or [ssl_key]. *)
Theorem check_reports_https (config : _Config) (collector : IssueCollector)
    (rest_config : RestConfig) (u : PyVal) :
  _unique_sections config !! name = Some rest_config ->
  use_https rest_config = Ok u ->
  (truthy u = true ->
   forall p h : PyVal,
     port rest_config = Ok p -> host rest_config = Ok h ->
     (forall c : PyVal,
        ssl_cert rest_config = Ok c ->
        c = VNone \/ truthy c = false ->
        reported collector (_check config collector).1 "ssl_cert") /\
     (forall c k : PyVal,
        ssl_cert rest_config = Ok c -> ssl_key rest_config = Ok k ->
        k = VNone \/ truthy k = false ->
        reported collector (_check config collector).1 "ssl_key")) /\
  (truthy u = false ->
     ~ reported collector (_check config collector).1 "ssl_cert" /\
     ~ reported collector (_check config collector).1 "ssl_key").
Proof.
  intros Hrest Hu. rewrite (check_added _ _ _ Hrest). split.
  - intros Htrue p h Hp Hh.
    assert (Hadd : forall c tail,
              ssl_cert rest_config = Ok c ->
              when_read (ssl_key rest_config) (ssl_issues "ssl_key") = tail ->
              section_issues rest_config =
              (port_issues p ++ host_issues h ++
               ssl_issues "ssl_cert" c ++ tail)%list).
    { intros c tail Hc <-. unfold Rest.section_issues, Rest.https_issues.
      rewrite Hp, Hh, Hu. cbn [when_read]. now rewrite Htrue, Hc. }
    split.
    + intros c Hc Hunset. rewrite reported_with_errors, (Hadd c _ Hc eq_refl).
      assert (E : truthy c = false) by (destruct Hunset as [-> | ?]; auto).
      eexists. split.
      * apply in_or_app. right. apply in_or_app. right. apply in_or_app. left.
        unfold ssl_issues. rewrite E. now left.
      * reflexivity.
    + intros c k Hc Hk Hunset.
      rewrite reported_with_errors, (Hadd c _ Hc eq_refl), Hk. cbn [when_read].
      assert (E : truthy k = false) by (destruct Hunset as [-> | ?]; auto).
      eexists. split.
      * apply in_or_app. right. apply in_or_app. right. apply in_or_app. right.
        unfold ssl_issues. rewrite E. now left.
      * reflexivity.
  - intros Hfalse. rewrite !reported_with_errors.
    split; intros (issue & HIn & Hf);
      apply section_issues_inv in HIn as (p' & _ & [H | (h' & _ & [H | H])]);
      try (apply port_issues_field in H; congruence);
      try (apply host_issues_field in H; congruence);
      apply https_issues_inv in H as (u' & _ & Hu' & Htrue & _); congruence.
Qed.

End Checker.

(** *** [_to_dict] and [_from_dict] *)

Lemma settings_keys (c : RestConfig) : (settings c).*1 = reserved_keys.
Proof. reflexivity. Qed.

Lemma reserved_keys_NoDup : NoDup reserved_keys.
Proof. apply (bool_decide_unpack _). vm_compute. exact I. Qed.

(** Looking a key up in a dict comprehension that filters the items of a
    dict literal with distinct keys. *)
Lemma lookup_filtered (keep : string * PyVal -> bool) (l : list (string * PyVal)) (i : string) :
  NoDup l.*1 ->
  (list_to_map (List.filter keep l) : gmap string PyVal) !! i =
  match (list_to_map l : gmap string PyVal) !! i with
  | Some v => if keep (i, v) then Some v else None
  | None => None
  end.
Proof.
  induction l as [|[k v] l IH]; intros Hnd; [reflexivity |].
  apply NoDup_cons in Hnd as [Hk Hnd]. specialize (IH Hnd).
  cbn [List.filter].
  change (list_to_map ((k, v) :: l) : gmap string PyVal)
    with (<[k:=v]> (list_to_map l : gmap string PyVal)).
  destruct (keep (k, v)) eqn:E.
  - change (list_to_map ((k, v) :: List.filter keep l) : gmap string PyVal)
      with (<[k:=v]> (list_to_map (List.filter keep l) : gmap string PyVal)).
    destruct (decide (k = i)) as [-> | Hne].
    + rewrite !lookup_insert_eq. now rewrite E.
    + rewrite !lookup_insert_ne by done. exact IH.
  - destruct (decide (k = i)) as [-> | Hne].
    + rewrite lookup_insert_eq, E, IH.
      now rewrite (not_elem_of_list_to_map_1 _ _ Hk).
    + rewrite lookup_insert_ne by done. exact IH.
Qed.

Lemma to_dict_setting (c : RestConfig) (key : string) (v : PyVal) :
  (forall key, In key reserved_keys -> _properties c !! key = None) ->
  In (key, v) (settings c) ->
  _to_dict c !! key = if is_None v then None else Some v.
Proof.
  intros Hfree HIn. unfold _to_dict.
  rewrite lookup_union_r.
  2:{ apply Hfree. rewrite <- (settings_keys c). apply (in_map fst _ _ HIn). }
  rewrite lookup_filtered by (rewrite settings_keys; exact reserved_keys_NoDup).
  rewrite (elem_of_list_to_map_1 _ key v).
  - cbn. now destruct (is_None v).
  - rewrite settings_keys; exact reserved_keys_NoDup.
  - now apply list_elem_of_In.
Qed.

Lemma to_dict_other (c : RestConfig) (key : string) :
  ~ In key reserved_keys ->
  _to_dict c !! key = _properties c !! key.
Proof.
  intros Hkey. unfold _to_dict. apply lookup_union_l.
  rewrite lookup_filtered by (rewrite settings_keys; exact reserved_keys_NoDup).
  rewrite not_elem_of_list_to_map_1; [reflexivity |].
  rewrite settings_keys. now rewrite list_elem_of_In.
Qed.

Section RoundTrip.
Variable UniqueSection__init__ : gmap string PyVal -> result (gmap string PyVal).

Lemma restore_setting (v : PyVal) :
  match (if is_None v then None else Some v) with
  | Some x => x
  | None => VNone
  end = v.
Proof. now destruct v. Qed.

Lemma delete_settings (c : RestConfig) :
  (forall key, In key reserved_keys -> _properties c !! key = None) ->
  delete _SSL_KEY_KEY (delete _SSL_CERT_KEY (delete _USE_HTTPS_KEY
    (delete _HOST_KEY (delete _PORT_KEY (_to_dict c))))) = _properties c.
Proof.
  intros Hfree. apply map_eq. intros i.
  destruct (decide (In i reserved_keys)) as [Hi | Hi].
  - rewrite (Hfree _ Hi). simpl in Hi.
    destruct Hi as [<- | [<- | [<- | [<- | [<- | []]]]]];
      repeat first [ apply lookup_delete_eq | rewrite lookup_delete_ne by done ].
  - rewrite <- (to_dict_other c i Hi).
    repeat (rewrite lookup_delete_ne; [| intros <-; apply Hi; simpl; tauto]).
    reflexivity.
Qed.

(** C9, as the code has it.  For every [RestConfig] [c] whose properties
    hold none of the five reserved keys nor the key [self], and whose
    properties the constructor of the base class keeps as they are,
    [_from_dict(c._to_dict())] returns a [RestConfig] equal to [c] on the
    five settings and on the properties; [_to_dict] leaves out exactly the
    settings that are [None], which [_from_dict] then sets to [None]. *)
Theorem from_dict_to_dict (c : RestConfig) :
  (forall key, In key reserved_keys -> _properties c !! key = None) ->
  _properties c !! "self" = None ->
  UniqueSection__init__ (_properties c) = Ok (_properties c) ->
  _from_dict UniqueSection__init__ (_to_dict c) = Ok c /\
  (forall key v, In (key, v) (settings c) ->
     (v = VNone -> _to_dict c !! key = None) /\
     (v <> VNone -> _to_dict c !! key = Some v)).
Proof.
  intros Hfree Hself Hinit. split.
  - unfold _from_dict, pop.
    rewrite !lookup_delete_ne by done.
    rewrite (to_dict_setting c _PORT_KEY (_port c)),
            (to_dict_setting c _HOST_KEY (_host c)),
            (to_dict_setting c _USE_HTTPS_KEY (_use_https c)),
            (to_dict_setting c _SSL_CERT_KEY (_ssl_cert c)),
            (to_dict_setting c _SSL_KEY_KEY (_ssl_key c));
      try assumption; try (simpl; tauto).
    rewrite !restore_setting, (delete_settings c Hfree).
    unfold __init__. cbn [existsb parameter_names].
    rewrite Hself, !Hfree by (simpl; tauto). cbn.
    rewrite Hinit. cbn. now destruct c.
  - intros key v HIn. rewrite (to_dict_setting c key v Hfree HIn). split.
    + now intros ->.
    + intros Hv. now destruct v.
Qed.

End RoundTrip.

(** *** Closed instances *)

(** The issues of the four checker tests of [tests/rest/test_rest_config.py],
    by field and in order; the check returns in the four of them. *)
Example checker_tests :
  map (fun rest_config =>
         let '(after, returned) :=
           _check replace_templates_unset (with_rest rest_config) no_issue in
         (map field (errors after), warnings after, infos after,
          match returned with Ok _ => true | Raise _ => false end))
    [valid_config; invalid_port_and_host; https_missing_cert_and_key;
     https_invalid_cert_and_key] =
  [([], [], [], true); (["port"; "host"], [], [], true);
   (["ssl_cert"; "ssl_key"], [], [], true);
   (["ssl_cert"; "ssl_key"], [], [], true)].
Proof. vm_compute. reflexivity. Qed.

(** [True] is an [int] instance equal to 1: no error for such a port. *)
Example port_True_accepted : port_issues (VBool true) = [].
Proof. reflexivity. Qed.

(** A section whose port is a template of a variable that is not set: the
    check raises what reading the property raises, and reports nothing. *)
Example check_unset_port :
  _check replace_templates_unset
    (with_rest {| _port := VStr "ENV[PORT]:int"; _host := VStr "";
                  _use_https := VBool false; _ssl_cert := VNone;
                  _ssl_key := VNone; _properties := ∅ |})
    no_issue = (no_issue, Raise (HandlerError "MissingEnvVariableError")).
Proof. vm_compute. reflexivity. Qed.

(** A wrong port and a host that cannot be read: the error for the port is
    in the collector when the check raises. *)
Example check_unset_host :
  let '(after, returned) :=
    _check replace_templates_unset
      (with_rest {| _port := VInt 70000; _host := VStr "ENV[HOST]";
                    _use_https := VBool false; _ssl_cert := VNone;
                    _ssl_key := VNone; _properties := ∅ |})
      no_issue in
  (map field (errors after), returned) =
  (["port"], Raise (HandlerError "MissingEnvVariableError")).
Proof. vm_compute. reflexivity. Qed.

Example valid_config_readable : readable replace_templates_unset valid_config.
Proof.
  exists (VInt 8080), (VStr "0.0.0.0"), (VBool true).
  repeat split. intros _. now exists (VStr "cert.pem"), (VStr "key.pem").
Qed.

(** The check of [unset_port_section] raises at the first read and leaves
    the collector as it was. *)
Lemma check_unset_port_section :
  (_check replace_templates_unset (with_rest unset_port_section) no_issue).1
  = with_errors no_issue [].
Proof. reflexivity. Qed.



(** The theorem for C5 at the same configuration, whose host is empty. *)
Lemma check_reports_host_witness :
  _unique_sections (with_rest invalid_port_and_host) !! name
    = Some invalid_port_and_host /\
  (reported no_issue
     (_check replace_templates_unset (with_rest invalid_port_and_host) no_issue).1
     "host" <->
   exists p h : PyVal,
     port replace_templates_unset invalid_port_and_host = Ok p /\
     host replace_templates_unset invalid_port_and_host = Ok h /\
     ~ exists s : string, h = VStr s /\ s <> "").
Proof.
  split; [reflexivity |].
  exact (check_reports_host replace_templates_unset
           (with_rest invalid_port_and_host) no_issue invalid_port_and_host
           eq_refl).
Defined.

(** C5 fails on [unset_port_section]: its host is the empty string, which
    reads as it is, and the check raises when it reads the port, before it
    looks at the host: no error is reported for the host. *)
Lemma check_reports_host_counterexample :
  _unique_sections (with_rest unset_port_section) !! name = Some unset_port_section /\
  host replace_templates_unset unset_port_section = Ok (VStr "") /\
  (~ exists s : string, VStr "" = VStr s /\ s <> "") /\
  ~ reported no_issue
      (_check replace_templates_unset (with_rest unset_port_section) no_issue).1 "host".
Proof.
  split; [reflexivity |]. split; [reflexivity |].
  split; [intros (s & [= <-] & Hs); now apply Hs |].
  rewrite check_unset_port_section, reported_with_errors. intros (issue & [] & _).
Qed.

(** The theorem for C4 at the configuration of
    [test_rest_config_checker_https_missing_cert_and_key]. *)
Lemma check_reports_https_witness :
  let config := with_rest https_missing_cert_and_key in
  let after := (_check replace_templates_unset config no_issue).1 in
  _unique_sections config !! name = Some https_missing_cert_and_key /\
  use_https replace_templates_unset https_missing_cert_and_key = Ok (VBool true) /\
  truthy (VBool true) = true /\
  port replace_templates_unset https_missing_cert_and_key = Ok (VInt 5000) /\
  host replace_templates_unset https_missing_cert_and_key = Ok (VStr "127.0.0.1") /\
  ssl_cert replace_templates_unset https_missing_cert_and_key = Ok VNone /\
  ssl_key replace_templates_unset https_missing_cert_and_key = Ok VNone /\
  reported no_issue after "ssl_cert" /\
  reported no_issue after "ssl_key".
Proof.
  intros config after.
  destruct (check_reports_https replace_templates_unset config no_issue
              https_missing_cert_and_key (VBool true) eq_refl eq_refl)
    as [Hon _].
  destruct (Hon eq_refl (VInt 5000) (VStr "127.0.0.1") eq_refl eq_refl)
    as [Hcert Hkey].
  repeat (split; [reflexivity |]).
  split.
  - apply (Hcert VNone); [reflexivity | now left].
  - apply (Hkey VNone VNone); [reflexivity | reflexivity | now left].
Defined.

(** C4 fails on [unset_port_section]: HTTPS is on and the certificate is
    [None], and the check raises when it reads the port, before it looks at
    the HTTPS settings: no error is reported for [ssl_cert] or [ssl_key]. *)
Lemma check_reports_https_counterexample :
  let after :=
    (_check replace_templates_unset (with_rest unset_port_section) no_issue).1 in
  _unique_sections (with_rest unset_port_section) !! name = Some unset_port_section /\
  use_https replace_templates_unset unset_port_section = Ok (VBool true) /\
  ssl_cert replace_templates_unset unset_port_section = Ok VNone /\
  ssl_key replace_templates_unset unset_port_section = Ok VNone /\
  ~ reported no_issue after "ssl_cert" /\
  ~ reported no_issue after "ssl_key".
Proof.
  intros after. do 4 (split; [reflexivity |]). unfold after.
  rewrite check_unset_port_section, !reported_with_errors.
  split; intros (issue & [] & _).
Qed.

(** [_update] puts any key of the dict it is given among the properties:
    the default section updated with [{"self": 1}]. *)
Example update_self_property :
  (default ← default_config keep_properties;
   _update replace_templates_unset default {[ "self" := VInt 1 ]})
  = Ok with_self_property.
Proof. vm_compute. reflexivity. Qed.

(** The theorem for C9 at the configuration of
    [test_rest_config_checker_https_missing_cert_and_key], whose certificate
    and key are [None], with one more property. *)
Lemma from_dict_to_dict_witness :
  let c := {| _port := VInt 5000; _host := VStr "127.0.0.1";
              _use_https := VBool true; _ssl_cert := VNone; _ssl_key := VNone;
              _properties := {[ "title" := VStr "api" ]} |} in
  (forall key, In key reserved_keys -> _properties c !! key = None) /\
  _properties c !! "self" = None /\
  keep_properties (_properties c) = Ok (_properties c) /\
  _from_dict keep_properties (_to_dict c) = Ok c /\
  _to_dict c !! _SSL_CERT_KEY = None /\
  _to_dict c !! _PORT_KEY = Some (VInt 5000).
Proof.
  intros c.
  assert (Hfree : forall key, In key reserved_keys -> _properties c !! key = None).
  { intros key Hkey. simpl in Hkey.
    destruct Hkey as [<- | [<- | [<- | [<- | [<- | []]]]]]; reflexivity. }
  destruct (from_dict_to_dict keep_properties c Hfree eq_refl eq_refl) as [Hback Hdict].
  split; [exact Hfree |]. split; [reflexivity |]. split; [reflexivity |].
  split; [exact Hback |]. split.
  - apply (Hdict _SSL_CERT_KEY VNone); [simpl; tauto | reflexivity].
  - apply (Hdict _PORT_KEY (VInt 5000)); [simpl; tauto | discriminate].
Defined.

(** C9 fails on the default section with the property [self], which holds
    none of the five reserved keys: [_to_dict] gives [self] back as a key,
    and the call of the constructor in [_from_dict] raises [TypeError],
    whatever the constructor of the base class does. *)
Lemma from_dict_to_dict_counterexample :
  (forall key, In key reserved_keys -> _properties with_self_property !! key = None) /\
  forall UniqueSection__init__,
    _from_dict UniqueSection__init__ (_to_dict with_self_property) = Raise TypeError.
Proof.
  split.
  - intros key Hkey. simpl in Hkey.
    destruct Hkey as [<- | [<- | [<- | [<- | [<- | []]]]]]; reflexivity.
  - intros U. vm_compute. reflexivity.
Qed.

(** *** [_update], [__copy__] and the dicts of a section *)

Lemma without_settings_reserved (d : gmap string PyVal) (key : string) :
  In key reserved_keys -> without_settings d !! key = None.
Proof.
  intros Hkey. unfold without_settings. simpl in Hkey.
  destruct Hkey as [<- | [<- | [<- | [<- | [<- | []]]]]];
    repeat first [ apply lookup_delete_eq | rewrite lookup_delete_ne by done ].
Qed.

Lemma without_settings_other (d : gmap string PyVal) (key : string) :
  ~ In key reserved_keys -> without_settings d !! key = d !! key.
Proof.
  intros Hkey. unfold without_settings.
  repeat (rewrite lookup_delete_ne; [| intros <-; apply Hkey; simpl; tauto]).
  reflexivity.
Qed.

Lemma pop_value (key : string) (default_value : PyVal) (d : gmap string PyVal) :
  (pop key default_value d).1 = default default_value (d !! key).
Proof. unfold pop. cbn. now destruct (d !! key). Qed.

Section Update.
Variable _replace_templates : PyVal -> result PyVal.

Local Abbreviation port := (Rest.port _replace_templates).
Local Abbreviation host := (Rest.host _replace_templates).
Local Abbreviation use_https := (Rest.use_https _replace_templates).
Local Abbreviation ssl_cert := (Rest.ssl_cert _replace_templates).
Local Abbreviation ssl_key := (Rest.ssl_key _replace_templates).
Local Abbreviation ssl_context := (Rest.ssl_context _replace_templates).
Local Abbreviation _update := (Rest._update _replace_templates).
Local Abbreviation _check := (Rest._check _replace_templates).
Local Abbreviation section_issues := (Rest.section_issues _replace_templates).
Local Abbreviation https_issues := (Rest.https_issues _replace_templates).
Local Abbreviation readable := (Rest.readable _replace_templates).
Local Abbreviation all_readable := (Rest.all_readable _replace_templates).

(** [_update] when the five properties can be read. *)
Lemma update_run (c : RestConfig) (d : gmap string PyVal) (p h u ce k : PyVal) :
  port c = Ok p -> host c = Ok h -> use_https c = Ok u ->
  ssl_cert c = Ok ce -> ssl_key c = Ok k ->
  _update c d =
  Ok {| _port := default p (d !! _PORT_KEY);
        _host := default h (d !! _HOST_KEY);
        _use_https := default u (d !! _USE_HTTPS_KEY);
        _ssl_cert := default ce (d !! _SSL_CERT_KEY);
        _ssl_key := default k (d !! _SSL_KEY_KEY);
        _properties := without_settings d ∪ _properties c |}.
Proof.
  intros Hp Hh Hu Hce Hk. unfold Rest._update, pop.
  rewrite Hp, Hh, Hu, Hce, Hk. cbn [mbind result_bind].
  rewrite !lookup_delete_ne by done.
  unfold without_settings.
  destruct (d !! _PORT_KEY), (d !! _HOST_KEY), (d !! _USE_HTTPS_KEY),
    (d !! _SSL_CERT_KEY), (d !! _SSL_KEY_KEY); reflexivity.
Qed.

Lemma update_inv (c c' : RestConfig) (d : gmap string PyVal) :
  _update c d = Ok c' ->
  exists p h u ce k,
    port c = Ok p /\ host c = Ok h /\ use_https c = Ok u /\
    ssl_cert c = Ok ce /\ ssl_key c = Ok k.
Proof.
  unfold Rest._update, pop.
  destruct (port c) as [p|]; [| discriminate].
  destruct (host c) as [h|]; [| discriminate].
  destruct (use_https c) as [u|]; [| discriminate].
  destruct (ssl_cert c) as [ce|]; [| discriminate].
  destruct (ssl_key c) as [k|]; [| discriminate].
  intros _. now exists p, h, u, ce, k.
Qed.

(** X14.  [_update] reads the five properties of the section before it
    looks at the dict: it returns exactly when the five can be read, and
    when the port cannot, it raises what the read raises, even if the dict
    holds a new port. *)
Theorem update_reads_settings (c : RestConfig) (d : gmap string PyVal) :
  ((exists c', _update c d = Ok c') <-> all_readable c) /\
  (forall e, port c = Raise e -> _update c d = Raise e).
Proof.
  split; [split |].
  - intros [c' E]. exact (update_inv _ _ _ E).
  - intros (p & h & u & ce & k & Hp & Hh & Hu & Hce & Hk).
    eexists. apply (update_run c d p h u ce k); assumption.
  - intros e He. unfold Rest._update. now rewrite He.
Qed.

(** X15.  After [_update], a setting is the value the dict holds for its
    key or, when the dict has no such key, the value its property read
    as, which is a template no more; the dict's other items are among the
    properties, over the ones that were there; and none of the five keys
    of the settings gets among the properties. *)
Theorem update_effect (c c' : RestConfig) (d : gmap string PyVal) :
  _update c d = Ok c' ->
  exists p h u ce k,
    port c = Ok p /\ host c = Ok h /\ use_https c = Ok u /\
    ssl_cert c = Ok ce /\ ssl_key c = Ok k /\
    _port c' = default p (d !! _PORT_KEY) /\
    _host c' = default h (d !! _HOST_KEY) /\
    _use_https c' = default u (d !! _USE_HTTPS_KEY) /\
    _ssl_cert c' = default ce (d !! _SSL_CERT_KEY) /\
    _ssl_key c' = default k (d !! _SSL_KEY_KEY) /\
    (forall key, In key reserved_keys ->
                 _properties c' !! key = _properties c !! key) /\
    (forall key, ~ In key reserved_keys ->
                 _properties c' !! key =
                 match d !! key with
                 | Some v => Some v
                 | None => _properties c !! key
                 end).
Proof.
  intros E. destruct (update_inv _ _ _ E) as (p & h & u & ce & k & Hp & Hh & Hu & Hce & Hk).
  rewrite (update_run c d p h u ce k) in E by assumption. injection E as <-.
  exists p, h, u, ce, k.
  cbn [_port _host _use_https _ssl_cert _ssl_key _properties].
  repeat split; try assumption.
  - intros key Hkey. apply lookup_union_r. now apply without_settings_reserved.
  - intros key Hkey. rewrite lookup_union, (without_settings_other d key Hkey).
    destruct (d !! key), (_properties c !! key); reflexivity.
Qed.

(** X16.  A section that [_update] was given the key [self] for cannot be
    copied: [__copy__] raises [TypeError], whatever the constructor of the
    base class does.  A section whose properties hold no name of a
    parameter of the constructor, and are kept by the base class as they
    are, is copied to an equal section. *)
Theorem copy_after_update
    (UniqueSection__init__ : gmap string PyVal -> result (gmap string PyVal))
    (c : RestConfig) :
  (forall c' d, _update c d = Ok c' -> is_Some (d !! "self") ->
                __copy__ UniqueSection__init__ c' = Raise TypeError) /\
  ((forall parameter, In parameter parameter_names ->
                      _properties c !! parameter = None) ->
   UniqueSection__init__ (_properties c) = Ok (_properties c) ->
   __copy__ UniqueSection__init__ c = Ok c).
Proof.
  split.
  - intros c' d E [v Hself].
    destruct (update_inv _ _ _ E) as (p & h & u & ce & k & Hp & Hh & Hu & Hce & Hk).
    rewrite (update_run c d p h u ce k) in E by assumption. injection E as <-.
    unfold __copy__, __init__. cbn [_properties existsb parameter_names].
    rewrite (lookup_union_Some_l _ _ _ v); [reflexivity |].
    rewrite without_settings_other; [exact Hself |].
    cbn. intros HIn. repeat (destruct HIn as [? | HIn]; [discriminate |]).
    destruct HIn.
  - intros Hfree Hinit. unfold __copy__, __init__.
    cbn [existsb parameter_names].
    rewrite !Hfree by (simpl; tauto). cbn. rewrite Hinit. cbn. now destruct c.
Qed.

End Update.

(** X17.  A dict that has no key [self], holds [None] for none of the five
    settings, and whose other items the base class keeps as the properties,
    comes back from [_to_dict] after [_from_dict] as it was. *)
Theorem to_dict_from_dict
    (UniqueSection__init__ : gmap string PyVal -> result (gmap string PyVal))
    (d : gmap string PyVal) :
  d !! "self" = None ->
  UniqueSection__init__ (without_settings d) = Ok (without_settings d) ->
  (forall key, In key reserved_keys -> d !! key <> Some VNone) ->
  exists c, _from_dict UniqueSection__init__ d = Ok c /\ _to_dict c = d.
Proof.
  intros Hself Hinit Hset.
  set (c := {| _port := default VNone (d !! _PORT_KEY);
               _host := default VNone (d !! _HOST_KEY);
               _use_https := default VNone (d !! _USE_HTTPS_KEY);
               _ssl_cert := default VNone (d !! _SSL_CERT_KEY);
               _ssl_key := default VNone (d !! _SSL_KEY_KEY);
               _properties := without_settings d |}).
  assert (Hfree : forall key, In key reserved_keys -> _properties c !! key = None)
    by exact (without_settings_reserved d).
  exists c. split.
  - unfold _from_dict, pop. rewrite !lookup_delete_ne by done.
    fold (without_settings d). unfold __init__.
    cbn [existsb parameter_names].
    rewrite (without_settings_other d "self"), Hself.
    2:{ cbn. intros HIn. repeat (destruct HIn as [? | HIn]; [discriminate |]).
        destruct HIn. }
    rewrite !without_settings_reserved by (simpl; tauto).
    cbn -[without_settings]. rewrite Hinit. cbn -[without_settings].
    unfold c.
    destruct (d !! _PORT_KEY), (d !! _HOST_KEY), (d !! _USE_HTTPS_KEY),
      (d !! _SSL_CERT_KEY), (d !! _SSL_KEY_KEY); reflexivity.
  - apply map_eq. intros key.
    destruct (decide (In key reserved_keys)) as [Hkey | Hkey].
    + assert (HIn : In (key, default VNone (d !! key)) (settings c)).
      { simpl in Hkey.
        destruct Hkey as [<- | [<- | [<- | [<- | [<- | []]]]]]; cbn; tauto. }
      rewrite (to_dict_setting c key _ Hfree HIn).
      specialize (Hset key Hkey).
      destruct (d !! key) as [[]|]; cbn; try reflexivity. now destruct Hset.
    + rewrite (to_dict_other c key Hkey). cbn [_properties c].
      now apply without_settings_other.
Qed.

(** *** More on the checker *)

Section CheckerOutcome.
Variable _replace_templates : PyVal -> result PyVal.

Local Abbreviation port := (Rest.port _replace_templates).
Local Abbreviation host := (Rest.host _replace_templates).
Local Abbreviation use_https := (Rest.use_https _replace_templates).
Local Abbreviation ssl_cert := (Rest.ssl_cert _replace_templates).
Local Abbreviation ssl_key := (Rest.ssl_key _replace_templates).
Local Abbreviation ssl_context := (Rest.ssl_context _replace_templates).
Local Abbreviation _check_https_settings := (Rest._check_https_settings _replace_templates).
Local Abbreviation _check := (Rest._check _replace_templates).
Local Abbreviation section_issues := (Rest.section_issues _replace_templates).
Local Abbreviation https_issues := (Rest.https_issues _replace_templates).
Local Abbreviation readable := (Rest.readable _replace_templates).

(** [_check_https_settings]: the collector afterwards and the outcome. *)
Lemma check_https_settings_run (rest_config : RestConfig) (collector : IssueCollector) :
  _check_https_settings rest_config collector =
  (with_errors collector (https_issues rest_config),
   u ← use_https rest_config;
   if truthy u then
     outcome (ssl_cert rest_config);; outcome (ssl_key rest_config)
   else Ok tt).
Proof.
  unfold Rest._check_https_settings, Rest.https_issues.
  unfold mbind at 1. unfold checker_bind, read.
  destruct (use_https rest_config) as [u|e]; cbn [when_read mbind result_bind];
    [| now rewrite with_errors_nil].
  destruct (truthy u); [| cbn; now rewrite with_errors_nil].
  unfold mbind at 1. unfold checker_bind. rewrite check_ssl_setting_run.
  destruct (ssl_cert rest_config) as [c|e]; cbn [when_read outcome mbind result_bind].
  - rewrite check_ssl_setting_run. now rewrite with_errors_app.
  - reflexivity.
Qed.

(** [_check] on a configuration with a section under [REST]: the
    collector afterwards, and what the call returns or raises. *)
Lemma check_run (config : _Config) (collector : IssueCollector)
    (rest_config : RestConfig) :
  _unique_sections config !! name = Some rest_config ->
  _check config collector =
  (with_errors collector (section_issues rest_config),
   outcome (port rest_config);; outcome (host rest_config);;
   (u ← use_https rest_config;
    if truthy u then
      outcome (ssl_cert rest_config);; outcome (ssl_key rest_config)
    else Ok tt);;
   Ok (with_errors collector (section_issues rest_config))).
Proof.
  intros Hrest. unfold Rest._check, Rest.section_issues. rewrite Hrest.
  unfold mbind at 1. unfold checker_bind.
  unfold mbind at 1. unfold checker_bind. rewrite check_port_run.
  destruct (port rest_config) as [p|e]; cbn [when_read outcome mbind result_bind];
    [| reflexivity].
  unfold mbind at 1. unfold checker_bind. rewrite check_host_run.
  destruct (host rest_config) as [h|e]; cbn [when_read outcome mbind result_bind].
  - rewrite check_https_settings_run, !with_errors_app.
    destruct (use_https rest_config) as [u|e]; cbn [mbind result_bind];
      [| reflexivity].
    destruct (truthy u); [| reflexivity].
    destruct (ssl_cert rest_config) as [c|e]; cbn [outcome mbind result_bind];
      [| reflexivity].
    now destruct (ssl_key rest_config).
  - now rewrite with_errors_app, !app_nil_r.
Qed.

Lemma port_issues_order (v : PyVal) : sublist (map field (port_issues v)) ["port"].
Proof. unfold port_issues. destruct (_ || _); repeat constructor. Qed.

Lemma host_issues_order (v : PyVal) : sublist (map field (host_issues v)) ["host"].
Proof. unfold host_issues. destruct (_ || _); repeat constructor. Qed.

Lemma ssl_issues_order (key : string) (v : PyVal) :
  sublist (map field (ssl_issues key v)) [key].
Proof.
  unfold ssl_issues. destruct (negb (truthy v)); [repeat constructor |].
  destruct (negb (isinstance_str v)); repeat constructor.
Qed.

Lemma section_issues_order (rest_config : RestConfig) :
  sublist (map field (section_issues rest_config))
    ["port"; "host"; "ssl_cert"; "ssl_key"].
Proof.
  unfold Rest.section_issues, Rest.https_issues, when_read.
  destruct (port rest_config) as [p|]; [| apply sublist_nil_l].
  rewrite map_app. apply (sublist_app _ ["port"] _ ["host"; "ssl_cert"; "ssl_key"]);
    [apply port_issues_order |].
  destruct (host rest_config) as [h|]; [| apply sublist_nil_l].
  rewrite map_app. apply (sublist_app _ ["host"] _ ["ssl_cert"; "ssl_key"]);
    [apply host_issues_order |].
  destruct (use_https rest_config) as [u|]; [| apply sublist_nil_l].
  destruct (truthy u); [| apply sublist_nil_l].
  destruct (ssl_cert rest_config) as [c|]; [| apply sublist_nil_l].
  rewrite map_app. apply (sublist_app _ ["ssl_cert"] _ ["ssl_key"]);
    [apply ssl_issues_order |].
  destruct (ssl_key rest_config) as [k|]; [| apply sublist_nil_l].
  apply ssl_issues_order.
Qed.

(** X18.  Whatever the configuration, and whether the check returns or
    raises, [_check] only adds errors at the end of the collector, and
    leaves its warnings and infos as they are; the fields of the errors it
    adds are some of [port], [host], [ssl_cert], [ssl_key], in this order
    and each at most once. *)
Theorem check_adds_in_order (config : _Config) (collector : IssueCollector) :
  exists added,
    (_check config collector).1 = with_errors collector added /\
    sublist (map field added) ["port"; "host"; "ssl_cert"; "ssl_key"].
Proof.
  destruct (_unique_sections config !! name) as [rest_config|] eqn:Hrest.
  - exists (section_issues rest_config). split.
    + now apply check_added.
    + apply section_issues_order.
  - exists []. rewrite (check_without_section _ _ _ Hrest). split.
    + now rewrite with_errors_nil.
    + apply sublist_nil_l.
Qed.

Lemma port_issues_nil (p : PyVal) :
  port_issues p = [] <-> exists n : Z, int_value p = Some n /\ 1 <= n <= 65535.
Proof.
  rewrite <- port_in_range_iff. unfold port_issues.
  destruct (_ || _); split; congruence.
Qed.

Lemma host_issues_nil (h : PyVal) : host_issues h = [] <-> non_empty_str h.
Proof.
  unfold non_empty_str. rewrite <- host_non_empty_iff. unfold host_issues.
  destruct (_ || _); split; congruence.
Qed.

Lemma ssl_issues_nil (key : string) (v : PyVal) :
  ssl_issues key v = [] <-> non_empty_str v.
Proof.
  unfold ssl_issues, non_empty_str. split.
  - destruct (truthy v) eqn:Ht; cbn [negb]; [| discriminate].
    destruct v; cbn [isinstance_str negb]; try discriminate.
    intros _. exists s. split; [reflexivity |].
    cbn in Ht. apply negb_true_iff in Ht. now apply eqb_neq in Ht.
  - intros (s & -> & Hs). cbn. apply eqb_neq in Hs. now rewrite Hs.
Qed.

Lemma check_unchanged_iff (config : _Config) (collector : IssueCollector)
    (rest_config : RestConfig) :
  _unique_sections config !! name = Some rest_config ->
  (_check config collector).1 = collector <-> section_issues rest_config = [].
Proof.
  intros Hrest. rewrite (check_added _ _ _ _ Hrest). split.
  - intros E. apply (with_errors_inj collector). now rewrite with_errors_nil.
  - intros ->. apply with_errors_nil.
Qed.

(** X19.  For a section whose properties can be read, the check adds no
    error exactly when the port is an integer between 1 and 65535, the host
    is a non-empty string and, with HTTPS on, the certificate and the key
    are non-empty strings. *)
Theorem check_accepts (config : _Config) (collector : IssueCollector)
    (rest_config : RestConfig) (p h u : PyVal) :
  _unique_sections config !! name = Some rest_config ->
  port rest_config = Ok p -> host rest_config = Ok h ->
  use_https rest_config = Ok u ->
  (truthy u = true ->
   exists c k, ssl_cert rest_config = Ok c /\ ssl_key rest_config = Ok k) ->
  (_check config collector).1 = collector <->
  (exists n : Z, int_value p = Some n /\ 1 <= n <= 65535) /\
  non_empty_str h /\
  (truthy u = true ->
   exists c k, ssl_cert rest_config = Ok c /\ ssl_key rest_config = Ok k /\
               non_empty_str c /\ non_empty_str k).
Proof.
  intros Hrest Hp Hh Hu Hssl. rewrite (check_unchanged_iff _ _ _ Hrest).
  unfold Rest.section_issues, Rest.https_issues. rewrite Hp, Hh, Hu.
  cbn [when_read]. rewrite <- port_issues_nil, <- host_issues_nil.
  destruct (truthy u).
  - destruct (Hssl eq_refl) as (c & k & Hc & Hk). rewrite Hc, Hk. cbn [when_read].
    split.
    + intros E. apply app_eq_nil in E as [E1 E]. apply app_eq_nil in E as [E2 E].
      apply app_eq_nil in E as [E3 E4]. repeat split; try assumption.
      intros _. exists c, k. repeat split.
      * now apply (ssl_issues_nil "ssl_cert").
      * now apply (ssl_issues_nil "ssl_key").
    + intros (E1 & E2 & E). destruct (E eq_refl) as (c' & k' & Hc' & Hk' & E3 & E4).
      injection Hc' as <-. injection Hk' as <-.
      apply (ssl_issues_nil "ssl_cert") in E3. apply (ssl_issues_nil "ssl_key") in E4.
      now rewrite E1, E2, E3, E4.
  - rewrite app_nil_r. split.
    + intros E. apply app_eq_nil in E as [E1 E2]. repeat split; try assumption.
      discriminate.
    + intros (E1 & E2 & _). now rewrite E1, E2.
Qed.

(** X20.  For a configuration with a section under [REST], [_check]
    returns exactly when the properties can be read as far as it reads them
    (the certificate and the key only with HTTPS on), and what it returns
    is the collector it has been adding to; it raises an exception exactly
    when that exception is raised by the first read that raises, in the
    order port, host, [use_https] and, with HTTPS on, certificate, key. *)
Theorem check_returns_iff (config : _Config) (collector : IssueCollector)
    (rest_config : RestConfig) :
  _unique_sections config !! name = Some rest_config ->
  ((exists returned, (_check config collector).2 = Ok returned) <->
   readable rest_config) /\
  (forall returned,
     (_check config collector).2 = Ok returned ->
     returned = (_check config collector).1) /\
  (forall e,
     (_check config collector).2 = Raise e <->
     port rest_config = Raise e \/
     (exists p, port rest_config = Ok p /\ host rest_config = Raise e) \/
     (exists p h,
        port rest_config = Ok p /\ host rest_config = Ok h /\
        use_https rest_config = Raise e) \/
     (exists p h u,
        port rest_config = Ok p /\ host rest_config = Ok h /\
        use_https rest_config = Ok u /\ truthy u = true /\
        ssl_cert rest_config = Raise e) \/
     (exists p h u c,
        port rest_config = Ok p /\ host rest_config = Ok h /\
        use_https rest_config = Ok u /\ truthy u = true /\
        ssl_cert rest_config = Ok c /\ ssl_key rest_config = Raise e)).
Proof.
  intros Hrest. rewrite (check_run _ _ _ Hrest). cbn [fst snd].
  split; [split | split].
  - intros [returned E].
    destruct (port rest_config) as [p|] eqn:Hp; [| discriminate].
    destruct (host rest_config) as [h|] eqn:Hh; [| discriminate].
    destruct (use_https rest_config) as [u|] eqn:Hu; [| discriminate].
    exists p, h, u. do 3 (split; [assumption |]). intros Ht.
    cbn [outcome mbind result_bind] in E. rewrite Ht in E.
    destruct (ssl_cert rest_config) as [c|] eqn:Hc; [| discriminate].
    destruct (ssl_key rest_config) as [k|] eqn:Hk; [| discriminate].
    now exists c, k.
  - intros (p & h & u & Hp & Hh & Hu & Hssl). rewrite Hp, Hh, Hu.
    cbn [outcome mbind result_bind]. destruct (truthy u); [| eauto].
    destruct (Hssl eq_refl) as (c & k & -> & ->). cbn. eauto.
  - intros returned.
    destruct (port rest_config) as [p|]; [| discriminate].
    destruct (host rest_config) as [h|]; [| discriminate].
    destruct (use_https rest_config) as [u|]; [| discriminate].
    cbn [outcome mbind result_bind]. destruct (truthy u).
    + destruct (ssl_cert rest_config) as [c|]; [| discriminate].
      destruct (ssl_key rest_config) as [k|]; [| discriminate].
      cbn. congruence.
    + cbn. congruence.
  - intros e.
    destruct (port rest_config) as [p|e0]; cbn [outcome mbind result_bind].
    2:{ split; [intros [= <-]; now left |].
        intros [H | [(?&H&_) | [(?&?&H&_) | [(?&?&?&H&_) | (?&?&?&?&H&_)]]]];
          congruence. }
    destruct (host rest_config) as [h|e0]; cbn [outcome mbind result_bind].
    2:{ split; [intros [= <-]; right; left; now exists p |].
        intros [H | [(?&_&H) | [(?&?&_&H&_) | [(?&?&?&_&H&_) | (?&?&?&?&_&H&_)]]]];
          congruence. }
    destruct (use_https rest_config) as [u|e0]; cbn [outcome mbind result_bind].
    2:{ split; [intros [= <-]; right; right; left; now exists p, h |].
        intros [H | [(?&_&H) | [(?&?&_&_&H) | [(?&?&?&_&_&H&_) | (?&?&?&?&_&_&H&_)]]]];
          congruence. }
    destruct (truthy u) eqn:Ht.
    2:{ split; [discriminate |].
        intros [H | [(?&_&H) | [(?&?&_&_&H) | [(?&?&?&_&_&[= <-]&H&_)
                                               | (?&?&?&?&_&_&[= <-]&H&_)]]]];
          congruence. }
    destruct (ssl_cert rest_config) as [c|e0]; cbn [outcome mbind result_bind].
    2:{ split; [intros [= <-]; right; right; right; left; now exists p, h, u |].
        intros [H | [(?&_&H) | [(?&?&_&_&H) | [(?&?&?&_&_&_&_&H)
                                               | (?&?&?&?&_&_&_&_&H&_)]]]];
          congruence. }
    destruct (ssl_key rest_config) as [k|e0]; cbn [outcome mbind result_bind].
    + split; [discriminate |].
      intros [H | [(?&_&H) | [(?&?&_&_&H) | [(?&?&?&_&_&_&_&H)
                                             | (?&?&?&?&_&_&_&_&_&H)]]]];
        congruence.
    + split; [intros [= <-]; right; right; right; right; now exists p, h, u, c |].
      intros [H | [(?&_&H) | [(?&?&_&_&H) | [(?&?&?&_&_&_&_&H)
                                             | (?&?&?&?&_&_&_&_&_&H)]]]];
        congruence.
Qed.

(** X21.  When the check has added no error for a section whose properties
    can be read, [ssl_context] is [None], HTTPS being off, or the pair of
    the certificate and the key as they are read, in this order, two
    non-empty strings. *)
Theorem ssl_context_after_check (config : _Config) (collector : IssueCollector)
    (rest_config : RestConfig) :
  _unique_sections config !! name = Some rest_config ->
  readable rest_config ->
  (_check config collector).1 = collector ->
  exists context,
    ssl_context rest_config = Ok context /\
    match context with
    | None => exists u, use_https rest_config = Ok u /\ truthy u = false
    | Some (cert, key) =>
        ssl_cert rest_config = Ok cert /\ ssl_key rest_config = Ok key /\
        non_empty_str cert /\ non_empty_str key
    end.
Proof.
  intros Hrest (p & h & u & Hp & Hh & Hu & Hssl) Hsame.
  apply (check_unchanged_iff _ _ _ Hrest) in Hsame.
  unfold Rest.section_issues, Rest.https_issues in Hsame.
  rewrite Hp, Hh, Hu in Hsame. cbn [when_read] in Hsame.
  unfold Rest.ssl_context. rewrite Hu. cbn [mbind result_bind].
  destruct (truthy u) eqn:Ht.
  - destruct (Hssl eq_refl) as (c & k & Hc & Hk). rewrite Hc, Hk in *.
    cbn [when_read mbind result_bind] in *.
    apply app_eq_nil in Hsame as [_ E]. apply app_eq_nil in E as [_ E].
    apply app_eq_nil in E as [E1 E2].
    exists (Some (c, k)). split; [reflexivity |].
    split; [reflexivity |]. split; [reflexivity |].
    now rewrite <- (ssl_issues_nil "ssl_cert"), <- (ssl_issues_nil "ssl_key").
  - exists None. split; [reflexivity |]. now exists u.
Qed.

(** A section whose port, host and [use_https] are the defaults and read
    as they are passes the check, whatever its certificate and key. *)
Lemma check_defaults (rest_config : RestConfig) (collector : IssueCollector) :
  _port rest_config = _DEFAULT_PORT -> _host rest_config = _DEFAULT_HOST ->
  _use_https rest_config = _DEFAULT_USE_HTTPS ->
  (forall v, In v [_DEFAULT_PORT; _DEFAULT_HOST; _DEFAULT_USE_HTTPS] ->
             _replace_templates v = Ok v) ->
  _check (with_rest rest_config) collector = (collector, Ok collector).
Proof.
  intros Hport Hhost Hhttps Hread.
  rewrite (check_run _ _ rest_config) by apply lookup_singleton_eq.
  unfold Rest.section_issues, Rest.https_issues, Rest.port, Rest.host,
    Rest.use_https.
  rewrite Hport, Hhost, Hhttps, !Hread by (simpl; tauto).
  cbn. now rewrite with_errors_nil.
Qed.

(** X22.  The section that [default_config] returns, and any section after
    [_clean], passes the check: with a template handler that gives the
    default port, host and [use_https] back as they are, [_check] returns
    the collector with nothing added. *)
Theorem default_config_valid
    (UniqueSection__init__ : gmap string PyVal -> result (gmap string PyVal))
    (collector : IssueCollector) :
  (forall v, In v [_DEFAULT_PORT; _DEFAULT_HOST; _DEFAULT_USE_HTTPS] ->
             _replace_templates v = Ok v) ->
  (forall default,
     default_config UniqueSection__init__ = Ok default ->
     _check (with_rest default) collector = (collector, Ok collector)) /\
  (forall rest_config,
     _check (with_rest (_clean rest_config)) collector = (collector, Ok collector)).
Proof.
  intros Hread. split.
  - intros default. unfold default_config, __init__.
    cbn [existsb parameter_names]. rewrite !lookup_empty. cbn.
    destruct (UniqueSection__init__ ∅) as [kept|]; [| discriminate].
    cbn. intros [= <-]. now apply check_defaults.
  - intros rest_config. now apply check_defaults.
Qed.

End CheckerOutcome.

(** *** Closed instances of the properties above *)

(** [update_reads_settings] at a section whose port is the template of a
    variable that is not set, updated with a dict that holds a port. *)
Lemma update_reads_settings_witness :
  let c := {| _port := VStr "ENV[PORT]:int"; _host := VStr "127.0.0.1";
              _use_https := VBool false; _ssl_cert := VNone; _ssl_key := VNone;
              _properties := ∅ |} in
  port replace_templates_unset c = Raise (HandlerError "MissingEnvVariableError") /\
  _update replace_templates_unset c {[ _PORT_KEY := VInt 8080 ]} =
    Raise (HandlerError "MissingEnvVariableError").
Proof.
  intros c. split; [reflexivity |].
  destruct (update_reads_settings replace_templates_unset c {[ _PORT_KEY := VInt 8080 ]})
    as [_ Hraise].
  exact (Hraise _ eq_refl).
Defined.

(** [update_effect] at the section of the checker tests, updated with a
    port and a title. *)
Lemma update_effect_witness :
  let d : gmap string PyVal := {[ _PORT_KEY := VInt 9090; "title" := VStr "api" ]} in
  exists c',
    _update replace_templates_unset valid_config d = Ok c' /\
    _port c' = VInt 9090 /\ _host c' = VStr "0.0.0.0" /\
    _properties c' !! _PORT_KEY = None /\
    _properties c' !! "title" = Some (VStr "api").
Proof.
  intros d.
  destruct (_update replace_templates_unset valid_config d) as [c'|e] eqn:E;
    [| discriminate E].
  exists c'. split; [reflexivity |].
  destruct (update_effect replace_templates_unset valid_config c' d E)
    as (p & h & u & ce & k & Hp & Hh & _ & _ & _ & Hport & Hhost & _ & _ & _ &
        Hreserved & Hother).
  injection Hp as <-. injection Hh as <-.
  split; [exact Hport |]. split; [exact Hhost |]. split.
  - rewrite (Hreserved _PORT_KEY); [reflexivity | cbn; tauto].
  - rewrite (Hother "title"); [reflexivity |].
    cbn. intros HIn. repeat (destruct HIn as [? | HIn]; [discriminate |]).
    destruct HIn.
Defined.

(** [copy_after_update] at the default section updated with [{"self": 1}],
    and at the section of the checker tests. *)
Lemma copy_after_update_witness :
  let default := {| _port := VInt 5000; _host := VStr "127.0.0.1";
                    _use_https := VBool false; _ssl_cert := VNone;
                    _ssl_key := VNone; _properties := ∅ |} in
  _update replace_templates_unset default {[ "self" := VInt 1 ]}
    = Ok with_self_property /\
  (forall U, __copy__ U with_self_property = Raise TypeError) /\
  __copy__ keep_properties valid_config = Ok valid_config.
Proof.
  intros default.
  assert (E : _update replace_templates_unset default {[ "self" := VInt 1 ]}
              = Ok with_self_property) by reflexivity.
  split; [exact E |]. split.
  - intros U.
    destruct (copy_after_update replace_templates_unset U default) as [Hraise _].
    apply (Hraise with_self_property {[ "self" := VInt 1 ]} E).
    rewrite lookup_singleton_eq. eauto.
  - destruct (copy_after_update replace_templates_unset keep_properties valid_config)
      as [_ Hcopy].
    apply Hcopy; [| reflexivity]. intros parameter _. apply lookup_empty.
Defined.

(** [to_dict_from_dict] at a dict with a port and a title. *)
Lemma to_dict_from_dict_witness :
  let d : gmap string PyVal := {[ _PORT_KEY := VInt 8080; "title" := VStr "api" ]} in
  d !! "self" = None /\
  keep_properties (without_settings d) = Ok (without_settings d) /\
  (forall key, In key reserved_keys -> d !! key <> Some VNone) /\
  exists c, _from_dict keep_properties d = Ok c /\ _to_dict c = d.
Proof.
  intros d.
  assert (Hset : forall key, In key reserved_keys -> d !! key <> Some VNone).
  { intros key Hkey. simpl in Hkey.
    destruct Hkey as [<- | [<- | [<- | [<- | [<- | []]]]]]; discriminate. }
  split; [reflexivity |]. split; [reflexivity |]. split; [exact Hset |].
  exact (to_dict_from_dict keep_properties d eq_refl eq_refl Hset).
Defined.

Lemma valid_config_ssl :
  truthy (VBool true) = true ->
  exists c k, ssl_cert replace_templates_unset valid_config = Ok c /\
              ssl_key replace_templates_unset valid_config = Ok k.
Proof. intros _. now exists (VStr "cert.pem"), (VStr "key.pem"). Qed.

(** [check_accepts] at the configuration of
    [test_rest_config_checker_valid_config]. *)
Lemma check_accepts_witness :
  _unique_sections (with_rest valid_config) !! name = Some valid_config /\
  port replace_templates_unset valid_config = Ok (VInt 8080) /\
  host replace_templates_unset valid_config = Ok (VStr "0.0.0.0") /\
  use_https replace_templates_unset valid_config = Ok (VBool true) /\
  ssl_cert replace_templates_unset valid_config = Ok (VStr "cert.pem") /\
  ssl_key replace_templates_unset valid_config = Ok (VStr "key.pem") /\
  ((_check replace_templates_unset (with_rest valid_config) no_issue).1 = no_issue <->
   (exists n : Z, int_value (VInt 8080) = Some n /\ 1 <= n <= 65535) /\
   non_empty_str (VStr "0.0.0.0") /\
   (truthy (VBool true) = true ->
    exists c k,
      ssl_cert replace_templates_unset valid_config = Ok c /\
      ssl_key replace_templates_unset valid_config = Ok k /\
      non_empty_str c /\ non_empty_str k)).
Proof.
  do 6 (split; [reflexivity |]).
  exact (check_accepts replace_templates_unset (with_rest valid_config) no_issue
           valid_config (VInt 8080) (VStr "0.0.0.0") (VBool true)
           eq_refl eq_refl eq_refl eq_refl valid_config_ssl).
Defined.

(** [check_returns_iff] at the same configuration, where the check
    returns, and at [unset_port_section], where it raises what reading the
    port raises. *)
Lemma check_returns_iff_witness :
  _unique_sections (with_rest valid_config) !! name = Some valid_config /\
  readable replace_templates_unset valid_config /\
  _unique_sections (with_rest unset_port_section) !! name = Some unset_port_section /\
  port replace_templates_unset unset_port_section
    = Raise (HandlerError "MissingEnvVariableError") /\
  (exists returned,
     (_check replace_templates_unset (with_rest valid_config) no_issue).2 = Ok returned /\
     returned = (_check replace_templates_unset (with_rest valid_config) no_issue).1) /\
  (_check replace_templates_unset (with_rest unset_port_section) no_issue).2
    = Raise (HandlerError "MissingEnvVariableError").
Proof.
  split; [reflexivity |]. split; [exact valid_config_readable |].
  split; [reflexivity |]. split; [reflexivity |]. split.
  - destruct (check_returns_iff replace_templates_unset (with_rest valid_config)
                no_issue valid_config eq_refl) as ([_ Hreturns] & Hsame & _).
    destruct (Hreturns valid_config_readable) as [returned E].
    exists returned. split; [exact E | exact (Hsame returned E)].
  - destruct (check_returns_iff replace_templates_unset
                (with_rest unset_port_section) no_issue unset_port_section eq_refl)
      as (_ & _ & Hraises).
    apply Hraises. now left.
Defined.

(** [ssl_context_after_check] at the same configuration. *)
Lemma ssl_context_after_check_witness :
  _unique_sections (with_rest valid_config) !! name = Some valid_config /\
  readable replace_templates_unset valid_config /\
  (_check replace_templates_unset (with_rest valid_config) no_issue).1 = no_issue /\
  exists context,
    ssl_context replace_templates_unset valid_config = Ok context /\
    match context with
    | None =>
        exists u, use_https replace_templates_unset valid_config = Ok u /\
                  truthy u = false
    | Some (cert, key) =>
        ssl_cert replace_templates_unset valid_config = Ok cert /\
        ssl_key replace_templates_unset valid_config = Ok key /\
        non_empty_str cert /\ non_empty_str key
    end.
Proof.
  split; [reflexivity |]. split; [exact valid_config_readable |].
  split; [reflexivity |].
  exact (ssl_context_after_check replace_templates_unset (with_rest valid_config)
           no_issue valid_config eq_refl valid_config_readable eq_refl).
Defined.

(** [default_config_valid] with the template handler of the tests and a
    base class that keeps the properties. *)
Lemma default_config_valid_witness :
  (forall v, In v [_DEFAULT_PORT; _DEFAULT_HOST; _DEFAULT_USE_HTTPS] ->
             replace_templates_unset v = Ok v) /\
  exists default,
    default_config keep_properties = Ok default /\
    _check replace_templates_unset (with_rest default) no_issue =
      (no_issue, Ok no_issue) /\
    _check replace_templates_unset (with_rest (_clean valid_config)) no_issue =
      (no_issue, Ok no_issue).
Proof.
  assert (Hread : forall v, In v [_DEFAULT_PORT; _DEFAULT_HOST; _DEFAULT_USE_HTTPS] ->
                            replace_templates_unset v = Ok v).
  { intros v [<- | [<- | [<- | []]]]; reflexivity. }
  split; [exact Hread |].
  destruct (default_config_valid replace_templates_unset keep_properties no_issue Hread)
    as [Hdefault Hclean].
  eexists. split; [reflexivity |]. split.
  - apply Hdefault. reflexivity.
  - apply Hclean.
Defined.

End RestFacts.

(** ** The Markdown factory *)

Module MarkdownFacts.
Import Markdown.

(** C7.  When the builder lookup for the element type [t] returns [None],
    [create_element] returns exactly the string [<|UNKNOWN ELEMENT TYPE 't'|>]
    with [t] in it, whatever the properties string. *)
Theorem create_element_unknown (Gui Element : Type)
    (_PROPERTY_RE_findall : string -> list (string * string))
    (call_builder : Gui -> string -> gmap string string -> result (option Element))
    (gui : Gui) (element_type all_properties : string) :
  call_builder gui element_type (dict_of_pairs (_PROPERTY_RE_findall all_properties))
    = Ok None ->
  create_element Gui Element _PROPERTY_RE_findall call_builder
    gui element_type all_properties =
  Ok (inr ("<|UNKNOWN ELEMENT TYPE '" +:+ element_type +:+ "'|>")).
Proof. intros E. unfold create_element. now rewrite E. Qed.

(** A builder's result is returned as it is. *)
Lemma create_element_built (Gui Element : Type)
    (_PROPERTY_RE_findall : string -> list (string * string))
    (call_builder : Gui -> string -> gmap string string -> result (option Element))
    (gui : Gui) (element_type all_properties : string) (md : Element) :
  call_builder gui element_type (dict_of_pairs (_PROPERTY_RE_findall all_properties))
    = Ok (Some md) ->
  create_element Gui Element _PROPERTY_RE_findall call_builder
    gui element_type all_properties = Ok (inl md).
Proof. intros E. unfold create_element. now rewrite E. Qed.

(** A later property replaces an earlier one of the same name. *)
Example dict_of_pairs_sample :
  dict_of_pairs [("width", "150px"); ("persistent", "True"); ("width", "50%")]
  = {[ "width" := "50%"; "persistent" := "True" ]}.
Proof. vm_compute. reflexivity. Qed.

(** The theorem for C7 at the element type [gauge] of a factory that has no
    builder, whatever the properties found in the tag. *)
Lemma create_element_unknown_witness :
  (forall (findall : string -> list (string * string)) (all_properties : string),
     no_builder tt "gauge" (dict_of_pairs (findall all_properties))
       = Ok (None : option string)) /\
  (forall (findall : string -> list (string * string)) (all_properties : string),
     create_element unit string findall no_builder tt "gauge" all_properties =
     Ok (inr "<|UNKNOWN ELEMENT TYPE 'gauge'|>")).
Proof.
  split; [reflexivity |]. intros findall all_properties.
  exact (create_element_unknown unit string findall no_builder tt "gauge"
           all_properties eq_refl).
Defined.

(** *** The properties dict *)

Lemma dict_of_pairs_snoc (pairs : list (string * string)) (key value : string) :
  dict_of_pairs (pairs ++ [(key, value)]) = <[key := value]> (dict_of_pairs pairs).
Proof. unfold dict_of_pairs. now rewrite foldl_app. Qed.

(** X23.  The dict that [create_element] hands to the builder holds, for
    each property name found in the tag, the value of its last occurrence,
    and holds no other key. *)
Theorem dict_of_pairs_last (pairs : list (string * string)) (key : string) :
  (forall before after value,
     pairs = (before ++ (key, value) :: after)%list -> ~ In key after.*1 ->
     dict_of_pairs pairs !! key = Some value) /\
  (~ In key pairs.*1 -> dict_of_pairs pairs !! key = None).
Proof.
  induction pairs as [|[k v] pairs IH] using rev_ind.
  - split; [| reflexivity]. intros [|? ?] after value [=].
  - rewrite dict_of_pairs_snoc. cbn [fst snd]. destruct IH as [IHlast IHnone]. split.
    + intros before after value E Hnot.
      destruct after as [|item after _] using rev_ind.
      * apply app_inj_tail in E as [_ [= -> ->]]. apply lookup_insert_eq.
      * rewrite app_comm_cons, app_assoc in E.
        apply app_inj_tail in E as [-> <-].
        rewrite fmap_app in Hnot. cbn in Hnot.
        rewrite lookup_insert_ne.
        -- apply (IHlast before after value eq_refl).
           intros HIn. apply Hnot. apply in_or_app. now left.
        -- intros <-. apply Hnot. apply in_or_app. right. now left.
    + intros Hnot. rewrite fmap_app in Hnot. cbn in Hnot.
      rewrite lookup_insert_ne.
      * apply IHnone. intros HIn. apply Hnot. apply in_or_app. now left.
      * intros <-. apply Hnot. apply in_or_app. right. now left.
Qed.

(** [dict_of_pairs_last] at a tag that gives [width] twice. *)
Lemma dict_of_pairs_last_witness :
  let pairs := [("width", "150px"); ("persistent", "True"); ("width", "50%")] in
  pairs = ([("width", "150px"); ("persistent", "True")] ++ ("width", "50%") :: [])%list /\
  ~ In "width" ([] : list (string * string)).*1 /\
  ~ In "height" pairs.*1 /\
  dict_of_pairs pairs !! "width" = Some "50%" /\
  dict_of_pairs pairs !! "height" = None.
Proof.
  intros pairs.
  assert (Hnot : ~ In "height" pairs.*1).
  { cbn. intros HIn. repeat (destruct HIn as [? | HIn]; [discriminate |]).
    destruct HIn. }
  split; [reflexivity |]. split; [intros [] |]. split; [exact Hnot |]. split.
  - destruct (dict_of_pairs_last pairs "width") as [Hlast _].
    exact (Hlast [("width", "150px"); ("persistent", "True")] [] "50%" eq_refl
             ltac:(intros [])).
  - destruct (dict_of_pairs_last pairs "height") as [_ Hnone]. exact (Hnone Hnot).
Defined.

End MarkdownFacts.
